(** * chat-server: conversations, messages, read receipts and the
      connection registry

    A shallow embedding of the mutation paths of the chat server:

    - [controllers/message.controller.ts]   (REST: sendMessage, markAsRead,
      deleteMessage, markMultipleAsRead),
    - [controllers/conversation.controller.ts] (REST: createConversation,
      addParticipants, removeParticipants, leaveConversation),
    - the [ChatSocket] class (real time: handleConnection, handleDisconnect,
      handleSendMessage, handleMessageRead).

    The MongoDB collections are finite maps from document id to document;
    every Mongoose call of the source is a function on those maps.  The
    clock ([new Date()]) and the id of a freshly created document are
    arguments of the operation that needs them.  Request ids are taken to
    be well-formed ObjectId strings. *)

From Stdlib Require Import Ascii.
From stdpp Require Import gmap strings list fin_maps sorting.

Local Open Scope string_scope.
Local Open Scope list_scope.
Local Open Scope nat_scope.

Abbreviation Id := string (only parsing).

(** ** Data model *)

(** A JavaScript value as it arrives in a request body or a socket event
    ([content: any]). *)
#[local] Set Warnings "-register-all".
Inductive JValue : Type :=
  | JUndefined
  | JNull
  | JBool (b : bool)
  | JStr (s : string)
  | JNum (n : Z)
  | JObj (fields : list (string * JValue)).
#[local] Set Warnings "register-all".

(** The object [formattedContent]: its own properties. *)
Abbreviation Payload := (gmap string JValue) (only parsing).

Record ReadInfo : Type := mkReadInfo { readUser : Id; readAt : nat }.

#[global] Instance ReadInfo_eq_dec : EqDecision ReadInfo.
Proof. solve_decision. Defined.

Module Message.
Record t : Type := mk {
  conversation : Id;
  sender : Id;
  type : string;
  content : Payload;
  status : option string;
  readBy : list ReadInfo;
  isDeleted : bool;
  deletedAt : option nat;
  deletedBy : option Id;
  createdAt : nat
}.

Definition set_readBy (f : list ReadInfo → list ReadInfo) (m : t) : t :=
  mk (conversation m) (sender m) (type m) (content m) (status m)
     (f (readBy m)) (isDeleted m) (deletedAt m) (deletedBy m) (createdAt m).

(** [message.isDeleted = true; message.deletedAt = new Date();
    message.deletedBy = userId]. *)
Definition softDelete (now : nat) (userId : Id) (m : t) : t :=
  mk (conversation m) (sender m) (type m) (content m) (status m)
     (readBy m) true (Some now) (Some userId) (createdAt m).
End Message.

Record Participant : Type := mkParticipant {
  partUser : Id;
  partRole : string;
  joinedAt : nat;
  lastReadMessage : option Id
}.

Record Admin : Type := mkAdmin {
  adminUser : Id;
  adminRole : string;
  assignedAt : nat
}.

Record UnreadCount : Type := mkUnread { unreadUser : Id; count : nat }.

Module Conversation.
Record t : Type := mk {
  type : string;
  name : option string;
  description : option string;
  avatar : option string;
  participants : list Participant;
  admins : list Admin;
  settings : gmap string JValue;
  memberCount : nat;
  lastMessage : option Id;
  unreadCount : list UnreadCount;
  isDeleted : bool;
  deletedAt : option nat
}.

Definition set_lastMessage (v : option Id) (c : t) : t :=
  mk (type c) (name c) (description c) (avatar c) (participants c) (admins c)
     (settings c) (memberCount c) v (unreadCount c) (isDeleted c)
     (deletedAt c).

Definition set_unreadCount (f : list UnreadCount → list UnreadCount)
    (c : t) : t :=
  mk (type c) (name c) (description c) (avatar c) (participants c) (admins c)
     (settings c) (memberCount c) (lastMessage c) (f (unreadCount c))
     (isDeleted c) (deletedAt c).

Definition set_participants (f : list Participant → list Participant)
    (c : t) : t :=
  mk (type c) (name c) (description c) (avatar c) (f (participants c))
     (admins c) (settings c) (memberCount c) (lastMessage c)
     (unreadCount c) (isDeleted c) (deletedAt c).

Definition set_admins (f : list Admin → list Admin) (c : t) : t :=
  mk (type c) (name c) (description c) (avatar c) (participants c)
     (f (admins c)) (settings c) (memberCount c) (lastMessage c)
     (unreadCount c) (isDeleted c) (deletedAt c).

Definition set_memberCount (n : nat) (c : t) : t :=
  mk (type c) (name c) (description c) (avatar c) (participants c)
     (admins c) (settings c) n (lastMessage c) (unreadCount c)
     (isDeleted c) (deletedAt c).
End Conversation.

Record User : Type := mkUser { userStatus : string; lastSeen : nat }.

(** The three collections. *)
Record DB : Type := mkDB {
  messages : gmap string Message.t;
  conversations : gmap string Conversation.t;
  users : gmap string User
}.

Definition with_messages (f : gmap string Message.t → gmap string Message.t)
    (db : DB) : DB :=
  mkDB (f (messages db)) (conversations db) (users db).

Definition with_conversations
    (f : gmap string Conversation.t → gmap string Conversation.t)
    (db : DB) : DB :=
  mkDB (messages db) (f (conversations db)) (users db).

Definition with_users (f : gmap string User → gmap string User) (db : DB) : DB :=
  mkDB (messages db) (conversations db) (f (users db)).

(** The schemas ([models/*.ts]) are not among the sources.  What a new
    document holds in an array path that its constructor is not given is
    the schema's default for that path, taken here as a parameter. *)
Record SchemaDefaults : Type := mkDefaults {
  readByDefault : list ReadInfo;
  unreadCountDefault : list UnreadCount
}.

(** Mongoose's own default for an array path: the empty array. *)
Definition mongooseDefaults : SchemaDefaults := mkDefaults [] [].

(** An HTTP answer: [res.status(s).json({ message })]. *)
Record Response : Type := mkResponse { statusCode : nat; message : string }.

(** ** MongoDB operators *)

(** [$addToSet]: append unless an equal element is there. *)
Definition addToSet {A} `{EqDecision A} (x : A) (l : list A) : list A :=
  if decide (x ∈ l) then l else (l ++ [x])%list.

(** [readBy.some(read => read.user.toString() === userId)]. *)
Definition alreadyRead (userId : Id) (m : Message.t) : bool :=
  bool_decide (userId ∈ readUser <$> Message.readBy m).

(** The update [{ $addToSet: { readBy: { user, readAt: new Date() } } }]. *)
Definition pushRead (userId : Id) (now : nat) : Message.t → Message.t :=
  Message.set_readBy (addToSet (mkReadInfo userId now)).

(** [Message.updateOne({ _id }, u)] and [Message.findByIdAndUpdate(id, u)]:
    no document with that id, no change. *)
Definition Message_updateOne (id : Id) (u : Message.t → Message.t)
    (db : DB) : DB :=
  with_messages (alter u id) db.

(** [Message.bulkWrite] of a list of [updateOne] operations. *)
Definition Message_bulkWrite (ops : list (Id * (Message.t → Message.t)))
    (db : DB) : DB :=
  foldl (λ d op, Message_updateOne op.1 op.2 d) db ops.

(** [Message.find(q)]: the documents matching the query, with their ids. *)
Definition Message_find (q : Id → Message.t → Prop)
    `{∀ i m, Decision (q i m)} (db : DB) : list (Id * Message.t) :=
  filter (λ im, q im.1 im.2) (map_to_list (messages db)).

(** [.sort({ createdAt: -1 })] followed by taking the first document: a
    document of greatest [createdAt]. *)
Fixpoint latest (l : list (Id * Message.t)) : option (Id * Message.t) :=
  match l with
  | [] => None
  | x :: l' =>
      match latest l' with
      | Some y =>
          if decide (Message.createdAt x.2 < Message.createdAt y.2)
          then Some y else Some x
      | None => Some x
      end
  end.

Definition isParticipant (userId : Id) (c : Conversation.t) : bool :=
  bool_decide (userId ∈ partUser <$> Conversation.participants c).

(** [Conversation.findOne({ _id, "participants.user": userId })]. *)
Definition Conversation_findOne_participant (conversationId userId : Id)
    (db : DB) : option Conversation.t :=
  match conversations db !! conversationId with
  | Some c => if isParticipant userId c then Some c else None
  | None => None
  end.

(** The same query with [isDeleted: false]. *)
Definition Conversation_findOne_live (conversationId userId : Id)
    (db : DB) : option Conversation.t :=
  match Conversation_findOne_participant conversationId userId db with
  | Some c => if Conversation.isDeleted c then None else Some c
  | None => None
  end.

(** [conversation.save()] of a document loaded under [conversationId]. *)
Definition Conversation_save (conversationId : Id) (c : Conversation.t)
    (db : DB) : DB :=
  with_conversations (insert conversationId c) db.

(** [$inc: { "unreadCount.$[elem].count": 1 }] with
    [arrayFilters: [{ "elem.user": { $ne: userId } }]]. *)
Definition incUnreadExcept (userId : Id) (l : list UnreadCount)
    : list UnreadCount :=
  (λ e, if decide (unreadUser e ≠ userId)
        then mkUnread (unreadUser e) (count e + 1) else e) <$> l.

(** [$set: { "unreadCount.$[elem].count": 0 }] with
    [arrayFilters: [{ "elem.user": userId }]]. *)
Definition zeroUnreadOf (userId : Id) (l : list UnreadCount)
    : list UnreadCount :=
  (λ e, if decide (unreadUser e = userId)
        then mkUnread (unreadUser e) 0 else e) <$> l.

(** The positional operator [$]: the update applies to the first array
    element the query matched, and to none when no element matches (the
    query then selects no document). *)
Fixpoint updateFirst {A} (p : A → bool) (u : A → A) (l : list A) : list A :=
  match l with
  | [] => []
  | x :: l' => if p x then u x :: l' else x :: updateFirst p u l'
  end.

(** [Conversation.updateOne({ _id, "participants.user": userId },
    { $set: { "participants.$.lastReadMessage": id } })]. *)
Definition setLastRead (userId messageId : Id) (l : list Participant)
    : list Participant :=
  updateFirst (λ p, bool_decide (partUser p = userId))
    (λ p, mkParticipant (partUser p) (partRole p) (joinedAt p) (Some messageId))
    l.

(** [Conversation.updateOne({ _id, "unreadCount.user": userId },
    { $set: { "unreadCount.$.count": 0 } })]. *)
Definition resetUnread (userId : Id) (l : list UnreadCount)
    : list UnreadCount :=
  updateFirst (λ e, bool_decide (unreadUser e = userId))
    (λ e, mkUnread (unreadUser e) 0) l.

Definition Conversation_updateOne (id : Id)
    (u : Conversation.t → Conversation.t) (db : DB) : DB :=
  with_conversations (alter u id) db.

(** ** Message controller (REST) *)

(** [{ text: content }], [{ media: content }], ... *)
Definition field (k : string) (v : JValue) : Payload := {[ k := v ]}.

(** The [if]/[else if] chain of [sendMessage] that builds
    [formattedContent]; [{}] when no branch applies. *)
Definition formatContent (type : string) (content : JValue) : Payload :=
  if decide (type = "text") then field "text" content
  else if decide (type = "image" ∨ type = "video" ∨ type = "file")
       then field "media" content
  else if decide (type = "location") then field "location" content
  else if decide (type = "contact") then field "contact" content
  else if decide (type = "call") then field "call" content
  else if decide (type = "poll") then field "poll" content
  else ∅.

Record SendBody : Type := mkSendBody {
  conversationId : Id;
  content : JValue;
  type : option string
}.

(** [new Message({ conversation, sender, type, content })]: [readBy] is
    left to the schema. *)
Definition newMessage (dflt : SchemaDefaults) (now : nat)
    (conversationId senderId : Id) (type : string) (formattedContent : Payload)
    : Message.t :=
  Message.mk conversationId senderId type formattedContent None
    (readByDefault dflt) false None None now.

Definition sendMessage (dflt : SchemaDefaults) (now : nat) (newId : Id)
    (reqUser : option Id) (body : SendBody) (db : DB) : DB * Response :=
  match reqUser with
  | None => (db, mkResponse 401 "Unauthorized")
  | Some senderId =>
      let type := default "text" (type body) in
      match Conversation_findOne_participant (conversationId body) senderId db with
      | None => (db, mkResponse 404 "Conversation not found")
      | Some conversation =>
          let formattedContent := formatContent type (content body) in
          let message :=
            newMessage dflt now (conversationId body) senderId type
              formattedContent in
          let db1 := with_messages (insert newId message) db in
          let db2 :=
            Conversation_save (conversationId body)
              (Conversation.set_lastMessage (Some newId) conversation) db1 in
          (db2, mkResponse 201 "")
      end
  end.

Definition markAsRead (now : nat) (reqUser : option Id) (messageId : Id)
    (db : DB) : DB * Response :=
  match reqUser with
  | None => (db, mkResponse 401 "Unauthorized")
  | Some userId =>
      match messages db !! messageId with
      | None => (db, mkResponse 404 "Message not found")
      | Some message =>
          if alreadyRead userId message
          then (db, mkResponse 400 "You have already read this message")
          else (Message_updateOne messageId (pushRead userId now) db,
                mkResponse 200 "Message marked as read")
      end
  end.

(** [Message.findOne({ conversation, isDeleted: false })
      .sort({ createdAt: -1 })]. *)
Definition lastLiveMessage (conversationId : Id) (db : DB)
    : option (Id * Message.t) :=
  latest (Message_find
            (λ (_ : Id) (m : Message.t),
               Message.conversation m = conversationId
                    ∧ Message.isDeleted m = false) db).

Definition deleteMessage (now : nat) (reqUser : option Id) (messageId : Id)
    (db : DB) : DB * Response :=
  match reqUser with
  | None => (db, mkResponse 401 "Unauthorized")
  | Some userId =>
      match messages db !! messageId with
      | None => (db, mkResponse 404 "Message not found")
      | Some message =>
          if negb (bool_decide (Message.sender message = userId))
          then (db, mkResponse 403 "Not authorized")
          else
            let db1 :=
              with_messages
                (insert messageId (Message.softDelete now userId message)) db in
            let db2 :=
              match conversations db1 !! Message.conversation message with
              | Some conversation =>
                  if bool_decide
                       (Conversation.lastMessage conversation = Some messageId)
                  then
                    let lastMessage :=
                      lastLiveMessage (Message.conversation message) db1 in
                    Conversation_save (Message.conversation message)
                      (Conversation.set_lastMessage (fst <$> lastMessage)
                         conversation) db1
                  else db1
              | None => db1
              end in
            (db2, mkResponse 200 "Message deleted")
      end
  end.

Record MarkManyBody : Type := mkMarkManyBody {
  messageIds : option (list Id);      (* [None]: not an array *)
  readConversationId : option Id      (* [None]: missing *)
}.

(** JavaScript truthiness of an optional string. *)
Definition truthy (o : option string) : bool :=
  match o with
  | Some s => negb (bool_decide (s = ""))
  | None => false
  end.

(** The answer of [markMultipleAsRead] carries [updatedMessageIds] when
    the call gets past its guards. *)
Record MarkManyResult : Type := mkMarkManyResult {
  markResponse : Response;
  updatedMessageIds : option (list Id)
}.

(** The query [{ _id: { $in: messageIds }, conversation: conversationId,
    "readBy.user": { $ne: userId } }]. *)
Definition unreadAmong (ids : list Id) (conversationId userId : Id)
    (i : Id) (m : Message.t) : Prop :=
  i ∈ ids ∧ Message.conversation m = conversationId
  ∧ userId ∉ readUser <$> Message.readBy m.

#[global] Instance unreadAmong_dec ids c u i m :
  Decision (unreadAmong ids c u i m).
Proof. unfold unreadAmong. apply _. Defined.

(** The query [{ _id: { $in: messageIdList } }]. *)
Definition idAmong (ids : list Id) (i : Id) (_ : Message.t) : Prop := i ∈ ids.

#[global] Instance idAmong_dec ids i m : Decision (idAmong ids i m).
Proof. unfold idAmong. apply _. Defined.

Definition markMultipleAsRead (now : nat) (reqUser : option Id)
    (body : MarkManyBody) (db : DB) : DB * MarkManyResult :=
  match reqUser with
  | None => (db, mkMarkManyResult (mkResponse 401 "Unauthorized") None)
  | Some userId =>
      match messageIds body with
      | None | Some [] =>
          (db, mkMarkManyResult
                 (mkResponse 400
                    "Invalid messageIds. Must be a non-empty array.") None)
      | Some ids =>
          if negb (truthy (readConversationId body))
          then (db, mkMarkManyResult
                      (mkResponse 400 "conversationId is required") None)
          else
            let conversationId := default "" (readConversationId body) in
            match Conversation_findOne_participant conversationId userId db with
            | None =>
                (db, mkMarkManyResult
                       (mkResponse 404
                          "Conversation not found or you are not a participant")
                       None)
            | Some _ =>
                let found :=
                  Message_find (unreadAmong ids conversationId userId) db in
                match found with
                | [] =>
                    (db, mkMarkManyResult
                           (mkResponse 200 "No new messages to mark as read")
                           (Some []))
                | _ :: _ =>
                    let updatedMessageIds := fst <$> found in
                    let updateOperations :=
                      (λ im : Id * Message.t, (im.1, pushRead userId now))
                        <$> found in
                    let db1 := Message_bulkWrite updateOperations db in
                    let latestMessage :=
                      latest (Message_find (idAmong updatedMessageIds) db1) in
                    let db2 :=
                      match latestMessage with
                      | Some lm =>
                          Conversation_updateOne conversationId
                            (Conversation.set_participants
                               (setLastRead userId lm.1)) db1
                      | None => db1
                      end in
                    let db3 :=
                      Conversation_updateOne conversationId
                        (Conversation.set_unreadCount (resetUnread userId))
                        db2 in
                    (db3, mkMarkManyResult
                            (mkResponse 200
                               "Messages marked as read successfully")
                            (Some updatedMessageIds))
                end
            end
      end
  end.

(** ** Conversation controller (REST) *)

Record CreateBody : Type := mkCreateBody {
  newType : string;
  newParticipants : option (list Id);   (* [None]: no array in the body *)
  newName : option string;
  newDescription : option string;
  newAvatar : option string
}.

Definition conversationTypes : list string :=
  ["direct"; "group"; "channel"; "broadcast"].

(** The [settings] object a new conversation is given. *)
Definition newSettings (type : string) : gmap string JValue :=
  list_to_map
    [("allowInvites", JBool (bool_decide (type ≠ "direct")));
     ("onlyAdminsCanPost", JBool false);
     ("slowMode", JObj [("enabled", JBool false); ("interval", JNum 0)]);
     ("messageRetention", JNum 0);
     ("joinMode", JStr "open");
     ("messageApproval", JBool false);
     ("antiSpam", JObj [("enabled", JBool true);
                        ("maxMessagesPerMinute", JNum 20)])].

(** [UserModel.find({ _id: { $in: participantIds } })]. *)
Definition existingUsers (participantIds : list Id) (db : DB)
    : list (Id * User) :=
  filter (λ iu : Id * User, iu.1 ∈ participantIds) (map_to_list (users db)).

Definition createConversation (dflt : SchemaDefaults) (now : nat) (newId : Id)
    (reqUser : option Id) (body : CreateBody) (db : DB) : DB * Response :=
  match reqUser with
  | None => (db, mkResponse 401 "Unauthorized")
  | Some creatorId =>
      let type := newType body in
      if negb (bool_decide (type ∈ conversationTypes))
      then (db, mkResponse 400 "Invalid conversation type")
      else if bool_decide (type ≠ "direct") && negb (truthy (newName body))
      then (db, mkResponse 400 "Name is required for group/channel/broadcast")
      else
        match newParticipants body with
        | None => (db, mkResponse 500 "Error creating conversation")
        | Some participantIds =>
            if bool_decide (type = "direct")
               && negb (bool_decide (length participantIds = 1))
            then (db, mkResponse 400
                        "Direct conversation must have exactly 2 participants")
            else if negb (bool_decide
                            (length (existingUsers participantIds db)
                             = length participantIds))
            then (db, mkResponse 400 "One or more participants do not exist")
            else
              let participantsWithRoles :=
                mkParticipant creatorId "owner" now None
                :: ((λ userId, mkParticipant userId "member" now None)
                      <$> participantIds) in
              let conversation :=
                Conversation.mk type (newName body) (newDescription body)
                  (newAvatar body) participantsWithRoles
                  (if bool_decide (type ≠ "direct")
                   then [mkAdmin creatorId "owner" now] else [])
                  (newSettings type)
                  (length participantsWithRoles)
                  None (unreadCountDefault dflt) false None in
              (Conversation_save newId conversation db, mkResponse 201 "")
        end
  end.

(** [conversation.participants.find(p => p.user.toString() === userId)]. *)
Definition findParticipant (userId : Id) (c : Conversation.t)
    : option Participant :=
  find (λ p, bool_decide (partUser p = userId)) (Conversation.participants c).

(** [!currentParticipant || !["admin", "owner"].includes(role)]. *)
Definition notAdminOrOwner (o : option Participant) : bool :=
  match o with
  | None => true
  | Some p => negb (bool_decide (partRole p ∈ ["admin"; "owner"]))
  end.

Definition addParticipants (now : nat) (reqUser : option Id)
    (conversationId : Id) (participantIds : list Id) (db : DB)
    : DB * Response :=
  match reqUser with
  | None => (db, mkResponse 401 "Unauthorized")
  | Some userId =>
      match Conversation_findOne_live conversationId userId db with
      | None => (db, mkResponse 404 "Conversation not found")
      | Some conversation =>
          if bool_decide (Conversation.type conversation = "direct")
          then (db, mkResponse 400
                      "Cannot add participants to direct conversation")
          else if notAdminOrOwner (findParticipant userId conversation)
          then (db, mkResponse 403 "Not authorized to add participants")
          else if negb (bool_decide
                          (length (existingUsers participantIds db)
                           = length participantIds))
          then (db, mkResponse 400 "One or more participants do not exist")
          else
            let existingParticipants :=
              filter (λ p, partUser p ∈ participantIds)
                (Conversation.participants conversation) in
            if bool_decide (0 < length existingParticipants)
            then (db, mkResponse 400
                        "One or more participants already in conversation")
            else
              let newParticipants :=
                (λ u, mkParticipant u "member" now None) <$> participantIds in
              let c1 :=
                Conversation.set_participants (λ l, (l ++ newParticipants)%list)
                  conversation in
              let c2 :=
                Conversation.set_memberCount
                  (length (Conversation.participants c1)) c1 in
              (Conversation_save conversationId c2 db, mkResponse 200 "")
      end
  end.

Definition removeParticipants (reqUser : option Id) (conversationId : Id)
    (participantIds : list Id) (db : DB) : DB * Response :=
  match reqUser with
  | None => (db, mkResponse 401 "Unauthorized")
  | Some userId =>
      match Conversation_findOne_live conversationId userId db with
      | None => (db, mkResponse 404 "Conversation not found")
      | Some conversation =>
          if bool_decide (Conversation.type conversation = "direct")
          then (db, mkResponse 400
                      "Cannot remove participants from direct conversation")
          else if notAdminOrOwner (findParticipant userId conversation)
          then (db, mkResponse 403 "Not authorized to remove participants")
          else
            let owner :=
              find (λ p, bool_decide (partRole p = "owner")
                         && bool_decide (partUser p ∈ participantIds))
                (Conversation.participants conversation) in
            match owner with
            | Some _ =>
                (db, mkResponse 400 "Cannot remove the owner from conversation")
            | None =>
                let c1 :=
                  Conversation.set_participants
                    (filter (λ p, partUser p ∉ participantIds)) conversation in
                let c2 :=
                  Conversation.set_memberCount
                    (length (Conversation.participants c1)) c1 in
                let c3 :=
                  Conversation.set_admins
                    (filter (λ a, adminUser a ∉ participantIds)) c2 in
                (Conversation_save conversationId c3 db, mkResponse 200 "")
            end
      end
  end.

Definition leaveConversation (reqUser : option Id) (conversationId : Id)
    (db : DB) : DB * Response :=
  match reqUser with
  | None => (db, mkResponse 401 "Unauthorized")
  | Some userId =>
      match Conversation_findOne_live conversationId userId db with
      | None => (db, mkResponse 404 "Conversation not found")
      | Some conversation =>
          if bool_decide (Conversation.type conversation = "direct")
          then (db, mkResponse 400 "Cannot leave direct conversation")
          else if bool_decide
                    (partRole <$> findParticipant userId conversation
                     = Some "owner")
          then (db, mkResponse 400
                      "Owner cannot leave the conversation. Please transfer ownership or delete the conversation instead.")
          else
            let c1 :=
              Conversation.set_participants
                (filter (λ p, partUser p ≠ userId)) conversation in
            let c2 :=
              Conversation.set_memberCount
                (length (Conversation.participants c1)) c1 in
            let c3 :=
              Conversation.set_admins (filter (λ a, adminUser a ≠ userId)) c2 in
            (Conversation_save conversationId c3 db,
             mkResponse 200 "Successfully left the conversation")
      end
  end.

(** ** The real-time class [ChatSocket] *)

Record ConnectedUser : Type := mkConnected { userId : Id; socketId : string }.

(** A connected socket: [socket.id] and [socket.data.userId]. *)
Record Socket : Type := mkSocket { sockId : string; sockUser : Id }.

(** The private map [connectedUsers : Map<string, ConnectedUser>] next to
    the persisted collections. *)
Record World : Type := mkWorld {
  connectedUsers : gmap string ConnectedUser;
  store : DB
}.

Inductive Target : Type :=
  | ToSocket (socketId : string)       (* [socket.emit], [io.to(socketId)] *)
  | ToOthers (socketId : string)       (* [socket.broadcast.emit] *)
  | ToRoom (room : string)             (* [io.to(room)] *)
  | ToAll.                             (* [io.emit] *)

(** An emitted event: where it goes, its name, the ids it names. *)
Record Emit : Type := mkEmit {
  target : Target;
  event : string;
  about : list Id
}.

(** [UserModel.findByIdAndUpdate(userId, { status, lastSeen: new Date() })]. *)
Definition setUserStatus (userId : Id) (status : string) (now : nat)
    (db : DB) : DB :=
  with_users (alter (λ _, mkUser status now) userId) db.

Definition getOnlineUsersFromDB (db : DB) : list Id :=
  fst <$> filter (λ iu : Id * User, userStatus iu.2 = "online")
            (map_to_list (users db)).

Definition handleConnection (now : nat) (socket : Socket) (w : World)
    : World * list Emit :=
  let userId := sockUser socket in
  let db1 := setUserStatus userId "online" now (store w) in
  let connected :=
    <[userId := mkConnected userId (sockId socket)]> (connectedUsers w) in
  let onlineUsers := getOnlineUsersFromDB db1 in
  (mkWorld connected db1,
   [mkEmit (ToSocket (sockId socket)) "users:online" onlineUsers;
    mkEmit (ToOthers (sockId socket)) "user:status" [userId]]).

Definition handleDisconnect (now : nat) (socket : Socket) (w : World)
    : World * list Emit :=
  let userId := sockUser socket in
  let db1 := setUserStatus userId "offline" now (store w) in
  (mkWorld (delete userId (connectedUsers w)) db1,
   [mkEmit ToAll "user:status" [userId]]).

(** The test the fan-out of [handleSendMessage] makes before it delivers
    to a participant: [connectedUsers.get(participantId)] is there. *)
Definition isOnline (w : World) (userId : Id) : bool :=
  bool_decide (is_Some (connectedUsers w !! userId)).

(** The sessions the registry holds for an identity. *)
Definition sessionsFor (w : World) (userId : Id) : list string :=
  match connectedUsers w !! userId with
  | Some cu => [socketId cu]
  | None => []
  end.

(** [content.media]: reading a property of [undefined] or [null] throws
    ([None]); a value without that own property gives [undefined]. *)
Definition getProp (v : JValue) (k : string) : option JValue :=
  match v with
  | JUndefined | JNull => None
  | JObj fields => Some (default JUndefined (snd <$> find (λ kv, bool_decide (kv.1 = k)) fields))
  | JBool _ | JStr _ | JNum _ => Some JUndefined
  end.

(** The [if]/[else if] chain of [handleSendMessage]; [None] when it
    throws. *)
Definition formatContentSocket (type : string) (content : JValue)
    : option Payload :=
  if decide (type = "text") then Some (field "text" content)
  else if decide (type = "file" ∨ type = "image" ∨ type = "video")
       then field "media" <$> getProp content "media"
  else if decide (type = "location") then Some (field "location" content)
  else if decide (type = "poll") then Some (field "poll" content)
  else if decide (type = "contact") then Some (field "contact" content)
  else if decide (type = "call") then Some (field "call" content)
  else Some ∅.

Record SendData : Type := mkSendData {
  sendConversationId : Id;
  sendContent : JValue;
  sendType : string
}.

(** [Conversation.findByIdAndUpdate(conversationId,
      { lastMessage: message._id, $inc: { "unreadCount.$[elem].count": 1 } },
      { arrayFilters: [{ "elem.user": { $ne: userId } }], new: true })]. *)
Definition bumpConversation (messageId userId : Id) (c : Conversation.t)
    : Conversation.t :=
  Conversation.set_unreadCount (incUnreadExcept userId)
    (Conversation.set_lastMessage (Some messageId) c).

(** The body of the [forEach] for a participant whose [user] has been
    populated: the two events, when the participant is not the sender and
    the registry holds a socket for it. *)
Definition deliverTo (w : World) (userId messageId conversationId : Id)
    (p : Participant) : list Emit :=
  if bool_decide (partUser p ≠ userId) then
    match connectedUsers w !! partUser p with
    | Some participantSocket =>
        [mkEmit (ToSocket (socketId participantSocket)) "message:new"
           [messageId; conversationId];
         mkEmit (ToSocket (socketId participantSocket))
           "conversation:updated" [conversationId]]
    | None => []
    end
  else [].

(** The [forEach] over the participants of the updated conversation,
    after [populate("participants.user")].  A participant without a user
    document is populated with [null] and [participant.user._id] throws:
    the loop ends there, with what it has emitted so far and [false]. *)
Fixpoint fanOut (w : World) (userId messageId conversationId : Id)
    (participants : list Participant) : list Emit * bool :=
  match participants with
  | [] => ([], true)
  | p :: rest =>
      match users (store w) !! partUser p with
      | None => ([], false)
      | Some _ =>
          let r := fanOut w userId messageId conversationId rest in
          (deliverTo w userId messageId conversationId p ++ r.1, r.2)
      end
  end.

Definition handleSendMessage (now : nat) (newId : Id) (socket : Socket)
    (data : SendData) (w : World) : World * list Emit :=
  let conversationId := sendConversationId data in
  let userId := sockUser socket in
  match formatContentSocket (sendType data) (sendContent data) with
  | None =>
      (w, [mkEmit (ToSocket (sockId socket)) "error" []])
  | Some formattedContent =>
      let message :=
        Message.mk conversationId userId (sendType data) formattedContent
          (Some "sent") [] false None None now in
      let db1 := with_messages (insert newId message) (store w) in
      let db2 := Message_updateOne newId (pushRead userId now) db1 in
      let db3 :=
        Conversation_updateOne conversationId (bumpConversation newId userId)
          db2 in
      let w' := mkWorld (connectedUsers w) db3 in
      let sent :=
        match conversations db3 !! conversationId with
        | Some conversation =>
            fanOut w userId newId conversationId
              (Conversation.participants conversation)
        | None => ([], true)
        end in
      (w',
       sent.1
       ++ (if sent.2
           then [mkEmit (ToSocket (sockId socket)) "message:new"
                   [newId; conversationId];
                 mkEmit (ToSocket (sockId socket)) "conversation:updated"
                   [conversationId]]
           else [mkEmit (ToSocket (sockId socket)) "error" []]))%list
  end.

Record ReadData : Type := mkReadData {
  readDataConversationId : Id;
  readDataMessageId : Id
}.

Definition handleMessageRead (now : nat) (socket : Socket) (data : ReadData)
    (w : World) : World * list Emit :=
  let conversationId := readDataConversationId data in
  let messageId := readDataMessageId data in
  let userId := sockUser socket in
  match messages (store w) !! messageId with
  | None => (w, [mkEmit (ToSocket (sockId socket)) "error" []])
  | Some existingMessage =>
      if alreadyRead userId existingMessage then (w, [])
      else
        let db1 := Message_updateOne messageId (pushRead userId now) (store w) in
        let db2 :=
          Conversation_updateOne conversationId
            (Conversation.set_unreadCount (zeroUnreadOf userId)) db1 in
        (mkWorld (connectedUsers w) db2,
         [mkEmit (ToRoom ("conversation:" +:+ conversationId)) "message:read"
            [messageId; userId; conversationId]])
  end.

(** ** Conversation controller: lookup, update and deletion *)

(** [getConversation]: the conversation for a participant, unless it is
    deleted. *)
Definition getConversation (reqUser : option Id) (conversationId : Id)
    (db : DB) : Response * option Conversation.t :=
  match reqUser with
  | None => (mkResponse 401 "Unauthorized", None)
  | Some userId =>
      match Conversation_findOne_live conversationId userId db with
      | None => (mkResponse 404 "Conversation not found", None)
      | Some conversation => (mkResponse 200 "", Some conversation)
      end
  end.

(** The body of an update.  [updSettings] is [None] for a body whose
    [settings] is missing or falsy, and otherwise holds the own
    properties of [settings], the ones the spread copies. *)
Record UpdateBody : Type := mkUpdateBody {
  updName : option string;
  updDescription : option string;
  updAvatar : option string;
  updSettings : option (gmap string JValue)
}.

(** [if (v) conversation.field = v]. *)
Definition assignIfTruthy (v old : option string) : option string :=
  if truthy v then v else old.

(** [!participant || !["admin", "moderator", "owner"].includes(role)]. *)
Definition notStaff (o : option Participant) : bool :=
  match o with
  | None => true
  | Some p => negb (bool_decide (partRole p ∈ ["admin"; "moderator"; "owner"]))
  end.

(** [{ ...conversation.settings, ...settings }]: every property of the
    second object, and the properties of the first that the second does
    not have. *)
Definition spread (old new : gmap string JValue) : gmap string JValue :=
  new ∪ old.

(** The four conditional assignments of [updateConversation].  What the
    schema makes of the object assigned to [settings] when the document
    is saved is not part of the controller. *)
Definition applyUpdate (body : UpdateBody) (c : Conversation.t)
    : Conversation.t :=
  Conversation.mk (Conversation.type c)
    (assignIfTruthy (updName body) (Conversation.name c))
    (assignIfTruthy (updDescription body) (Conversation.description c))
    (assignIfTruthy (updAvatar body) (Conversation.avatar c))
    (Conversation.participants c) (Conversation.admins c)
    (match updSettings body with
     | Some settings => spread (Conversation.settings c) settings
     | None => Conversation.settings c
     end)
    (Conversation.memberCount c) (Conversation.lastMessage c)
    (Conversation.unreadCount c) (Conversation.isDeleted c)
    (Conversation.deletedAt c).

Definition updateConversation (reqUser : option Id) (conversationId : Id)
    (body : UpdateBody) (db : DB) : DB * Response :=
  match reqUser with
  | None => (db, mkResponse 401 "Unauthorized")
  | Some userId =>
      match Conversation_findOne_live conversationId userId db with
      | None => (db, mkResponse 404 "Conversation not found")
      | Some conversation =>
          if notStaff (findParticipant userId conversation)
          then (db, mkResponse 403 "Not authorized to update conversation")
          else (Conversation_save conversationId
                  (applyUpdate body conversation) db,
                mkResponse 200 "")
      end
  end.

(** [conversation.isDeleted = true; conversation.deletedAt = new Date()]. *)
Definition markDeleted (now : nat) (c : Conversation.t) : Conversation.t :=
  Conversation.mk (Conversation.type c) (Conversation.name c)
    (Conversation.description c) (Conversation.avatar c)
    (Conversation.participants c) (Conversation.admins c)
    (Conversation.settings c) (Conversation.memberCount c)
    (Conversation.lastMessage c) (Conversation.unreadCount c) true (Some now).

Definition deleteConversation (now : nat) (reqUser : option Id)
    (conversationId : Id) (db : DB) : DB * Response :=
  match reqUser with
  | None => (db, mkResponse 401 "Unauthorized")
  | Some userId =>
      match Conversation_findOne_live conversationId userId db with
      | None => (db, mkResponse 404 "Conversation not found")
      | Some conversation =>
          if notAdminOrOwner (findParticipant userId conversation)
          then (db, mkResponse 403 "Not authorized to delete conversation")
          else (Conversation_save conversationId
                  (markDeleted now conversation) db,
                mkResponse 200 "Conversation deleted successfully")
      end
  end.

(** ** Conversation controller: the list of a user's conversations *)

(** The [query] object of [getConversations]: the caller is among the
    participants, the conversation is not deleted and, when [type] is
    given and is one of the four types, the conversation is of that
    type. *)
Definition listQuery (userId : Id) (type : option string)
    (c : Conversation.t) : bool :=
  isParticipant userId c
  && negb (Conversation.isDeleted c)
  && (if truthy type && bool_decide (default "" type ∈ conversationTypes)
      then bool_decide (Conversation.type c = default "" type)
      else true).

(** [Conversation.find(query)] before it is sorted by [updatedAt] (a
    time stamp the schema keeps) and cut to a page: the documents the
    pages are taken from. *)
Definition Conversation_find (userId : Id) (type : option string) (db : DB)
    : gmap string Conversation.t :=
  filter (λ ic, listQuery userId type ic.2 = true) (conversations db).

(** [Conversation.countDocuments(query)], the [total] of the answer. *)
Definition Conversation_countDocuments (userId : Id) (type : option string)
    (db : DB) : nat :=
  size (Conversation_find userId type db).

(** ** Message controller: pages of messages *)

(** [.sort({ createdAt: -1 })]: newest first. *)
Definition newerFirst (x y : Id * Message.t) : Prop :=
  Message.createdAt y.2 ≤ Message.createdAt x.2.

#[global] Instance newerFirst_dec x y : Decision (newerFirst x y).
Proof. unfold newerFirst. apply _. Defined.

(** The query [{ conversation: conversationId, isDeleted: false }]. *)
Definition liveIn (conversationId : Id) (_ : Id) (m : Message.t) : Prop :=
  Message.conversation m = conversationId ∧ Message.isDeleted m = false.

#[global] Instance liveIn_dec c i m : Decision (liveIn c i m).
Proof. unfold liveIn. apply _. Defined.

Definition liveMessages (conversationId : Id) (db : DB)
    : list (Id * Message.t) :=
  merge_sort newerFirst (Message_find (liveIn conversationId) db).

(** What [getMessages] answers with.  [totalPages] is
    [Math.ceil(total / limit)], which is not a finite number when [limit]
    is 0 and is sent as [null] ([None]). *)
Record MessagePage : Type := mkMessagePage {
  pageMessages : list (Id * Message.t);
  pageTotal : nat;
  pageNumber : nat;
  pageTotalPages : option nat
}.

(** [getMessages] with numeric [page] and [limit] (defaults 1 and 20).
    [.limit(0)] is no limit; a negative [skip] is refused by the driver
    and the call answers 500 ([None]). *)
Definition getMessages (conversationId : Id) (page limit : option nat)
    (db : DB) : option MessagePage :=
  let page := default 1 page in
  let limit := default 20 limit in
  if bool_decide (page = 0 ∧ limit ≠ 0) then None
  else
    let skip := (page - 1) * limit in
    let sorted := liveMessages conversationId db in
    let skipped := drop skip sorted in
    Some (mkMessagePage
            (if bool_decide (limit = 0) then skipped else take limit skipped)
            (length sorted) page
            (if bool_decide (limit = 0) then None
             else Some ((length sorted + limit - 1) / limit))).

(** ** Message controller: edits and reactions

    The paths [reactions], [editHistory] and [isEdited] of a message
    document, kept beside the document modelled above and under the same
    id; a message that has none of them yet has the empty lists. *)

Record Reaction : Type := mkReaction {
  reactUser : Id;
  emoji : string;
  reactedAt : nat
}.

Record Edit : Type := mkEdit {
  editContent : gmap string JValue;
  editedAt : nat;
  editedBy : Id
}.

Record MessageExtra : Type := mkExtra {
  reactions : list Reaction;
  editHistory : list Edit;
  isEdited : bool
}.

Definition noExtra : MessageExtra := mkExtra [] [] false.

Record FullDB : Type := mkFullDB {
  core : DB;
  extras : gmap string MessageExtra
}.

Definition extraOf (messageId : Id) (fdb : FullDB) : MessageExtra :=
  default noExtra (extras fdb !! messageId).

Definition set_content (v : gmap string JValue) (m : Message.t) : Message.t :=
  Message.mk (Message.conversation m) (Message.sender m) (Message.type m) v
    (Message.status m) (Message.readBy m) (Message.isDeleted m)
    (Message.deletedAt m) (Message.deletedBy m) (Message.createdAt m).

(** [editMessage]; the [content] of the body is the object that replaces
    [message.content]. *)
Definition editMessage (now : nat) (reqUser : option Id) (messageId : Id)
    (content : gmap string JValue) (fdb : FullDB) : FullDB * Response :=
  match reqUser with
  | None => (fdb, mkResponse 401 "Unauthorized")
  | Some userId =>
      match messages (core fdb) !! messageId with
      | None => (fdb, mkResponse 404 "Message not found")
      | Some message =>
          if negb (bool_decide (Message.sender message = userId))
          then (fdb, mkResponse 403 "Not authorized")
          else
            let x := extraOf messageId fdb in
            let x' :=
              mkExtra (reactions x)
                (editHistory x
                 ++ [mkEdit (Message.content message) now userId])
                true in
            (mkFullDB
               (with_messages
                  (insert messageId (set_content content message))
                  (core fdb))
               (<[messageId := x']> (extras fdb)),
             mkResponse 200 "")
      end
  end.

(** [existingReaction.emoji = emoji] on the first reaction of the user,
    or a push when the user has none. *)
Definition react (now : nat) (userId : Id) (e : string)
    (rs : list Reaction) : list Reaction :=
  match find (λ r, bool_decide (reactUser r = userId)) rs with
  | Some _ =>
      updateFirst (λ r, bool_decide (reactUser r = userId))
        (λ r, mkReaction (reactUser r) e (reactedAt r)) rs
  | None => rs ++ [mkReaction userId e now]
  end.

Definition set_reactions (f : list Reaction → list Reaction)
    (x : MessageExtra) : MessageExtra :=
  mkExtra (f (reactions x)) (editHistory x) (isEdited x).

Definition addReaction (now : nat) (reqUser : option Id) (messageId : Id)
    (e : string) (fdb : FullDB) : FullDB * Response :=
  match reqUser with
  | None => (fdb, mkResponse 401 "Unauthorized")
  | Some userId =>
      match messages (core fdb) !! messageId with
      | None => (fdb, mkResponse 404 "Message not found")
      | Some _ =>
          (mkFullDB (core fdb)
             (<[messageId :=
                  set_reactions (react now userId e) (extraOf messageId fdb)]>
                (extras fdb)),
           mkResponse 200 "")
      end
  end.

(** [removeReaction]: [reactionId] is read from the route and not
    used. *)
Definition removeReaction (reqUser : option Id) (messageId reactionId : Id)
    (fdb : FullDB) : FullDB * Response :=
  match reqUser with
  | None => (fdb, mkResponse 401 "Unauthorized")
  | Some userId =>
      match messages (core fdb) !! messageId with
      | None => (fdb, mkResponse 404 "Message not found")
      | Some _ =>
          (mkFullDB (core fdb)
             (<[messageId :=
                  set_reactions (filter (λ r, reactUser r ≠ userId))
                    (extraOf messageId fdb)]>
                (extras fdb)),
           mkResponse 200 "")
      end
  end.

(** The contents a message has had, oldest first: the snapshots of its
    edit history and then its present content. *)
Definition versions (messageId : Id) (fdb : FullDB)
    : list (gmap string JValue) :=
  match messages (core fdb) !! messageId with
  | Some m =>
      (editContent <$> editHistory (extraOf messageId fdb))
      ++ [Message.content m]
  | None => []
  end.

(** Edits of one message by one user, one after the other. *)
Definition editAll (now : nat) (u messageId : Id)
    (contents : list (gmap string JValue)) (fdb : FullDB) : FullDB :=
  foldl (λ f content, (editMessage now (Some u) messageId content f).1)
    fdb contents.

(** The reactions of one user among the reactions of a message. *)
Definition reactionsOf (v : Id) (rs : list Reaction) : list Reaction :=
  filter (λ r, reactUser r = v) rs.

(** ** The handshake: the session token in the cookie header *)

(** [s.split(sep)] for a one-character separator: the pieces between the
    separators, one piece more than there are separators. *)
Fixpoint splitOn (sep : ascii) (s : string) : list string :=
  match s with
  | EmptyString => [EmptyString]
  | String c s' =>
      if decide (c = sep) then EmptyString :: splitOn sep s'
      else match splitOn sep s' with
           | piece :: pieces => String c piece :: pieces
           | [] => [String c EmptyString]
           end
  end.

(** The white space and line terminators [trim] strips, among the
    characters a header is made of (code units 0 to 255): tab, line feed,
    vertical tab, form feed, carriage return, space and the no-break
    space U+00A0. *)
Definition isSpace (c : ascii) : bool :=
  let n := nat_of_ascii c in
  bool_decide (9 ≤ n ∧ n ≤ 13) || bool_decide (n = 32)
  || bool_decide (n = 160).

Fixpoint trimStart (s : string) : string :=
  match s with
  | String c s' => if isSpace c then trimStart s' else s
  | EmptyString => EmptyString
  end.

Fixpoint trimEnd (s : string) : string :=
  match s with
  | String c s' =>
      match trimEnd s' with
      | EmptyString => if isSpace c then EmptyString else String c EmptyString
      | t => String c t
      end
  | EmptyString => EmptyString
  end.

(** The character occurs in the string. *)
Fixpoint hasChar (c : ascii) (s : string) : Prop :=
  match s with
  | String c' s' => c = c' ∨ hasChar c s'
  | EmptyString => False
  end.

(** [s.trim()]. *)
Definition trim (s : string) : string := trimEnd (trimStart s).

(** [cookies.split(";").find(c => c.trim().startsWith("token="))
      ?.split("=")[1]], and the test [!token] on it: [None] when the
    handshake is refused for want of a token. *)
Definition extractToken (cookies : option string) : option string :=
  match cookies with
  | None => None
  | Some cookies =>
      match find (λ c, String.prefix "token=" (trim c))
              (splitOn ";"%char cookies) with
      | None => None
      | Some c =>
          match splitOn "="%char c with
          | _ :: token :: _ =>
              if bool_decide (token = "") then None else Some token
          | _ => None
          end
      end
  end.

(** ** Requests, in sequence *)

(** The calls that change the store or the registry, with their
    arguments. *)
Inductive Request : Type :=
  | RSendMessage (dflt : SchemaDefaults) (now : nat) (newId : Id)
      (reqUser : option Id) (body : SendBody)
  | RMarkAsRead (now : nat) (reqUser : option Id) (messageId : Id)
  | RDeleteMessage (now : nat) (reqUser : option Id) (messageId : Id)
  | RMarkMultipleAsRead (now : nat) (reqUser : option Id)
      (body : MarkManyBody)
  | RCreateConversation (dflt : SchemaDefaults) (now : nat) (newId : Id)
      (reqUser : option Id) (body : CreateBody)
  | RUpdateConversation (reqUser : option Id) (conversationId : Id)
      (body : UpdateBody)
  | RDeleteConversation (now : nat) (reqUser : option Id)
      (conversationId : Id)
  | RAddParticipants (now : nat) (reqUser : option Id) (conversationId : Id)
      (participantIds : list Id)
  | RRemoveParticipants (reqUser : option Id) (conversationId : Id)
      (participantIds : list Id)
  | RLeaveConversation (reqUser : option Id) (conversationId : Id)
  | SConnect (now : nat) (socket : Socket)
  | SDisconnect (now : nat) (socket : Socket)
  | SSendMessage (now : nat) (newId : Id) (socket : Socket) (data : SendData)
  | SMessageRead (now : nat) (socket : Socket) (data : ReadData).

Definition onStore (f : DB → DB) (w : World) : World :=
  mkWorld (connectedUsers w) (f (store w)).

Definition serve (r : Request) (w : World) : World :=
  match r with
  | RSendMessage dflt now newId reqUser body =>
      onStore (λ db, (sendMessage dflt now newId reqUser body db).1) w
  | RMarkAsRead now reqUser messageId =>
      onStore (λ db, (markAsRead now reqUser messageId db).1) w
  | RDeleteMessage now reqUser messageId =>
      onStore (λ db, (deleteMessage now reqUser messageId db).1) w
  | RMarkMultipleAsRead now reqUser body =>
      onStore (λ db, (markMultipleAsRead now reqUser body db).1) w
  | RCreateConversation dflt now newId reqUser body =>
      onStore (λ db, (createConversation dflt now newId reqUser body db).1) w
  | RUpdateConversation reqUser conversationId body =>
      onStore (λ db, (updateConversation reqUser conversationId body db).1) w
  | RDeleteConversation now reqUser conversationId =>
      onStore (λ db, (deleteConversation now reqUser conversationId db).1) w
  | RAddParticipants now reqUser conversationId ids =>
      onStore (λ db, (addParticipants now reqUser conversationId ids db).1) w
  | RRemoveParticipants reqUser conversationId ids =>
      onStore (λ db, (removeParticipants reqUser conversationId ids db).1) w
  | RLeaveConversation reqUser conversationId =>
      onStore (λ db, (leaveConversation reqUser conversationId db).1) w
  | SConnect now socket => (handleConnection now socket w).1
  | SDisconnect now socket => (handleDisconnect now socket w).1
  | SSendMessage now newId socket data =>
      (handleSendMessage now newId socket data w).1
  | SMessageRead now socket data => (handleMessageRead now socket data w).1
  end.

(** The requests of a list, served one after the other. *)
Definition serveAll (rs : list Request) (w : World) : World :=
  foldl (λ w r, serve r w) w rs.

(** What every stored conversation satisfies once it was created by
    [createConversation]: the member count is the number of participant
    entries, the first entry has the owner role and all the others the
    member role, every admin is a participant, and a direct conversation
    has two entries and no admins. *)
Definition wellFormed (c : Conversation.t) : Prop :=
  Conversation.memberCount c = length (Conversation.participants c)
  ∧ (∃ p rest, Conversation.participants c = p :: rest
               ∧ partRole p = "owner"
               ∧ ∀ q, q ∈ rest → partRole q = "member")
  ∧ (∀ a, a ∈ Conversation.admins c →
          adminUser a ∈ partUser <$> Conversation.participants c)
  ∧ (Conversation.type c = "direct" →
     length (Conversation.participants c) = 2 ∧ Conversation.admins c = []).

Definition allWellFormed (db : DB) : Prop :=
  ∀ i c, conversations db !! i = Some c → wellFormed c.

(** No document was removed on the way from one store to another: every
    message and every conversation of the first is still a document of
    the second, and the users are the same. *)
Definition noDocumentLost (db db' : DB) : Prop :=
  dom (messages db) ⊆ dom (messages db')
  ∧ dom (conversations db) ⊆ dom (conversations db')
  ∧ dom (users db') = dom (users db).

(** Text messages sent one after the other from one socket into one
    conversation, each under its own new id. *)
Definition sendTexts (now : nat) (socket : Socket) (conversationId : Id)
    (texts : list (Id * JValue)) (w : World) : World :=
  foldl (λ w t, (handleSendMessage now t.1 socket
                   (mkSendData conversationId t.2 "text") w).1) w texts.

(** ** A small database to evaluate the operations on

    Alice owns the group [c1] with Bob as its other member; the only
    message so far is Alice's [m1].  Mallory has an account and is in no
    conversation.  [d1] is a direct conversation between Alice and Bob. *)
Module Fixture.
Definition c1 : Conversation.t :=
  Conversation.mk "group" (Some "team") None None
    [mkParticipant "alice" "owner" 0 None;
     mkParticipant "bob" "member" 0 None]
    [mkAdmin "alice" "owner" 0] (newSettings "group") 2 (Some "m1")
    [mkUnread "alice" 0; mkUnread "bob" 3] false None.

Definition d1 : Conversation.t :=
  Conversation.mk "direct" None None None
    [mkParticipant "alice" "owner" 0 None;
     mkParticipant "bob" "member" 0 None]
    [] (newSettings "direct") 2 None [] false None.

Definition m1 : Message.t :=
  Message.mk "c1" "alice" "text" (field "text" (JStr "hi")) (Some "sent")
    [mkReadInfo "alice" 1] false None None 1.

Definition db0 : DB :=
  mkDB {[ "m1" := m1 ]}
       (<[ "d1" := d1 ]> {[ "c1" := c1 ]})
       (list_to_map [("alice", mkUser "offline" 0);
                     ("bob", mkUser "offline" 0);
                     ("mallory", mkUser "offline" 0)]).

Definition w0 : World := mkWorld ∅ db0.

(** Later on in [c1]: Alice has sent [m3], Bob has answered with [m4],
    which is the last message; Bob has read neither [m1] nor [m3]. *)
Definition m3 : Message.t :=
  Message.mk "c1" "alice" "text" (field "text" (JStr "there?"))
    (Some "sent") [mkReadInfo "alice" 7] false None None 7.

Definition m4 : Message.t :=
  Message.mk "c1" "bob" "text" (field "text" (JStr "yes")) (Some "sent")
    [mkReadInfo "bob" 8] false None None 8.

Definition busy : DB :=
  mkDB (<[ "m4" := m4 ]> (<[ "m3" := m3 ]> {[ "m1" := m1 ]}))
       {[ "c1" := Conversation.set_lastMessage (Some "m4") c1 ]}
       (users db0).
End Fixture.

(** A second store for the later sections: beside [c1] with its message
    [m1], the group [c2] of the same two users, where Bob has seven
    unread messages. *)
Module Sample.
Definition c2 : Conversation.t :=
  Conversation.mk "group" (Some "other") None None
    [mkParticipant "alice" "owner" 0 None;
     mkParticipant "bob" "member" 0 None]
    [mkAdmin "alice" "owner" 0] (newSettings "group") 2 None
    [mkUnread "alice" 0; mkUnread "bob" 7] false None.

Definition db : DB :=
  mkDB {[ "m1" := Fixture.m1 ]}
       (<[ "c2" := c2 ]> {[ "c1" := Fixture.c1 ]})
       (users Fixture.db0).

Definition w : World := mkWorld ∅ db.
End Sample.

(** ** Notions the statements are written with *)

(** A refusal: the answer is a client error, nothing was done. *)
Definition refused (r : Response) : Prop :=
  400 ≤ statusCode r ∧ statusCode r < 500.

(** The recognized content types and the payload field of each: [text],
    the media types [image], [video] and [file] (field [media]),
    [location], [contact], [call] and [poll]; [None] for a declared type
    that is not recognized. *)
Definition payloadField (type : string) : option string :=
  if decide (type = "text") then Some "text"
  else if decide (type = "image" ∨ type = "video" ∨ type = "file")
       then Some "media"
  else if decide (type = "location") then Some "location"
  else if decide (type = "contact") then Some "contact"
  else if decide (type = "call") then Some "call"
  else if decide (type = "poll") then Some "poll"
  else None.

(** The user's unread counter in a conversation: the entry the positional
    operator of [unreadCount.$.count] resolves to, when there is one. *)
Definition unreadCountOf (u : Id) (c : Conversation.t) : option nat :=
  count <$> find (λ e, bool_decide (unreadUser e = u))
              (Conversation.unreadCount c).

(** The user's read watermark: [lastReadMessage] of its participant
    entry. *)
Definition watermarkOf (u : Id) (c : Conversation.t) : option Id :=
  findParticipant u c ≫= lastReadMessage.

(** A message with a read marker appended. *)
Definition markedRead (u : Id) (now : nat) (m : Message.t) : Message.t :=
  Message.set_readBy (λ l, l ++ [mkReadInfo u now]) m.

(** A payload field is populated when it holds a value: a property set
    to [undefined] is not (Mongoose does not store it). *)
Definition isUndefined (v : JValue) : bool :=
  match v with
  | JUndefined => true
  | _ => false
  end.

Definition populated (p : gmap string JValue) : gset string :=
  dom (filter (λ kv : string * JValue, isUndefined kv.2 = false) p).

(** ** Tactics *)

(** Closed decidable facts about the fixture are settled by evaluation. *)
Ltac by_compute := apply (bool_decide_unpack _); vm_compute; exact I.

(** An answer built on the spot is a refusal, with the database returned
    as it came. *)
Ltac refusal :=
  cbn; unfold refused; cbn; repeat split; first [reflexivity | lia].

Ltac by_type_cases :=
  unfold payloadField, formatContent, formatContentSocket, field;
  repeat case_decide; simplify_eq; try done; try tauto.

(** ** Lemmas on the MongoDB operators *)

Section operators.
Implicit Types (db : DB) (m : Message.t) (c : Conversation.t).
Implicit Types (l : list (Id * Message.t)).

Lemma addToSet_fresh {A} `{EqDecision A} (x : A) (s : list A) :
  x ∉ s → addToSet x s = (s ++ [x])%list.
Proof. intros Hx. unfold addToSet. by rewrite decide_False. Qed.

Lemma addToSet_elem {A} `{EqDecision A} (x : A) (s : list A) :
  x ∈ addToSet x s.
Proof.
  unfold addToSet. case_decide; [done|].
  apply elem_of_app. right. by apply list_elem_of_singleton.
Qed.

Lemma addToSet_idemp {A} `{EqDecision A} (x : A) (s : list A) :
  addToSet x (addToSet x s) = addToSet x s.
Proof.
  unfold addToSet at 1. rewrite decide_True; [done|]. apply addToSet_elem.
Qed.

Lemma pushRead_idemp u now m : pushRead u now (pushRead u now m) = pushRead u now m.
Proof.
  destruct m. unfold pushRead, Message.set_readBy. simpl.
  by rewrite addToSet_idemp.
Qed.

(** A user that has not read the message is appended, with the time of
    the call. *)
Lemma pushRead_fresh u now m :
  u ∉ readUser <$> Message.readBy m →
  Message.readBy (pushRead u now m)
  = (Message.readBy m ++ [mkReadInfo u now])%list.
Proof.
  intros Hu. unfold pushRead. simpl. apply addToSet_fresh.
  intros Hin. apply Hu. apply list_elem_of_fmap. by exists (mkReadInfo u now).
Qed.

Lemma pushRead_reader u now m :
  u ∈ readUser <$> Message.readBy (pushRead u now m).
Proof.
  unfold pushRead. simpl. apply list_elem_of_fmap.
  exists (mkReadInfo u now). split; [done|]. apply addToSet_elem.
Qed.

Lemma alreadyRead_true u m :
  alreadyRead u m = true ↔ u ∈ readUser <$> Message.readBy m.
Proof. unfold alreadyRead. apply bool_decide_eq_true. Qed.

Lemma alreadyRead_false u m :
  alreadyRead u m = false ↔ u ∉ readUser <$> Message.readBy m.
Proof. unfold alreadyRead. apply bool_decide_eq_false. Qed.

Lemma elem_of_Message_find (q : Id → Message.t → Prop)
    `{∀ i m, Decision (q i m)} db i m :
  (i, m) ∈ Message_find q db ↔ messages db !! i = Some m ∧ q i m.
Proof.
  unfold Message_find. rewrite list_elem_of_filter. simpl.
  rewrite elem_of_map_to_list. tauto.
Qed.

Lemma latest_None l : latest l = None ↔ l = [].
Proof.
  split; [|by intros ->].
  destruct l as [|x l]; [done|]. simpl.
  destruct (latest l); [case_decide|]; done.
Qed.

(** [latest] returns an element of the list, and none in the list was
    created later. *)
Lemma latest_Some l x :
  latest l = Some x →
  x ∈ l ∧ ∀ y, y ∈ l → Message.createdAt y.2 ≤ Message.createdAt x.2.
Proof.
  revert x. induction l as [|a l IH]; intros x; simpl; [done|].
  destruct (latest l) as [y|] eqn:Hl.
  - destruct (IH y eq_refl) as [Hy Hmax].
    case_decide as Hlt; intros [= <-].
    + split; [by apply elem_of_cons; right|].
      intros z [->|Hz]%elem_of_cons; [lia|by apply Hmax].
    + split; [by apply elem_of_cons; left|].
      intros z [->|Hz]%elem_of_cons; [lia|].
      specialize (Hmax z Hz). lia.
  - apply latest_None in Hl as ->. intros [= <-].
    split; [by apply elem_of_cons; left|].
    intros z [->|Hz]%elem_of_cons; [lia|by apply elem_of_nil in Hz].
Qed.

Lemma bulkWrite_conversations ops db :
  conversations (Message_bulkWrite ops db) = conversations db
  ∧ users (Message_bulkWrite ops db) = users db.
Proof.
  unfold Message_bulkWrite. revert db.
  induction ops as [|op ops IH]; intros db; simpl; [done|].
  destruct (IH (Message_updateOne op.1 op.2 db)) as [-> ->]. done.
Qed.

(** A bulk write of the same idempotent update to the documents of a
    list of ids: those documents are updated, the others are not. *)
Lemma bulkWrite_lookup (f : Message.t → Message.t) l db i :
  (∀ m, f (f m) = f m) →
  messages (Message_bulkWrite ((λ im : Id * Message.t, (im.1, f)) <$> l) db)
    !! i
  = if decide (i ∈ l.*1) then f <$> messages db !! i else messages db !! i.
Proof.
  intros Hf. unfold Message_bulkWrite. revert db.
  induction l as [|[j mj] l IH]; intros db.
  - reflexivity.
  - rewrite fmap_cons. cbn [foldl fst snd]. rewrite IH.
    unfold Message_updateOne, with_messages. cbn [messages].
    rewrite lookup_alter.
    destruct (decide (j = i)) as [->|Hne].
    + rewrite (decide_True (P := i ∈ ((i, mj) :: l).*1));
        [|by rewrite fmap_cons; apply elem_of_cons; left].
      case_decide; [|done].
      destruct (messages db !! i); simpl; [by rewrite Hf|done].
    + destruct (decide (i ∈ l.*1)) as [Hin|Hnin].
      * rewrite decide_True; [done|].
        rewrite fmap_cons. by apply elem_of_cons; right.
      * rewrite decide_False; [done|].
        rewrite fmap_cons. intros [?|?]%elem_of_cons; simpl in *; done.
Qed.

Lemma updateFirst_length {A} (p : A → bool) (u : A → A) (s : list A) :
  length (updateFirst p u s) = length s.
Proof. induction s as [|x s IH]; simpl; [done|]. destruct (p x); simpl; lia. Qed.

(** When the update keeps the element matching, the first match after
    the update is the update of the first match before. *)
Lemma updateFirst_find {A} (p : A → bool) (u : A → A) (s : list A) :
  (∀ x, p x = true → p (u x) = true) →
  find p (updateFirst p u s) = u <$> find p s.
Proof.
  intros Hp. induction s as [|x s IH]; simpl; [done|].
  destruct (p x) eqn:Hx; simpl.
  - by rewrite (Hp x Hx).
  - by rewrite Hx.
Qed.

Lemma updateFirst_no_match {A} (p : A → bool) (u : A → A) (s : list A) :
  find p s = None → updateFirst p u s = s.
Proof.
  induction s as [|x s IH]; simpl; [done|].
  destruct (p x); [done|]. intros Hs. by rewrite IH.
Qed.
End operators.

(** ** Read receipts: the single-message paths *)

Section single_read.
Implicit Types (db : DB) (m : Message.t) (w : World).

(** What [markAsRead] does for a user that has not read the message: no
    lookup of the conversation is made on the way. *)
Lemma markAsRead_unread now u (messageId : Id) m db :
  messages db !! messageId = Some m →
  u ∉ readUser <$> Message.readBy m →
  markAsRead now (Some u) messageId db
  = (Message_updateOne messageId (pushRead u now) db,
     mkResponse 200 "Message marked as read").
Proof.
  intros Hm Hu. unfold markAsRead. rewrite Hm.
  apply alreadyRead_false in Hu. by rewrite Hu.
Qed.

Lemma markAsRead_read now u (messageId : Id) m db :
  messages db !! messageId = Some m →
  u ∈ readUser <$> Message.readBy m →
  markAsRead now (Some u) messageId db
  = (db, mkResponse 400 "You have already read this message").
Proof.
  intros Hm Hu. unfold markAsRead. rewrite Hm.
  apply alreadyRead_true in Hu. by rewrite Hu.
Qed.

Lemma handleMessageRead_unread now socket data m w :
  messages (store w) !! readDataMessageId data = Some m →
  sockUser socket ∉ readUser <$> Message.readBy m →
  handleMessageRead now socket data w
  = (mkWorld (connectedUsers w)
       (Conversation_updateOne (readDataConversationId data)
          (Conversation.set_unreadCount (zeroUnreadOf (sockUser socket)))
          (Message_updateOne (readDataMessageId data)
             (pushRead (sockUser socket) now) (store w))),
     [mkEmit (ToRoom ("conversation:" +:+ readDataConversationId data))
        "message:read"
        [readDataMessageId data; sockUser socket;
         readDataConversationId data]]).
Proof.
  intros Hm Hu. unfold handleMessageRead. rewrite Hm.
  apply alreadyRead_false in Hu. by rewrite Hu.
Qed.

Lemma handleMessageRead_read now socket data m w :
  messages (store w) !! readDataMessageId data = Some m →
  sockUser socket ∈ readUser <$> Message.readBy m →
  handleMessageRead now socket data w = (w, []).
Proof.
  intros Hm Hu. unfold handleMessageRead. rewrite Hm.
  apply alreadyRead_true in Hu. by rewrite Hu.
Qed.

Lemma updateOne_lookup (messageId : Id) f db m :
  messages db !! messageId = Some m →
  messages (Message_updateOne messageId f db) !! messageId = Some (f m).
Proof.
  intros Hm. unfold Message_updateOne, with_messages. simpl.
  by rewrite lookup_alter_eq, Hm.
Qed.
End single_read.

(** C4. Marking one message read twice by the same user, over REST
    ([markAsRead]) or over the socket ([handleMessageRead]): the first
    call appends the user to [readBy], which grows by exactly one entry;
    the second, identical call leaves the whole store as the first left it
    (so [readBy] has grown by one, not two, and no unread counter is
    touched a second time), and over the socket it emits nothing. *)
Theorem read_marking_twice_adds_one
    (now1 now2 : nat) (u messageId : Id) (m : Message.t) (db : DB) :
  messages db !! messageId = Some m →
  u ∉ readUser <$> Message.readBy m →
  (let r1 := markAsRead now1 (Some u) messageId db in
   let r2 := markAsRead now2 (Some u) messageId r1.1 in
   Message.readBy <$> messages r1.1 !! messageId
     = Some (Message.readBy m ++ [mkReadInfo u now1])
   ∧ length <$> (Message.readBy <$> messages r2.1 !! messageId)
     = Some (S (length (Message.readBy m)))
   ∧ r2.1 = r1.1)
  ∧ (∀ socket conversationId w,
       sockUser socket = u → store w = db →
       let data := mkReadData conversationId messageId in
       let s1 := handleMessageRead now1 socket data w in
       let s2 := handleMessageRead now2 socket data s1.1 in
       Message.readBy <$> messages (store s1.1) !! messageId
         = Some (Message.readBy m ++ [mkReadInfo u now1])
       ∧ length <$> (Message.readBy <$> messages (store s2.1) !! messageId)
         = Some (S (length (Message.readBy m)))
       ∧ s2 = (s1.1, [])).
Proof.
  intros Hm Hu. split.
  - cbn zeta. rewrite (markAsRead_unread _ _ _ m) by done. cbn [fst].
    pose proof (updateOne_lookup messageId (pushRead u now1) db m Hm) as Hm1.
    rewrite (markAsRead_read _ _ _ (pushRead u now1 m))
      by auto using pushRead_reader.
    cbn [fst]. rewrite Hm1. cbn [fmap option_fmap option_map].
    rewrite pushRead_fresh by done.
    repeat split. by rewrite length_app, Nat.add_1_r.
  - intros socket conversationId w <- <-. cbn zeta.
    rewrite (handleMessageRead_unread _ _ _ m) by done. cbn [fst store].
    set (db1 := Message_updateOne _ _ _).
    assert (messages
              (Conversation_updateOne conversationId
                 (Conversation.set_unreadCount (zeroUnreadOf (sockUser socket)))
                 db1) !! messageId
            = Some (pushRead (sockUser socket) now1 m)) as Hm1.
    { unfold Conversation_updateOne, with_conversations. cbn [messages].
      by apply updateOne_lookup. }
    rewrite (handleMessageRead_read _ _ _ (pushRead (sockUser socket) now1 m))
      by auto using pushRead_reader.
    cbn [fst store readDataMessageId readDataConversationId].
    cbn [readDataMessageId readDataConversationId] in Hm1. rewrite Hm1.
    cbn [fmap option_fmap option_map].
    rewrite pushRead_fresh by done.
    repeat split. by rewrite length_app, Nat.add_1_r.
Qed.

Lemma read_marking_twice_adds_one_witness :
  messages Fixture.db0 !! "m1" = Some Fixture.m1
  ∧ ("bob" ∉ readUser <$> Message.readBy Fixture.m1)
  ∧ (let r1 := markAsRead 5 (Some "bob") "m1" Fixture.db0 in
     let r2 := markAsRead 6 (Some "bob") "m1" r1.1 in
     Message.readBy <$> messages r1.1 !! "m1"
       = Some (Message.readBy Fixture.m1 ++ [mkReadInfo "bob" 5])
     ∧ length <$> (Message.readBy <$> messages r2.1 !! "m1")
       = Some (S (length (Message.readBy Fixture.m1)))
     ∧ r2.1 = r1.1).
Proof.
  assert (messages Fixture.db0 !! "m1" = Some Fixture.m1) as Hm
    by reflexivity.
  assert ("bob" ∉ readUser <$> Message.readBy Fixture.m1) as Hu
    by by_compute.
  split; [exact Hm|]. split; [exact Hu|].
  exact (proj1 (read_marking_twice_adds_one 5 6 "bob" "m1" Fixture.m1
                  Fixture.db0 Hm Hu)).
Defined.

(** The batch path does look the caller up among the participants: a
    caller that is not one gets no further than the guards. *)
Lemma markMultipleAsRead_not_participant now u body db :
  Conversation_findOne_participant
    (default "" (readConversationId body)) u db = None →
  let r := markMultipleAsRead now (Some u) body db in
  r.1 = db ∧ updatedMessageIds r.2 = None
  ∧ (statusCode (markResponse r.2) = 400
     ∨ markResponse r.2
       = mkResponse 404 "Conversation not found or you are not a participant").
Proof.
  intros Hc. unfold markMultipleAsRead.
  destruct (messageIds body) as [[|i ids]|]; simpl; [auto..| |auto].
  destruct (truthy (readConversationId body)); simpl; [|auto].
  rewrite Hc. auto.
Qed.

(** C1. Mallory is not a participant of the group [c1], and yet both
    single-message paths accept her read marker on its message [m1]: the
    REST call answers 200 and the socket handler broadcasts
    [message:read]; either way she is appended to [readBy] of [m1].
    (Only the batch path, [markMultipleAsRead], checks the caller against
    the participants.) *)
Theorem single_read_paths_accept_non_participant :
  isParticipant "mallory" Fixture.c1 = false
  ∧ Message.conversation Fixture.m1 = "c1"
  ∧ (let r := markAsRead 5 (Some "mallory") "m1" Fixture.db0 in
     r.2 = mkResponse 200 "Message marked as read"
     ∧ Message.readBy <$> messages r.1 !! "m1"
       = Some [mkReadInfo "alice" 1; mkReadInfo "mallory" 5])
  ∧ (let s := handleMessageRead 5 (mkSocket "s9" "mallory")
                (mkReadData "c1" "m1") Fixture.w0 in
     s.2 = [mkEmit (ToRoom "conversation:c1") "message:read"
              ["m1"; "mallory"; "c1"]]
     ∧ Message.readBy <$> messages (store s.1) !! "m1"
       = Some [mkReadInfo "alice" 1; mkReadInfo "mallory" 5]).
Proof. by vm_compute. Qed.

(** ** Sending a message *)

Section send.
Implicit Types (db : DB) (w : World) (c : Conversation.t).

(** The REST path, once past its guards: the message is stored as the
    constructor built it, and the conversation is saved with a new
    [lastMessage] and nothing else changed. *)
Lemma sendMessage_ok dflt now (newId senderId : Id) body db c :
  Conversation_findOne_participant (conversationId body) senderId db
    = Some c →
  sendMessage dflt now newId (Some senderId) body db
  = (Conversation_save (conversationId body)
       (Conversation.set_lastMessage (Some newId) c)
       (with_messages
          (insert newId
             (newMessage dflt now (conversationId body) senderId
                (default "text" (type body))
                (formatContent (default "text" (type body))
                   (content body)))) db),
     mkResponse 201 "").
Proof. intros Hc. unfold sendMessage. by rewrite Hc. Qed.

(** What the REST path persists has the schema's [readBy]. *)
Lemma sendMessage_readBy dflt now (newId senderId : Id) body db c :
  Conversation_findOne_participant (conversationId body) senderId db
    = Some c →
  Message.readBy
    <$> messages (sendMessage dflt now newId (Some senderId) body db).1
        !! newId
  = Some (readByDefault dflt).
Proof.
  intros Hc. rewrite (sendMessage_ok _ _ _ _ _ _ c Hc).
  unfold Conversation_save, with_conversations, with_messages. simpl.
  by rewrite lookup_insert_eq.
Qed.

(** The REST path never touches the unread counters. *)
Lemma sendMessage_unreadCount dflt now (newId senderId : Id) body db c :
  Conversation_findOne_participant (conversationId body) senderId db
    = Some c →
  conversations (sendMessage dflt now newId (Some senderId) body db).1
    !! conversationId body
  = Some (Conversation.set_lastMessage (Some newId) c)
  ∧ Conversation.unreadCount (Conversation.set_lastMessage (Some newId) c)
    = Conversation.unreadCount c.
Proof.
  intros Hc. rewrite (sendMessage_ok _ _ _ _ _ _ c Hc).
  unfold Conversation_save, with_conversations, with_messages. simpl.
  by rewrite lookup_insert_eq.
Qed.

(** The socket path, when the payload is built: the stored message has
    the sender, and the sender only, in [readBy]. *)
Lemma handleSendMessage_readBy now (newId : Id) socket data w payload :
  formatContentSocket (sendType data) (sendContent data) = Some payload →
  Message.readBy
    <$> messages (store (handleSendMessage now newId socket data w).1)
        !! newId
  = Some [mkReadInfo (sockUser socket) now].
Proof.
  intros Hp. unfold handleSendMessage. rewrite Hp. cbn [fst store].
  unfold Conversation_updateOne, with_conversations. cbn [messages].
  erewrite updateOne_lookup;
    [|unfold with_messages; cbn [messages]; apply lookup_insert_eq].
  reflexivity.
Qed.

(** The socket path on the conversation: [lastMessage] is the new
    message and the counters go through [incUnreadExcept]. *)
Lemma handleSendMessage_conversation now (newId : Id) socket data w
    payload c :
  formatContentSocket (sendType data) (sendContent data) = Some payload →
  conversations (store w) !! sendConversationId data = Some c →
  conversations (store (handleSendMessage now newId socket data w).1)
    !! sendConversationId data
  = Some (bumpConversation newId (sockUser socket) c).
Proof.
  intros Hp Hc. unfold handleSendMessage. rewrite Hp. cbn [fst store].
  unfold Conversation_updateOne, with_conversations, Message_updateOne,
    with_messages. cbn [conversations].
  by rewrite lookup_alter_eq, Hc.
Qed.

(** Entry by entry: a counter of somebody else goes up by one, a
    counter of the sender stays. *)
Lemma incUnreadExcept_lookup (u : Id) (l : list UnreadCount) k e :
  l !! k = Some e →
  incUnreadExcept u l !! k
  = Some (if decide (unreadUser e = u) then e
          else mkUnread (unreadUser e) (count e + 1)).
Proof.
  intros He. unfold incUnreadExcept. rewrite list_lookup_fmap, He. simpl.
  by repeat case_decide.
Qed.
End send.

(** C2. Alice sends a text into [c1] over REST, with Mongoose's default
    (empty) [readBy] for the path the constructor is not given: the call
    answers 201 and the stored message has an empty [readBy], so Alice is
    not in it.  The same send over the socket stores [readBy] with
    Alice. *)
Theorem rest_send_leaves_sender_unread :
  (let r := sendMessage mongooseDefaults 5 "m2" (Some "alice")
              (mkSendBody "c1" (JStr "hello") (Some "text")) Fixture.db0 in
   statusCode r.2 = 201
   ∧ Message.readBy <$> messages r.1 !! "m2" = Some []
   ∧ Message.sender <$> messages r.1 !! "m2" = Some "alice")
  ∧ (let s := handleSendMessage 5 "m2" (mkSocket "s1" "alice")
                (mkSendData "c1" (JStr "hello") "text") Fixture.w0 in
     Message.readBy <$> messages (store s.1) !! "m2"
     = Some [mkReadInfo "alice" 5]).
Proof. by vm_compute. Qed.

(** C3. The same REST send: [lastMessage] of [c1] becomes the new
    message, and Bob's unread counter stays at 3 where the claim wants 4.
    The same send over the socket does raise it to 4. *)
Theorem rest_send_keeps_unread_counters :
  Conversation.unreadCount Fixture.c1
    = [mkUnread "alice" 0; mkUnread "bob" 3]
  ∧ (let r := sendMessage mongooseDefaults 5 "m2" (Some "alice")
                (mkSendBody "c1" (JStr "hello") (Some "text")) Fixture.db0 in
     statusCode r.2 = 201
     ∧ Conversation.lastMessage <$> conversations r.1 !! "c1"
       = Some (Some "m2")
     ∧ Conversation.unreadCount <$> conversations r.1 !! "c1"
       = Some [mkUnread "alice" 0; mkUnread "bob" 3])
  ∧ (let s := handleSendMessage 5 "m2" (mkSocket "s1" "alice")
                (mkSendData "c1" (JStr "hello") "text") Fixture.w0 in
     Conversation.lastMessage <$> conversations (store s.1) !! "c1"
       = Some (Some "m2")
     ∧ Conversation.unreadCount <$> conversations (store s.1) !! "c1"
       = Some [mkUnread "alice" 0; mkUnread "bob" 4]).
Proof. by vm_compute. Qed.

(** ** The connection registry *)

(** C6, as the claim states it, fails.  Alice connects from two devices
    ([s1], then [s2]): the second [connectedUsers.set] replaces the entry
    of the first, so the registry holds [s2] alone; when [s1] then
    disconnects, [connectedUsers.delete(userId)] removes Alice's only
    entry although [s2] is still connected, so she is no longer online for
    the fan-out, and her persisted status is [offline]. *)
Lemma second_session_displaces_first :
  let w1 := (handleConnection 1 (mkSocket "s1" "alice") Fixture.w0).1 in
  let w2 := (handleConnection 2 (mkSocket "s2" "alice") w1).1 in
  let w3 := (handleDisconnect 3 (mkSocket "s1" "alice") w2).1 in
  sessionsFor w1 "alice" = ["s1"]
  ∧ sessionsFor w2 "alice" = ["s2"]
  ∧ sessionsFor w3 "alice" = []
  ∧ isOnline w3 "alice" = false
  ∧ userStatus <$> users (store w3) !! "alice" = Some "offline".
Proof. by vm_compute. Qed.

(** C6, amended.  The registry holds at most one session per identity,
    keyed by the identity.  [handleConnection] records the connecting
    socket as the session of its user, in place of whatever session was
    recorded for that user, and leaves the entries of all other users as
    they were; [handleDisconnect] removes the entry of the socket's user
    and leaves all others; a user is online exactly when an entry is
    recorded for it. *)
Theorem registry_one_session_per_identity
    (now : nat) (socket : Socket) (w : World) :
  (let w' := (handleConnection now socket w).1 in
   connectedUsers w' !! sockUser socket
     = Some (mkConnected (sockUser socket) (sockId socket))
   ∧ sessionsFor w' (sockUser socket) = [sockId socket]
   ∧ isOnline w' (sockUser socket) = true
   ∧ ∀ v, v ≠ sockUser socket →
          connectedUsers w' !! v = connectedUsers w !! v)
  ∧ (let w' := (handleDisconnect now socket w).1 in
     connectedUsers w' !! sockUser socket = None
     ∧ sessionsFor w' (sockUser socket) = []
     ∧ isOnline w' (sockUser socket) = false
     ∧ ∀ v, v ≠ sockUser socket →
            connectedUsers w' !! v = connectedUsers w !! v)
  ∧ (∀ v, isOnline w v = true ↔ is_Some (connectedUsers w !! v))
  ∧ (∀ v, length (sessionsFor w v) ≤ 1).
Proof.
  repeat split.
  - simpl. apply lookup_insert_eq.
  - unfold sessionsFor. simpl. by rewrite lookup_insert_eq.
  - unfold isOnline. simpl. rewrite lookup_insert_eq.
    by apply bool_decide_eq_true.
  - intros v Hv. simpl. by rewrite lookup_insert_ne.
  - simpl. apply lookup_delete_eq.
  - unfold sessionsFor. simpl. by rewrite lookup_delete_eq.
  - unfold isOnline. simpl. rewrite lookup_delete_eq.
    apply bool_decide_eq_false. by intros [? ?].
  - intros v Hv. simpl. by rewrite lookup_delete_ne.
  - unfold isOnline. by intros ?%bool_decide_eq_true.
  - unfold isOnline. intros ?. by apply bool_decide_eq_true.
  - intros v. unfold sessionsFor. destruct (connectedUsers w !! v); simpl; lia.
Qed.

(** ** Participants: owner protection and direct conversations *)

Section participants.
Implicit Types (db : DB) (c : Conversation.t).

Lemma findOne_live_Some (conversationId u : Id) db c :
  Conversation_findOne_live conversationId u db = Some c →
  conversations db !! conversationId = Some c.
Proof.
  unfold Conversation_findOne_live, Conversation_findOne_participant.
  destruct (conversations db !! conversationId) as [c'|]; [|done].
  destruct (isParticipant u c'); [|done].
  destruct (Conversation.isDeleted c'); [done|]. by intros [= ->].
Qed.

(** The owner the guard of [removeParticipants] looks for is found when
    one is among the ids. *)
Lemma owner_found (ids : list Id) c p :
  p ∈ Conversation.participants c →
  partRole p = "owner" →
  partUser p ∈ ids →
  is_Some (find (λ p, bool_decide (partRole p = "owner")
                      && bool_decide (partUser p ∈ ids))
             (Conversation.participants c)).
Proof.
  intros Hp Hrole Hin.
  destruct (find _ _) as [q|] eqn:Hfind; [by eexists|].
  apply list_elem_of_In in Hp.
  pose proof (find_none _ _ Hfind p Hp) as Hfalse. simpl in Hfalse.
  rewrite andb_false_iff, !bool_decide_eq_false in Hfalse.
  by destruct Hfalse.
Qed.
End participants.

(** C7. Whoever asks, [removeParticipants] with the user of an
    owner-role participant among the ids to remove is refused and leaves
    the database as it was; so is [leaveConversation] called by a user
    whose participant entry has the owner role.  (The owner guards
    themselves answer 400; a guard met earlier answers 401, 403 or 404.) *)
Theorem owner_cannot_be_removed_or_leave
    (conversationId : Id) (db : DB) (c : Conversation.t) (p : Participant) :
  conversations db !! conversationId = Some c →
  p ∈ Conversation.participants c →
  partRole p = "owner" →
  (∀ reqUser ids,
     partUser p ∈ ids →
     let r := removeParticipants reqUser conversationId ids db in
     r.1 = db ∧ refused r.2)
  ∧ (findParticipant (partUser p) c = Some p →
     let r := leaveConversation (Some (partUser p)) conversationId db in
     r.1 = db ∧ refused r.2).
Proof.
  intros Hc Hp Hrole. split.
  - intros reqUser ids Hin. unfold removeParticipants.
    destruct reqUser as [u|]; [|refusal].
    destruct (Conversation_findOne_live conversationId u db) as [c'|] eqn:Hlive;
      [|refusal].
    apply findOne_live_Some in Hlive. rewrite Hc in Hlive.
    injection Hlive as <-.
    destruct (bool_decide (Conversation.type c = "direct")); [refusal|].
    destruct (notAdminOrOwner (findParticipant u c)); [refusal|].
    destruct (owner_found ids c p Hp Hrole Hin) as [q ->]. refusal.
  - intros Hfind. unfold leaveConversation.
    destruct (Conversation_findOne_live conversationId (partUser p) db)
      as [c'|] eqn:Hlive; [|refusal].
    apply findOne_live_Some in Hlive. rewrite Hc in Hlive.
    injection Hlive as <-.
    destruct (bool_decide (Conversation.type c = "direct")); [refusal|].
    rewrite Hfind. simpl. rewrite Hrole.
    rewrite bool_decide_eq_true_2 by done. refusal.
Qed.

Lemma owner_cannot_be_removed_or_leave_witness :
  conversations Fixture.db0 !! "c1" = Some Fixture.c1
  ∧ mkParticipant "alice" "owner" 0 None
    ∈ Conversation.participants Fixture.c1
  ∧ (let r := removeParticipants (Some "alice") "c1" ["alice"; "bob"]
                Fixture.db0 in
     r.1 = Fixture.db0 ∧ refused r.2)
  ∧ (let r := leaveConversation (Some "alice") "c1" Fixture.db0 in
     r.1 = Fixture.db0 ∧ refused r.2).
Proof.
  assert (conversations Fixture.db0 !! "c1" = Some Fixture.c1) as Hc
    by reflexivity.
  assert (mkParticipant "alice" "owner" 0 None
          ∈ Conversation.participants Fixture.c1) as Hp
    by (apply elem_of_cons; by left).
  destruct (owner_cannot_be_removed_or_leave "c1" Fixture.db0 Fixture.c1
              (mkParticipant "alice" "owner" 0 None) Hc Hp eq_refl)
    as [Hremove Hleave].
  split; [exact Hc|]. split; [exact Hp|]. split.
  - apply (Hremove (Some "alice") ["alice"; "bob"]).
    apply elem_of_cons; by left.
  - apply Hleave. reflexivity.
Defined.

(** [createConversation] on a request for a [direct] conversation, guard
    by guard. *)
Lemma createConversation_direct dflt now (newId creatorId : Id) body db :
  newType body = "direct" →
  createConversation dflt now newId (Some creatorId) body db
  = match newParticipants body with
    | None => (db, mkResponse 500 "Error creating conversation")
    | Some ids =>
        if bool_decide (length ids = 1) then
          if bool_decide (length (existingUsers ids db) = length ids) then
            (Conversation_save newId
               (Conversation.mk "direct" (newName body) (newDescription body)
                  (newAvatar body)
                  (mkParticipant creatorId "owner" now None
                   :: ((λ u, mkParticipant u "member" now None) <$> ids))
                  [] (newSettings "direct") (S (length ids)) None
                  (unreadCountDefault dflt)
                  false None) db,
             mkResponse 201 "")
          else (db, mkResponse 400 "One or more participants do not exist")
        else (db, mkResponse 400
                    "Direct conversation must have exactly 2 participants")
    end.
Proof.
  intros Htype. unfold createConversation. rewrite Htype.
  assert (bool_decide ("direct" ∈ conversationTypes) = true) as ->
    by reflexivity.
  assert (bool_decide ("direct" ≠ "direct") = false) as -> by reflexivity.
  assert (bool_decide ("direct" = "direct") = true) as -> by reflexivity.
  cbn [negb andb].
  destruct (newParticipants body) as [ids|]; [|done].
  destruct (bool_decide (length ids = 1)); cbn [negb]; [|done].
  destruct (bool_decide (length (existingUsers ids db) = length ids));
    cbn [negb]; [|done].
  cbn [length]. by rewrite length_fmap.
Qed.

(** C8. A [direct] conversation asked for with a participants list of a
    length other than one is answered 400 and nothing is created; a
    [direct] conversation that is created (answer 201) is stored under the
    new id with exactly two participant entries, the creator's and the
    listed one's, and no admins; [addParticipants] and
    [removeParticipants] on a stored [direct] conversation are refused,
    whoever asks and whatever the ids, and leave the database as it
    was. *)
Theorem direct_conversation_invariant
    (dflt : SchemaDefaults) (now : nat) (db : DB) :
  (∀ newId creatorId body ids,
     newType body = "direct" →
     newParticipants body = Some ids →
     length ids ≠ 1 →
     createConversation dflt now newId (Some creatorId) body db
     = (db, mkResponse 400
              "Direct conversation must have exactly 2 participants"))
  ∧ (∀ newId reqUser body,
       newType body = "direct" →
       let r := createConversation dflt now newId reqUser body db in
       statusCode r.2 = 201 →
       ∃ c, conversations r.1 !! newId = Some c
            ∧ Conversation.type c = "direct"
            ∧ length (Conversation.participants c) = 2
            ∧ Conversation.admins c = []
            ∧ (∀ i, i ≠ newId → conversations r.1 !! i = conversations db !! i))
  ∧ (∀ reqUser conversationId ids c,
       conversations db !! conversationId = Some c →
       Conversation.type c = "direct" →
       (let r := addParticipants now reqUser conversationId ids db in
        r.1 = db ∧ refused r.2)
       ∧ (let r := removeParticipants reqUser conversationId ids db in
          r.1 = db ∧ refused r.2)).
Proof.
  repeat apply conj.
  - intros newId creatorId body ids Htype Hids Hlen.
    rewrite createConversation_direct by done. rewrite Hids.
    by rewrite (bool_decide_eq_false_2 (length ids = 1)).
  - intros newId reqUser body Htype. cbn zeta.
    destruct reqUser as [creatorId|]; [|cbn; discriminate].
    rewrite createConversation_direct by done.
    destruct (newParticipants body) as [ids|]; [|cbn; discriminate].
    destruct (decide (length ids = 1)) as [Hlen|Hlen].
    + rewrite (bool_decide_eq_true_2 _ Hlen).
      destruct (bool_decide _); [|cbn; discriminate].
      intros _. eexists. unfold Conversation_save, with_conversations.
      cbn [fst conversations]. rewrite lookup_insert_eq.
      split; [reflexivity|]. cbn. rewrite length_fmap, Hlen.
      repeat split. intros i Hi. by rewrite lookup_insert_ne.
    + rewrite (bool_decide_eq_false_2 _ Hlen). cbn. discriminate.
  - intros reqUser conversationId ids c Hc Htype. split.
    + unfold addParticipants. destruct reqUser as [u|]; [|refusal].
      destruct (Conversation_findOne_live conversationId u db) as [c'|]
        eqn:Hlive; [|refusal].
      apply findOne_live_Some in Hlive. rewrite Hc in Hlive.
      injection Hlive as <-.
      rewrite (bool_decide_eq_true_2 _ Htype). refusal.
    + unfold removeParticipants. destruct reqUser as [u|]; [|refusal].
      destruct (Conversation_findOne_live conversationId u db) as [c'|]
        eqn:Hlive; [|refusal].
      apply findOne_live_Some in Hlive. rewrite Hc in Hlive.
      injection Hlive as <-.
      rewrite (bool_decide_eq_true_2 _ Htype). refusal.
Qed.

Lemma direct_conversation_invariant_witness :
  (createConversation mongooseDefaults 5 "d2" (Some "alice")
     (mkCreateBody "direct" (Some ["bob"; "mallory"]) None None None)
     Fixture.db0
   = (Fixture.db0,
      mkResponse 400 "Direct conversation must have exactly 2 participants"))
  ∧ (∃ c,
       conversations
         (createConversation mongooseDefaults 5 "d2" (Some "alice")
            (mkCreateBody "direct" (Some ["mallory"]) None None None)
            Fixture.db0).1 !! "d2" = Some c
       ∧ length (Conversation.participants c) = 2
       ∧ Conversation.admins c = [])
  ∧ (let r := addParticipants 5 (Some "alice") "d1" ["mallory"] Fixture.db0 in
     r.1 = Fixture.db0 ∧ refused r.2)
  ∧ (let r := removeParticipants (Some "alice") "d1" ["bob"] Fixture.db0 in
     r.1 = Fixture.db0 ∧ refused r.2).
Proof.
  destruct (direct_conversation_invariant mongooseDefaults 5 Fixture.db0)
    as (Hreject & Hcreated & Hfrozen).
  split; [|split].
  - apply (Hreject "d2" "alice"
             (mkCreateBody "direct" (Some ["bob"; "mallory"]) None None None)
             ["bob"; "mallory"]); [reflexivity|reflexivity|simpl; lia].
  - destruct (Hcreated "d2" (Some "alice")
                (mkCreateBody "direct" (Some ["mallory"]) None None None)
                eq_refl) as (c & Hc & _ & Hlen & Hadmins & _).
    + by vm_compute.
    + exists c. exact (conj Hc (conj Hlen Hadmins)).
  - apply (Hfrozen (Some "alice") "d1" ["mallory"] Fixture.d1);
      by vm_compute.
Defined.

(** ** The content payload *)

(** The value a payload field gets: the raw content, except that the
    socket handler takes [media] from [content.media]. *)
Lemma formatContent_field type content f :
  payloadField type = Some f →
  formatContent type content = {[ f := content ]}.
Proof. by_type_cases. all: by intros [= <-]. Qed.

Lemma formatContentSocket_field type content f :
  payloadField type = Some f →
  f ≠ "media" →
  formatContentSocket type content = Some {[ f := content ]}.
Proof. by_type_cases. all: by intros [= <-]. Qed.

Lemma formatContentSocket_media type content :
  payloadField type = Some "media" →
  formatContentSocket type content
  = (λ v, {[ "media" := v ]}) <$> getProp content "media".
Proof. by_type_cases. Qed.

Lemma formatContent_unrecognized type content :
  payloadField type = None →
  formatContent type content = ∅
  ∧ formatContentSocket type content = Some ∅.
Proof. by_type_cases. Qed.

Lemma getProp_defined content k :
  content ≠ JUndefined → content ≠ JNull → is_Some (getProp content k).
Proof. destruct content; simpl; by eauto. Qed.

Lemma populated_singleton (f : string) (v : JValue) :
  populated {[ f := v ]} = if isUndefined v then ∅ else {[ f ]}.
Proof.
  unfold populated. rewrite map_filter_singleton. cbn [snd].
  destruct (isUndefined v); case_decide; try done.
  all: first [apply dom_empty_L | apply dom_singleton_L].
Qed.

(** The socket handler gives up on a media send that carries no content:
    reading [content.media] throws, nothing is stored and the sender gets
    the [error] event. *)
Lemma socket_media_null_content_fails :
  handleSendMessage 5 "m2" (mkSocket "s1" "alice")
    (mkSendData "c1" JNull "image") Fixture.w0
  = (Fixture.w0, [mkEmit (ToSocket "s1") "error" []]).
Proof. reflexivity. Qed.

(** C9, as the claim states it, fails.  Alice sends an [image] whose
    content is the media object itself, [{ url: "a.png" }].  The REST path
    puts that object in the [media] field.  The socket handler puts
    [content.media] there, which this content does not have: the payload
    it builds is [{ media: undefined }], in which no field is populated,
    although the declared type is a recognized one. *)
Lemma socket_media_field_left_unpopulated :
  let content := JObj [("url", JStr "a.png")] in
  payloadField "image" = Some "media"
  ∧ formatContent "image" content = {[ "media" := content ]}
  ∧ formatContentSocket "image" content = Some {[ "media" := JUndefined ]}
  ∧ populated ({[ "media" := JUndefined ]} : gmap string JValue) = ∅.
Proof.
  cbn zeta. split; [reflexivity|]. split; [reflexivity|].
  split; [reflexivity|]. by rewrite populated_singleton.
Qed.

(** C9, amended.  For a declared type that is not recognized, both send
    paths build the empty payload and go on to store the message with it
    (the socket handler does not throw, the REST call answers 201 for a
    participant).  For a recognized type the field of that type, and no
    other, is assigned: with the raw content on the REST path and, for
    every type but the media ones, on the socket path; with
    [content.media] for the media types on the socket path, when the
    content is neither [undefined] nor [null].  The field is populated
    exactly when the value assigned is not [undefined]. *)
Theorem payload_follows_declared_type (type : string) (content : JValue) :
  (payloadField type = None →
     formatContent type content = ∅
     ∧ formatContentSocket type content = Some ∅
     ∧ (∀ now newId socket conversationId w,
          Message.content
            <$> messages
                  (store (handleSendMessage now newId socket
                            (mkSendData conversationId content type) w).1)
                !! newId
          = Some ∅)
     ∧ (∀ dflt now newId senderId conversationId db c,
          Conversation_findOne_participant conversationId senderId db
            = Some c →
          let r := sendMessage dflt now newId (Some senderId)
                     (mkSendBody conversationId content (Some type)) db in
          statusCode r.2 = 201
          ∧ Message.content <$> messages r.1 !! newId = Some ∅))
  ∧ (∀ f, payloadField type = Some f →
       (formatContent type content = {[ f := content ]}
        ∧ dom (formatContent type content) = {[ f ]}
        ∧ populated (formatContent type content)
          = if isUndefined content then ∅ else {[ f ]})
       ∧ ((f = "media" → content ≠ JUndefined ∧ content ≠ JNull) →
          ∃ v, formatContentSocket type content = Some {[ f := v ]}
               ∧ (f ≠ "media" → v = content)
               ∧ (f = "media" → getProp content "media" = Some v)
               ∧ dom ({[ f := v ]} : gmap string JValue) = {[ f ]}
               ∧ populated {[ f := v ]}
                 = if isUndefined v then ∅ else {[ f ]})).
Proof.
  split.
  - intros Hnone.
    destruct (formatContent_unrecognized type content Hnone) as [Hrest Hsock].
    split; [done|]. split; [done|]. split.
    + intros now newId socket conversationId w. unfold handleSendMessage.
      cbn [sendType sendContent sendConversationId]. rewrite Hsock.
      cbn [fst store].
      unfold Conversation_updateOne, with_conversations. cbn [messages].
      erewrite updateOne_lookup;
        [|unfold with_messages; cbn [messages]; apply lookup_insert_eq].
      reflexivity.
    + intros dflt now newId senderId conversationId db c Hc. cbn zeta.
      rewrite (sendMessage_ok _ _ _ _ _ _ c) by done.
      split; [reflexivity|].
      unfold Conversation_save, with_conversations, with_messages.
      cbn [fst messages]. rewrite lookup_insert_eq. cbn.
      by rewrite Hrest.
  - intros f Hf. split.
    + rewrite (formatContent_field _ _ f Hf).
      split; [done|]. split; [apply dom_singleton_L|].
      apply populated_singleton.
    + intros Hcontent. destruct (decide (f = "media")) as [->|Hne].
      * destruct Hcontent as [Hu Hn]; [done|].
        destruct (getProp_defined content "media" Hu Hn) as [v Hv].
        exists v. split; [by rewrite formatContentSocket_media, Hv|].
        split; [done|]. split; [done|].
        split; [apply dom_singleton_L|apply populated_singleton].
      * exists content. split; [by apply formatContentSocket_field|].
        split; [done|]. split; [done|].
        split; [apply dom_singleton_L|apply populated_singleton].
Qed.

Lemma payload_follows_declared_type_witness :
  payloadField "sticker" = None
  ∧ payloadField "image" = Some "media"
  ∧ (formatContent "sticker" (JStr "x") = ∅
     ∧ formatContentSocket "sticker" (JStr "x") = Some ∅)
  ∧ formatContent "image" (JObj [("media", JStr "a.png")])
    = {[ "media" := JObj [("media", JStr "a.png")] ]}
  ∧ ∃ v, formatContentSocket "image" (JObj [("media", JStr "a.png")])
         = Some {[ "media" := v ]}
         ∧ getProp (JObj [("media", JStr "a.png")]) "media" = Some v.
Proof.
  split; [reflexivity|]. split; [reflexivity|]. split; [|split].
  - destruct (proj1 (payload_follows_declared_type "sticker" (JStr "x"))
                eq_refl) as (H1 & H2 & _).
    exact (conj H1 H2).
  - exact (proj1 (proj1 (proj2 (payload_follows_declared_type "image"
                                  (JObj [("media", JStr "a.png")]))
                           "media" eq_refl))).
  - destruct (proj2 (proj2 (payload_follows_declared_type "image"
                              (JObj [("media", JStr "a.png")]))
                       "media" eq_refl))
      as (v & Hv & _ & Hget & _).
    + intros _. split; discriminate.
    + exists v. split; [exact Hv|]. by apply Hget.
Defined.

(** ** Deleting a message *)

Section delete.
Implicit Types (db : DB) (m : Message.t) (c : Conversation.t).

(** [deleteMessage] by the sender of a stored message, step by step. *)
Lemma deleteMessage_by_sender now (messageId : Id) m db :
  messages db !! messageId = Some m →
  deleteMessage now (Some (Message.sender m)) messageId db
  = (let db1 :=
       with_messages
         (insert messageId (Message.softDelete now (Message.sender m) m))
         db in
     match conversations db !! Message.conversation m with
     | Some c =>
         if bool_decide (Conversation.lastMessage c = Some messageId)
         then Conversation_save (Message.conversation m)
                (Conversation.set_lastMessage
                   (fst <$> lastLiveMessage (Message.conversation m) db1) c)
                db1
         else db1
     | None => db1
     end,
     mkResponse 200 "Message deleted").
Proof.
  intros Hm. unfold deleteMessage. rewrite Hm.
  by rewrite bool_decide_eq_true_2.
Qed.

(** What [lastLiveMessage] finds is a live message of the conversation
    and none of these was created later; when it finds nothing, the
    conversation has no live message. *)
Lemma lastLiveMessage_Some (conversationId i : Id) mi db :
  lastLiveMessage conversationId db = Some (i, mi) →
  messages db !! i = Some mi
  ∧ Message.conversation mi = conversationId
  ∧ Message.isDeleted mi = false
  ∧ ∀ j mj, messages db !! j = Some mj →
            Message.conversation mj = conversationId →
            Message.isDeleted mj = false →
            Message.createdAt mj ≤ Message.createdAt mi.
Proof.
  unfold lastLiveMessage. intros [Hin Hmax]%latest_Some.
  apply elem_of_Message_find in Hin as (Hi & Hconv & Hlive).
  repeat split; [done..|].
  intros j mj Hj Hjc Hjl.
  apply (Hmax (j, mj)). apply elem_of_Message_find. done.
Qed.

Lemma lastLiveMessage_None (conversationId : Id) db :
  lastLiveMessage conversationId db = None →
  ∀ j mj, messages db !! j = Some mj →
          Message.conversation mj = conversationId →
          Message.isDeleted mj = true.
Proof.
  unfold lastLiveMessage. intros Hnil%latest_None j mj Hj Hjc.
  destruct (Message.isDeleted mj) eqn:Hdel; [done|].
  assert ((j, mj) ∈ @nil (Id * Message.t)) as Hin; [|by apply elem_of_nil in Hin].
  rewrite <- Hnil. apply elem_of_Message_find. done.
Qed.
End delete.

(** C10. [deleteMessage] by the sender of a stored message answers 200
    and stores the message soft-deleted.  If the conversation of the
    message has it as [lastMessage], the conversation is saved with
    [lastMessage] recomputed and nothing else changed: the new value is a
    message of that conversation that is not deleted and was created no
    earlier than any other such message, or it is undefined when the
    conversation has no message left that is not deleted.  If the
    conversation has another [lastMessage], or is not there, no
    conversation document is modified. *)
Theorem deleteMessage_recomputes_lastMessage
    (now : nat) (messageId : Id) (m : Message.t) (db : DB) :
  messages db !! messageId = Some m →
  let r := deleteMessage now (Some (Message.sender m)) messageId db in
  let conversationId := Message.conversation m in
  statusCode r.2 = 200
  ∧ messages r.1 !! messageId
    = Some (Message.softDelete now (Message.sender m) m)
  ∧ (∀ c, conversations db !! conversationId = Some c →
          Conversation.lastMessage c = Some messageId →
          ∃ last,
            conversations r.1 !! conversationId
              = Some (Conversation.set_lastMessage last c)
            ∧ (∀ i, i ≠ conversationId →
                    conversations r.1 !! i = conversations db !! i)
            ∧ match last with
              | Some i =>
                  ∃ mi, messages r.1 !! i = Some mi
                        ∧ Message.conversation mi = conversationId
                        ∧ Message.isDeleted mi = false
                        ∧ ∀ j mj, messages r.1 !! j = Some mj →
                                  Message.conversation mj = conversationId →
                                  Message.isDeleted mj = false →
                                  Message.createdAt mj ≤ Message.createdAt mi
              | None =>
                  ∀ j mj, messages r.1 !! j = Some mj →
                          Message.conversation mj = conversationId →
                          Message.isDeleted mj = true
              end)
  ∧ ((∀ c, conversations db !! conversationId = Some c →
           Conversation.lastMessage c ≠ Some messageId) →
     conversations r.1 = conversations db).
Proof.
  intros Hm. cbn zeta. rewrite (deleteMessage_by_sender now messageId m db Hm).
  cbn zeta. set (db1 := with_messages _ db).
  assert (messages db1 !! messageId
          = Some (Message.softDelete now (Message.sender m) m)) as Hm1.
  { unfold db1, with_messages. cbn [messages]. apply lookup_insert_eq. }
  split; [reflexivity|]. cbn [fst]. split; [|split].
  - destruct (conversations db !! Message.conversation m) as [c|]; [|done].
    by destruct (bool_decide (Conversation.lastMessage c = Some messageId)).
  - intros c Hc Hlast. rewrite Hc, (bool_decide_eq_true_2 _ Hlast).
    exists (fst <$> lastLiveMessage (Message.conversation m) db1).
    unfold Conversation_save, with_conversations.
    cbn [messages conversations]. rewrite lookup_insert_eq.
    split; [done|]. split.
    + intros i Hi. by rewrite lookup_insert_ne.
    + destruct (lastLiveMessage (Message.conversation m) db1) as [[i mi]|]
        eqn:Hlive; cbn [fmap option_fmap option_map fst].
      * exists mi. by apply lastLiveMessage_Some.
      * by apply lastLiveMessage_None.
  - intros Hother.
    destruct (conversations db !! Message.conversation m) as [c|] eqn:Hc;
      [|done].
    by rewrite (bool_decide_eq_false_2 _ (Hother c eq_refl)).
Qed.

Lemma deleteMessage_recomputes_lastMessage_witness :
  messages Fixture.busy !! "m4" = Some Fixture.m4
  ∧ (let r := deleteMessage 9 (Some "bob") "m4" Fixture.busy in
     statusCode r.2 = 200
     ∧ messages r.1 !! "m4" = Some (Message.softDelete 9 "bob" Fixture.m4)
     ∧ Conversation.lastMessage <$> conversations r.1 !! "c1"
       = Some (Some "m3")).
Proof.
  assert (messages Fixture.busy !! "m4" = Some Fixture.m4) as Hm
    by reflexivity.
  split; [exact Hm|].
  destruct (deleteMessage_recomputes_lastMessage 9 "m4" Fixture.m4
              Fixture.busy Hm) as (Hstatus & Hdel & _ & _).
  split; [exact Hstatus|]. split; [exact Hdel|]. by vm_compute.
Defined.

(** ** Read receipts: the batch path *)

Section batch_read.
Implicit Types (db : DB) (m : Message.t) (c : Conversation.t).

Lemma elem_of_found (q : Id → Message.t → Prop)
    `{∀ i m, Decision (q i m)} db (i : Id) :
  i ∈ (Message_find q db).*1 ↔ ∃ m, messages db !! i = Some m ∧ q i m.
Proof.
  rewrite list_elem_of_fmap. split.
  - intros ([j m] & -> & Hin). exists m. cbn [fst].
    by apply elem_of_Message_find in Hin.
  - intros (m & Hm & Hq). exists (i, m). split; [done|].
    by apply elem_of_Message_find.
Qed.

Lemma NoDup_found (q : Id → Message.t → Prop)
    `{∀ i m, Decision (q i m)} db :
  NoDup (Message_find q db).*1.
Proof.
  unfold Message_find.
  apply (sublist_NoDup _ (map_to_list (messages db)).*1).
  - apply NoDup_fst_map_to_list.
  - apply fmap_sublist, sublist_filter.
Qed.

Lemma pushRead_unread u now m :
  u ∉ readUser <$> Message.readBy m → pushRead u now m = markedRead u now m.
Proof.
  intros Hu. destruct m as [cv sd ty ct st rb del dat dby cat].
  unfold pushRead, markedRead, Message.set_readBy. cbn in *.
  f_equal. apply addToSet_fresh.
  intros Hin. apply Hu. apply list_elem_of_fmap. by exists (mkReadInfo u now).
Qed.

Lemma markedRead_neq u now m : markedRead u now m ≠ m.
Proof.
  intros Heq. apply (f_equal (λ x, length (Message.readBy x))) in Heq.
  cbn in Heq. rewrite length_app in Heq. cbn in Heq. lia.
Qed.

Lemma pushRead_createdAt u now m :
  Message.createdAt (pushRead u now m) = Message.createdAt m.
Proof. done. Qed.

Lemma setLastRead_find (u w : Id) (ps : list Participant) p :
  find (λ p, bool_decide (partUser p = u)) ps = Some p →
  find (λ p, bool_decide (partUser p = u)) (setLastRead u w ps)
  = Some (mkParticipant (partUser p) (partRole p) (joinedAt p) (Some w)).
Proof.
  intros Hp. unfold setLastRead. rewrite updateFirst_find; [by rewrite Hp|].
  by intros [].
Qed.

Lemma resetUnread_find (u : Id) (es : list UnreadCount) :
  count <$> find (λ e, bool_decide (unreadUser e = u)) (resetUnread u es)
  = (λ _ : nat, 0)
      <$> (count <$> find (λ e, bool_decide (unreadUser e = u)) es).
Proof.
  unfold resetUnread. rewrite updateFirst_find; [|by intros []].
  by destruct (find _ es).
Qed.

Lemma isParticipant_find (u : Id) c :
  isParticipant u c = true → is_Some (findParticipant u c).
Proof.
  unfold isParticipant, findParticipant.
  intros (p & -> & Hin)%bool_decide_eq_true%list_elem_of_fmap.
  destruct (find _ _) as [q|] eqn:Hfind; [by eexists|].
  apply list_elem_of_In in Hin.
  pose proof (find_none _ _ Hfind _ Hin) as Hfalse. simpl in Hfalse.
  by apply bool_decide_eq_false in Hfalse.
Qed.

(** [markMultipleAsRead] past its guards. *)
Lemma markMultipleAsRead_participant now (u conversationId : Id) ids db c :
  ids ≠ [] →
  conversationId ≠ "" →
  conversations db !! conversationId = Some c →
  isParticipant u c = true →
  markMultipleAsRead now (Some u)
    (mkMarkManyBody (Some ids) (Some conversationId)) db
  = (let found := Message_find (unreadAmong ids conversationId u) db in
     match found with
     | [] =>
         (db, mkMarkManyResult
                (mkResponse 200 "No new messages to mark as read") (Some []))
     | _ :: _ =>
         let db1 :=
           Message_bulkWrite
             ((λ im : Id * Message.t, (im.1, pushRead u now)) <$> found) db in
         let db2 :=
           match latest (Message_find (idAmong found.*1) db1) with
           | Some lm =>
               Conversation_updateOne conversationId
                 (Conversation.set_participants (setLastRead u lm.1)) db1
           | None => db1
           end in
         (Conversation_updateOne conversationId
            (Conversation.set_unreadCount (resetUnread u)) db2,
          mkMarkManyResult
            (mkResponse 200 "Messages marked as read successfully")
            (Some found.*1))
     end).
Proof.
  intros Hids Hcid Hc Hpart. unfold markMultipleAsRead.
  cbn [messageIds readConversationId truthy default from_option id].
  destruct ids as [|i ids]; [done|].
  rewrite (bool_decide_eq_false_2 _ Hcid). cbn [negb].
  unfold Conversation_findOne_participant. rewrite Hc, Hpart.
  reflexivity.
Qed.
End batch_read.

(** C5, as the claim states it, fails.  Bob, a participant of [c1], calls
    with an empty list of ids: no message is to be marked, and the claim
    has such a call succeed and report zero updated ids; the guard on
    [messageIds] answers 400 and reports no ids at all. *)
Lemma empty_batch_is_refused :
  let r := markMultipleAsRead 9 (Some "bob")
             (mkMarkManyBody (Some []) (Some "c1")) Fixture.busy in
  isParticipant "bob" <$> conversations Fixture.busy !! "c1" = Some true
  ∧ Message_find (unreadAmong [] "c1" "bob") Fixture.busy = []
  ∧ r.2 = mkMarkManyResult
            (mkResponse 400 "Invalid messageIds. Must be a non-empty array.")
            None
  ∧ statusCode (markResponse r.2) ≠ 200
  ∧ updatedMessageIds r.2 ≠ Some []
  ∧ r.1 = Fixture.busy.
Proof. by vm_compute. Qed.

(** C5, amended.  [markMultipleAsRead] called by a participant of the
    conversation with an empty list of ids is refused with 400, reports
    no ids and leaves the database as it was.  Called with a non-empty
    list of ids it answers 200, and with [marked] the stored messages
    among the ids that are of the conversation and do not have the user
    in [readBy]:
    - every marked message gets the user appended to [readBy], every
      other message is as before, so the documents that change are the
      marked ones and no others;
    - the ids reported are those of the marked messages, each once;
    - when no message is marked, the whole database is as before and the
      ids reported are none;
    - when some message is marked, the conversation is stored with the
      user's watermark at a marked message created no earlier than any
      other marked one, and with the user's unread counter at 0;
    - the other conversations and the users are as before. *)
Theorem markMultipleAsRead_marks_exactly_unread
    (now : nat) (u conversationId : Id) (ids : list Id) (db : DB)
    (c : Conversation.t) :
  conversationId ≠ "" →
  conversations db !! conversationId = Some c →
  isParticipant u c = true →
  let r := markMultipleAsRead now (Some u)
             (mkMarkManyBody (Some ids) (Some conversationId)) db in
  let marked := unreadAmong ids conversationId u in
  (ids = [] →
   r = (db, mkMarkManyResult
              (mkResponse 400
                 "Invalid messageIds. Must be a non-empty array.") None))
  ∧ (ids ≠ [] →
     statusCode (markResponse r.2) = 200
     ∧ (∀ i, messages r.1 !! i
             = (λ m, if decide (marked i m) then markedRead u now m else m)
                 <$> messages db !! i)
     ∧ (∀ i, messages r.1 !! i ≠ messages db !! i
             ↔ ∃ m, messages db !! i = Some m ∧ marked i m)
     ∧ (∃ l, updatedMessageIds r.2 = Some l
             ∧ NoDup l
             ∧ ∀ i, i ∈ l ↔ ∃ m, messages db !! i = Some m ∧ marked i m)
     ∧ ((∀ i m, messages db !! i = Some m → ¬ marked i m) →
        r.1 = db ∧ updatedMessageIds r.2 = Some [])
     ∧ (∀ i0 m0, messages db !! i0 = Some m0 → marked i0 m0 →
          ∃ w mw c',
            conversations r.1 !! conversationId = Some c'
            ∧ messages db !! w = Some mw
            ∧ marked w mw
            ∧ (∀ i m, messages db !! i = Some m → marked i m →
                      Message.createdAt m ≤ Message.createdAt mw)
            ∧ c' = Conversation.set_unreadCount (resetUnread u)
                     (Conversation.set_participants (setLastRead u w) c)
            ∧ watermarkOf u c' = Some w
            ∧ unreadCountOf u c' = (λ _, 0) <$> unreadCountOf u c)
     ∧ (∀ i, i ≠ conversationId →
             conversations r.1 !! i = conversations db !! i)
     ∧ users r.1 = users db).
Proof.
  intros Hcid Hc Hpart. cbn zeta. split; [by intros ->|]. intros Hids.
  rewrite (markMultipleAsRead_participant now u conversationId ids db c)
    by done.
  cbn zeta.
  pose proof (elem_of_found (unreadAmong ids conversationId u) db) as Hfound.
  pose proof (NoDup_found (unreadAmong ids conversationId u) db) as Hnodup.
  destruct (Message_find (unreadAmong ids conversationId u) db)
    as [|x found'] eqn:Hf.
  { (* nothing to mark *)
    cbn [fst snd markResponse updatedMessageIds statusCode].
    assert (∀ i m, messages db !! i = Some m →
                   ¬ unreadAmong ids conversationId u i m) as Hnone.
    { intros i m Hm Hq.
      assert (i ∈ (@nil (Id * Message.t)).*1) as Hin
        by (apply Hfound; eauto).
      by apply elem_of_nil in Hin. }
    split; [done|]. split; [|split; [|split; [|split; [|split; [|split]]]]].
    - intros i. destruct (messages db !! i) as [m|] eqn:Hm; [|done].
      cbn. by rewrite decide_False by eauto.
    - intros i. split; [done|].
      intros (m & Hm & Hq). by destruct (Hnone i m).
    - exists []. split; [done|]. split; [apply NoDup_nil_2|].
      intros i. split; [by intros ?%elem_of_nil|].
      intros (m & Hm & Hq). by destruct (Hnone i m).
    - done.
    - intros i0 m0 Hm0 Hq0. by destruct (Hnone i0 m0).
    - done.
    - done. }
  set (found := x :: found') in *.
  set (db1 := Message_bulkWrite _ db).
  destruct (bulkWrite_conversations
              ((λ im : Id * Message.t, (im.1, pushRead u now)) <$> found) db)
    as [Hconv1 Husers1].
  fold db1 in Hconv1, Husers1.
  assert (∀ i, messages db1 !! i
               = (λ m, if decide (unreadAmong ids conversationId u i m)
                       then markedRead u now m else m)
                   <$> messages db !! i) as Hdb1.
  { intros i. unfold db1.
    rewrite bulkWrite_lookup by apply pushRead_idemp.
    destruct (decide (i ∈ found.*1)) as [Hin|Hnin].
    - apply Hfound in Hin as (m & Hm & Hq). rewrite Hm.
      cbn [fmap option_fmap option_map]. rewrite decide_True by done.
      rewrite pushRead_unread; [done|]. by destruct Hq as (_ & _ & ?).
    - destruct (messages db !! i) as [m|] eqn:Hm; [|done].
      cbn [fmap option_fmap option_map]. rewrite decide_False; [done|].
      intros Hq. apply Hnin, Hfound. eauto. }
  (* the latest of the messages just marked *)
  destruct (latest (Message_find (idAmong found.*1) db1)) as [[w mw']|]
    eqn:Hlatest; cycle 1.
  { exfalso. apply latest_None in Hlatest.
    destruct x as [i0 m0].
    assert (i0 ∈ found.*1) as Hin by (unfold found; cbn; apply elem_of_cons; by left).
    pose proof Hin as (m & Hm & Hq)%Hfound.
    assert ((i0, markedRead u now m) ∈ Message_find (idAmong found.*1) db1)
      as Hin1.
    { apply elem_of_Message_find. split; [|done].
      by rewrite Hdb1, Hm; cbn; rewrite decide_True. }
    rewrite Hlatest in Hin1. by apply elem_of_nil in Hin1. }
  apply latest_Some in Hlatest as [Hw Hmax].
  apply elem_of_Message_find in Hw as [Hw1 Hwin].
  unfold idAmong in Hwin. apply Hfound in Hwin as (mw & Hmw & Hqw).
  assert (mw' = markedRead u now mw) as ->.
  { rewrite Hdb1, Hmw in Hw1. cbn in Hw1. rewrite decide_True in Hw1 by done.
    by injection Hw1. }
  cbn [fst snd markResponse updatedMessageIds statusCode].
  set (c' := Conversation.set_unreadCount (resetUnread u)
               (Conversation.set_participants (setLastRead u w) c)).
  assert (conversations
            (Conversation_updateOne conversationId
               (Conversation.set_unreadCount (resetUnread u))
               (Conversation_updateOne conversationId
                  (Conversation.set_participants (setLastRead u w)) db1))
          !! conversationId = Some c') as Hc'.
  { unfold Conversation_updateOne, with_conversations. cbn [conversations].
    by rewrite !lookup_alter_eq, Hconv1, Hc. }
  split; [done|]. split; [|split; [|split; [|split; [|split; [|split]]]]].
  - intros i. unfold Conversation_updateOne, with_conversations.
    cbn [messages]. apply Hdb1.
  - intros i. unfold Conversation_updateOne, with_conversations.
    cbn [messages]. rewrite Hdb1.
    destruct (messages db !! i) as [m|] eqn:Hm;
      cbn [fmap option_fmap option_map]; [|split; [done|by intros (? & ? & _)]].
    destruct (decide (unreadAmong ids conversationId u i m)) as [Hq|Hq].
    + split; [by eauto|]. intros _ [= Heq]. by apply markedRead_neq in Heq.
    + split; [done|]. intros (m' & [= <-] & Hq'). done.
  - exists found.*1. split; [done|]. split; [done|]. apply Hfound.
  - intros Hnone. exfalso. by apply (Hnone w mw).
  - intros i0 m0 Hm0 Hq0. exists w, mw, c'.
    split; [exact Hc'|]. split; [done|]. split; [done|]. split.
    { intros i m Hm Hq.
      assert ((i, markedRead u now m) ∈ Message_find (idAmong found.*1) db1)
        as Hin.
      { apply elem_of_Message_find. split.
        - by rewrite Hdb1, Hm; cbn; rewrite decide_True.
        - apply Hfound. eauto. }
      apply Hmax in Hin. exact Hin. }
    split; [done|]. split.
    + destruct (isParticipant_find u c Hpart) as [p Hp].
      unfold watermarkOf, findParticipant, c'. cbn.
      unfold findParticipant in Hp. by rewrite (setLastRead_find u w _ p Hp).
    + unfold unreadCountOf, c'.
      cbn [Conversation.unreadCount Conversation.set_unreadCount
           Conversation.set_participants].
      apply resetUnread_find.
  - intros i Hi. unfold Conversation_updateOne, with_conversations.
    cbn [conversations]. by rewrite !lookup_alter_ne, Hconv1.
  - done.
Qed.

Lemma markMultipleAsRead_marks_exactly_unread_witness :
  conversations Fixture.busy !! "c1"
    = Some (Conversation.set_lastMessage (Some "m4") Fixture.c1)
  ∧ isParticipant "bob" (Conversation.set_lastMessage (Some "m4") Fixture.c1)
    = true
  ∧ (let r := markMultipleAsRead 9 (Some "bob")
                (mkMarkManyBody (Some ["m1"; "m3"; "m4"; "m9"]) (Some "c1"))
                Fixture.busy in
     statusCode (markResponse r.2) = 200
     ∧ Message.readBy <$> messages r.1 !! "m3"
       = Some [mkReadInfo "alice" 7; mkReadInfo "bob" 9]
     ∧ Message.readBy <$> messages r.1 !! "m4" = Some [mkReadInfo "bob" 8]
     ∧ (watermarkOf "bob" <$> conversations r.1 !! "c1") = Some (Some "m3")
     ∧ (unreadCountOf "bob" <$> conversations r.1 !! "c1") = Some (Some 0)).
Proof.
  assert (conversations Fixture.busy !! "c1"
          = Some (Conversation.set_lastMessage (Some "m4") Fixture.c1)) as Hc
    by reflexivity.
  assert (isParticipant "bob"
            (Conversation.set_lastMessage (Some "m4") Fixture.c1) = true)
    as Hpart by reflexivity.
  split; [exact Hc|]. split; [exact Hpart|].
  destruct (markMultipleAsRead_marks_exactly_unread 9 "bob" "c1"
              ["m1"; "m3"; "m4"; "m9"] Fixture.busy _
              ltac:(discriminate) Hc Hpart) as [_ Hmarks].
  destruct (Hmarks ltac:(discriminate))
    as (Hstatus & Hmsgs & _ & _ & _ & _ & _).
  split; [exact Hstatus|].
  split; [rewrite (Hmsgs "m3"); by vm_compute|].
  split; [rewrite (Hmsgs "m4"); by vm_compute|].
  split; by vm_compute.
Defined.

(** ** What every sequence of requests preserves *)

Section preserved.
Implicit Types (db : DB) (c : Conversation.t) (w : World).

Lemma findOne_participant_Some (conversationId u : Id) db c :
  Conversation_findOne_participant conversationId u db = Some c →
  conversations db !! conversationId = Some c ∧ isParticipant u c = true.
Proof.
  unfold Conversation_findOne_participant.
  destruct (conversations db !! conversationId) as [c'|]; [|done].
  destruct (isParticipant u c') eqn:Hp; [|done]. by intros [= ->].
Qed.

Lemma wellFormed_set_lastMessage v c :
  wellFormed c → wellFormed (Conversation.set_lastMessage v c).
Proof. by destruct c. Qed.

Lemma wellFormed_set_unreadCount f c :
  wellFormed c → wellFormed (Conversation.set_unreadCount f c).
Proof. by destruct c. Qed.

Lemma wellFormed_applyUpdate body c :
  wellFormed c → wellFormed (applyUpdate body c).
Proof. by destruct c. Qed.

Lemma wellFormed_markDeleted now c :
  wellFormed c → wellFormed (markDeleted now c).
Proof. by destruct c. Qed.

Lemma setLastRead_users (u i : Id) (ps : list Participant) :
  partUser <$> setLastRead u i ps = partUser <$> ps.
Proof.
  unfold setLastRead. induction ps as [|p ps IH]; [done|]. cbn.
  destruct (bool_decide (partUser p = u)); cbn; [done|]. by rewrite IH.
Qed.

Lemma updateFirst_elem {A} (p : A → bool) (f : A → A) (l : list A) x :
  x ∈ updateFirst p f l → x ∈ l ∨ ∃ y, y ∈ l ∧ x = f y.
Proof.
  induction l as [|a l IH]; cbn; [by intros ?%elem_of_nil|].
  destruct (p a).
  - intros [->|Hin]%elem_of_cons.
    + right. exists a. split; [by apply elem_of_cons; left|done].
    + left. by apply elem_of_cons; right.
  - intros [->|Hin]%elem_of_cons; [left; by apply elem_of_cons; left|].
    destruct (IH Hin) as [?|(y & ? & ->)].
    + left. by apply elem_of_cons; right.
    + right. exists y. split; [by apply elem_of_cons; right|done].
Qed.

Lemma setLastRead_head (u i : Id) (ps : list Participant) p rest :
  ps = p :: rest → partRole p = "owner" →
  (∀ q, q ∈ rest → partRole q = "member") →
  ∃ p' rest', setLastRead u i ps = p' :: rest' ∧ partRole p' = "owner"
              ∧ ∀ q, q ∈ rest' → partRole q = "member".
Proof.
  intros -> Hrole Hrest. unfold setLastRead. cbn.
  destruct (bool_decide (partUser p = u)); [by eauto|].
  eexists _, _. split; [done|]. split; [done|].
  intros q [Hq|(y & Hy & ->)]%updateFirst_elem; [by apply Hrest|].
  cbn. by apply Hrest.
Qed.

Lemma wellFormed_setLastRead (u i : Id) c :
  wellFormed c → wellFormed (Conversation.set_participants (setLastRead u i) c).
Proof.
  destruct c as [ty nm ds av ps ads ai mc lm uc del dat].
  unfold wellFormed, Conversation.set_participants.
  cbn [Conversation.memberCount Conversation.participants
       Conversation.admins Conversation.type].
  intros (Hcount & (p & rest & Hps & Hrole & Hrest) & Hadm & Hdir).
  rewrite setLastRead_users.
  assert (length (setLastRead u i ps) = length ps) as ->
    by apply updateFirst_length.
  split; [done|]. split; [by apply (setLastRead_head u i ps p rest)|].
  split; done.
Qed.

Lemma allWellFormed_save (i : Id) c db :
  wellFormed c → allWellFormed db → allWellFormed (Conversation_save i c db).
Proof.
  intros Hc Hdb j c'. unfold Conversation_save, with_conversations. cbn.
  rewrite lookup_insert. case_decide; [by intros [= <-]|apply Hdb].
Qed.

Lemma allWellFormed_updateOne (i : Id) f db :
  (∀ c, wellFormed c → wellFormed (f c)) →
  allWellFormed db → allWellFormed (Conversation_updateOne i f db).
Proof.
  intros Hf Hdb j c'. unfold Conversation_updateOne, with_conversations. cbn.
  rewrite lookup_alter. case_decide as Hij; [|apply Hdb]. subst j.
  destruct (conversations db !! i) as [c|] eqn:Hc; [|done].
  cbn. intros [= <-]. by apply Hf, (Hdb i).
Qed.

Lemma allWellFormed_messages f db :
  allWellFormed db → allWellFormed (with_messages f db).
Proof. done. Qed.

Lemma allWellFormed_bulkWrite ops db :
  allWellFormed db → allWellFormed (Message_bulkWrite ops db).
Proof.
  intros Hdb i c. by rewrite (proj1 (bulkWrite_conversations ops db)); apply Hdb.
Qed.

End preserved.

Lemma sendMessage_wellFormed dflt now newId reqUser body (db : DB) :
  allWellFormed db →
  allWellFormed (sendMessage dflt now newId reqUser body db).1.
Proof.
  intros Hdb. unfold sendMessage. destruct reqUser as [u|]; [|done].
  destruct (Conversation_findOne_participant _ u db) as [c|] eqn:Hc; [|done].
  apply findOne_participant_Some in Hc as [Hc _]. cbn [fst].
  apply allWellFormed_save; [|done].
  by apply wellFormed_set_lastMessage, (Hdb _ _ Hc).
Qed.

Lemma markAsRead_wellFormed now reqUser (messageId : Id) (db : DB) :
  allWellFormed db → allWellFormed (markAsRead now reqUser messageId db).1.
Proof.
  intros Hdb. unfold markAsRead. destruct reqUser as [u|]; [|done].
  destruct (messages db !! messageId) as [m|]; [|done].
  by destruct (alreadyRead u m).
Qed.

Lemma deleteMessage_wellFormed now reqUser (messageId : Id) (db : DB) :
  allWellFormed db → allWellFormed (deleteMessage now reqUser messageId db).1.
Proof.
  intros Hdb. unfold deleteMessage. destruct reqUser as [u|]; [|done].
  destruct (messages db !! messageId) as [m|]; [|done].
  destruct (negb _); [done|]. cbn [fst].
  set (db1 := with_messages _ db).
  destruct (conversations db1 !! Message.conversation m) as [c|] eqn:Hc;
    [|done].
  destruct (bool_decide _); [|done].
  apply allWellFormed_save; [|done].
  by apply wellFormed_set_lastMessage, (Hdb _ _ Hc).
Qed.

Lemma markMultipleAsRead_wellFormed now reqUser body (db : DB) :
  allWellFormed db → allWellFormed (markMultipleAsRead now reqUser body db).1.
Proof.
  intros Hdb. unfold markMultipleAsRead. destruct reqUser as [u|]; [|done].
  destruct (messageIds body) as [[|i ids]|]; [done| |done].
  destruct (negb _); [done|].
  destruct (Conversation_findOne_participant _ u db); [|done].
  destruct (Message_find _ db) as [|x found]; [done|]. cbn [fst].
  apply allWellFormed_updateOne; [apply wellFormed_set_unreadCount|].
  destruct (latest _) as [lm|].
  - apply allWellFormed_updateOne; [apply wellFormed_setLastRead|].
    by apply allWellFormed_bulkWrite.
  - by apply allWellFormed_bulkWrite.
Qed.

Lemma createConversation_wellFormed dflt now newId reqUser body (db : DB) :
  allWellFormed db →
  allWellFormed (createConversation dflt now newId reqUser body db).1.
Proof.
  intros Hdb. unfold createConversation. destruct reqUser as [u|]; [|done].
  destruct (negb (bool_decide (newType body ∈ conversationTypes))); [done|].
  destruct (_ && _); [done|].
  destruct (newParticipants body) as [ids|]; [|done].
  destruct (bool_decide (newType body = "direct")
            && negb (bool_decide (length ids = 1))) eqn:Hguard; [done|].
  destruct (negb (bool_decide (length (existingUsers ids db) = length ids)));
    [done|].
  cbn [fst]. apply allWellFormed_save; [|done].
  unfold wellFormed.
  cbn [Conversation.memberCount Conversation.participants
       Conversation.admins Conversation.type].
  split; [done|]. split.
  { eexists _, _. split; [done|]. split; [done|].
    by intros q (v & -> & _)%list_elem_of_fmap. }
  split.
  - intros a. destruct (bool_decide (newType body ≠ "direct"));
      [|by intros ?%elem_of_nil].
    intros ->%list_elem_of_singleton. cbn. apply elem_of_cons. by left.
  - intros Hdirect. rewrite Hdirect in Hguard |- *.
    rewrite (bool_decide_eq_true_2 ("direct" = "direct")) in Hguard by done.
    cbn in Hguard. apply negb_false_iff, bool_decide_eq_true in Hguard.
    cbn [length]. rewrite length_fmap, Hguard. split; [done|].
    by rewrite bool_decide_eq_false_2 by (intros H; by apply H).
Qed.

Lemma updateConversation_wellFormed reqUser (i : Id) body (db : DB) :
  allWellFormed db → allWellFormed (updateConversation reqUser i body db).1.
Proof.
  intros Hdb. unfold updateConversation. destruct reqUser as [u|]; [|done].
  destruct (Conversation_findOne_live i u db) as [c|] eqn:Hc; [|done].
  apply findOne_live_Some in Hc. destruct (notStaff _); [done|]. cbn [fst].
  apply allWellFormed_save; [|done].
  by apply wellFormed_applyUpdate, (Hdb _ _ Hc).
Qed.

Lemma deleteConversation_wellFormed now reqUser (i : Id) (db : DB) :
  allWellFormed db → allWellFormed (deleteConversation now reqUser i db).1.
Proof.
  intros Hdb. unfold deleteConversation. destruct reqUser as [u|]; [|done].
  destruct (Conversation_findOne_live i u db) as [c|] eqn:Hc; [|done].
  apply findOne_live_Some in Hc. destruct (notAdminOrOwner _); [done|].
  cbn [fst]. apply allWellFormed_save; [|done].
  by apply wellFormed_markDeleted, (Hdb _ _ Hc).
Qed.

(** Dropping the participants and admins whose user fails a test keeps a
    conversation well formed, as long as the first participant passes. *)
Lemma wellFormed_filter (P : Id → Prop)
    `{Hp : ∀ p : Participant, Decision (P (partUser p))}
    `{Ha : ∀ a : Admin, Decision (P (adminUser a))}
    (c : Conversation.t) :
  wellFormed c →
  Conversation.type c ≠ "direct" →
  (∀ p rest, Conversation.participants c = p :: rest → P (partUser p)) →
  let c1 := Conversation.set_participants (filter (λ p, P (partUser p))) c in
  let c2 :=
    Conversation.set_memberCount (length (Conversation.participants c1)) c1 in
  wellFormed (Conversation.set_admins (filter (λ a, P (adminUser a))) c2).
Proof.
  destruct c as [ty nm ds av ps ads ai mc lm uc del dat].
  unfold wellFormed. cbn.
  intros (Hcount & (p & rest & -> & Hrole & Hrest) & Hadm & _) Hty Hhead.
  split; [done|]. split; [|split; [|done]].
  - exists p, (filter (λ p, P (partUser p)) rest).
    split; [by rewrite filter_cons_True by by apply (Hhead p rest)|].
    split; [done|]. intros q [_ Hq]%list_elem_of_filter. by apply Hrest.
  - intros a [Hpa Hin]%list_elem_of_filter.
    apply Hadm, list_elem_of_fmap in Hin as (q & Hq & Hin).
    apply list_elem_of_fmap. exists q. split; [done|].
    apply list_elem_of_filter. split; [by rewrite <- Hq|done].
Qed.

Lemma addParticipants_wellFormed now reqUser (i : Id) ids (db : DB) :
  allWellFormed db → allWellFormed (addParticipants now reqUser i ids db).1.
Proof.
  intros Hdb. unfold addParticipants. destruct reqUser as [u|]; [|done].
  destruct (Conversation_findOne_live i u db) as [c|] eqn:Hc; [|done].
  apply findOne_live_Some in Hc. pose proof (Hdb _ _ Hc) as Hwf.
  destruct (bool_decide (Conversation.type c = "direct")) eqn:Hty; [done|].
  apply bool_decide_eq_false in Hty.
  destruct (notAdminOrOwner _); [done|]. destruct (negb _); [done|].
  destruct (bool_decide _); [done|]. cbn [fst].
  apply allWellFormed_save; [|done].
  destruct c as [ty nm ds av ps ads ai mc lm uc del dat].
  unfold wellFormed in *. cbn in *.
  destruct Hwf as (Hcount & (p & rest & -> & Hrole & Hrest) & Hadm & _).
  split; [done|]. split.
  { eexists _, _. split; [done|]. split; [done|].
    intros q [Hq|(v & -> & _)%list_elem_of_fmap]%elem_of_app; [|done].
    by apply Hrest. }
  split; [|done].
  intros a Ha. rewrite fmap_app. apply elem_of_app. left. by apply Hadm.
Qed.

Lemma removeParticipants_wellFormed reqUser (i : Id) ids (db : DB) :
  allWellFormed db → allWellFormed (removeParticipants reqUser i ids db).1.
Proof.
  intros Hdb. unfold removeParticipants. destruct reqUser as [u|]; [|done].
  destruct (Conversation_findOne_live i u db) as [c|] eqn:Hc; [|done].
  apply findOne_live_Some in Hc. pose proof (Hdb _ _ Hc) as Hwf.
  destruct (bool_decide (Conversation.type c = "direct")) eqn:Hty; [done|].
  apply bool_decide_eq_false in Hty.
  destruct (notAdminOrOwner _); [done|].
  destruct (find _ _) as [o|] eqn:Howner; [done|]. cbn [fst].
  apply allWellFormed_save; [|done].
  apply (wellFormed_filter (λ x, x ∉ ids)); [done..|].
  intros p rest Hps Hin.
  destruct Hwf as (_ & (p' & rest' & Hps' & Hrole & _) & _).
  rewrite Hps in Hps'. injection Hps' as <- <-.
  assert (In p (Conversation.participants c)) as Hp
    by (rewrite Hps; by left).
  pose proof (find_none _ _ Howner p Hp) as Hfalse. cbn in Hfalse.
  rewrite andb_false_iff, !bool_decide_eq_false in Hfalse.
  by destruct Hfalse.
Qed.

Lemma leaveConversation_wellFormed reqUser (i : Id) (db : DB) :
  allWellFormed db → allWellFormed (leaveConversation reqUser i db).1.
Proof.
  intros Hdb. unfold leaveConversation. destruct reqUser as [u|]; [|done].
  destruct (Conversation_findOne_live i u db) as [c|] eqn:Hc; [|done].
  apply findOne_live_Some in Hc. pose proof (Hdb _ _ Hc) as Hwf.
  destruct (bool_decide (Conversation.type c = "direct")) eqn:Hty; [done|].
  apply bool_decide_eq_false in Hty.
  destruct (bool_decide (_ = Some "owner")) eqn:Howner; [done|].
  apply bool_decide_eq_false in Howner. cbn [fst].
  apply allWellFormed_save; [|done].
  apply (wellFormed_filter (λ x, x ≠ u)); [done..|].
  intros p rest Hps Heq.
  destruct Hwf as (_ & (p' & rest' & Hps' & Hrole & _) & _).
  rewrite Hps in Hps'. injection Hps' as <- <-.
  apply Howner. unfold findParticipant. rewrite Hps. cbn.
  rewrite bool_decide_eq_true_2 by done. cbn. by rewrite Hrole.
Qed.

Lemma handleSendMessage_wellFormed now newId socket data (w : World) :
  allWellFormed (store w) →
  allWellFormed (store (handleSendMessage now newId socket data w).1).
Proof.
  intros Hdb. unfold handleSendMessage.
  destruct (formatContentSocket _ _); [|done]. cbn [fst store].
  apply allWellFormed_updateOne; [|done].
  intros c Hc. unfold bumpConversation.
  by apply wellFormed_set_unreadCount, wellFormed_set_lastMessage.
Qed.

Lemma handleMessageRead_wellFormed now socket data (w : World) :
  allWellFormed (store w) →
  allWellFormed (store (handleMessageRead now socket data w).1).
Proof.
  intros Hdb. unfold handleMessageRead.
  destruct (messages (store w) !! _) as [m|]; [|done].
  destruct (alreadyRead _ m); [done|]. cbn [fst store].
  apply allWellFormed_updateOne; [apply wellFormed_set_unreadCount|done].
Qed.

(** X1. Whatever requests are served, in whatever order and with whatever
    arguments, a store in which every conversation is well formed stays
    one: the member count is the number of participant entries, the first
    participant entry has the owner role and all the others the member
    role, every admin is a participant, and a direct conversation has two
    participant entries and no admins. *)
Theorem requests_keep_conversations_well_formed
    (rs : list Request) (w : World) :
  allWellFormed (store w) → allWellFormed (store (serveAll rs w)).
Proof.
  unfold serveAll. revert w.
  induction rs as [|r rs IH]; intros w Hw; [done|].
  cbn [foldl]. apply IH.
  destruct r; cbn [serve onStore store];
    auto using sendMessage_wellFormed, markAsRead_wellFormed,
      deleteMessage_wellFormed, markMultipleAsRead_wellFormed,
      createConversation_wellFormed, updateConversation_wellFormed,
      deleteConversation_wellFormed, addParticipants_wellFormed,
      removeParticipants_wellFormed, leaveConversation_wellFormed,
      handleSendMessage_wellFormed, handleMessageRead_wellFormed.
Qed.

Lemma noDocumentLost_refl (db : DB) : noDocumentLost db db.
Proof. by repeat split. Qed.

Lemma noDocumentLost_trans (db1 db2 db3 : DB) :
  noDocumentLost db1 db2 → noDocumentLost db2 db3 → noDocumentLost db1 db3.
Proof.
  intros (Hm & Hc & Hu) (Hm' & Hc' & Hu').
  split; [by etrans|]. split; [by etrans|]. by rewrite Hu'.
Qed.

Lemma noDocumentLost_insert_message (i : Id) m (db : DB) :
  noDocumentLost db (with_messages (insert i m) db).
Proof.
  split; [|done]. unfold with_messages. cbn. rewrite dom_insert_L.
  set_solver.
Qed.

Lemma noDocumentLost_updateOne (i : Id) f (db : DB) :
  noDocumentLost db (Message_updateOne i f db).
Proof.
  split; [|done]. unfold Message_updateOne, with_messages. cbn.
  by rewrite dom_alter_L.
Qed.

Lemma noDocumentLost_bulkWrite ops (db : DB) :
  noDocumentLost db (Message_bulkWrite ops db).
Proof.
  unfold Message_bulkWrite. revert db.
  induction ops as [|op ops IH]; intros db; [apply noDocumentLost_refl|].
  cbn [foldl]. eapply noDocumentLost_trans; [|apply IH].
  apply noDocumentLost_updateOne.
Qed.

Lemma noDocumentLost_save (i : Id) c (db : DB) :
  noDocumentLost db (Conversation_save i c db).
Proof.
  split; [done|]. split; [|done].
  unfold Conversation_save, with_conversations. cbn. rewrite dom_insert_L.
  set_solver.
Qed.

Lemma noDocumentLost_conversation_updateOne (i : Id) f (db : DB) :
  noDocumentLost db (Conversation_updateOne i f db).
Proof.
  split; [done|]. split; [|done].
  unfold Conversation_updateOne, with_conversations. cbn.
  by rewrite dom_alter_L.
Qed.

Lemma noDocumentLost_setUserStatus (u : Id) st now (db : DB) :
  noDocumentLost db (setUserStatus u st now db).
Proof.
  split; [done|]. split; [done|].
  unfold setUserStatus, with_users. cbn. by rewrite dom_alter_L.
Qed.

Ltac kept :=
  cbn [fst store];
  repeat first
    [ apply noDocumentLost_refl
    | eapply noDocumentLost_trans;
      [|first [ apply noDocumentLost_save
              | apply noDocumentLost_conversation_updateOne
              | apply noDocumentLost_updateOne
              | apply noDocumentLost_insert_message
              | apply noDocumentLost_bulkWrite
              | apply noDocumentLost_setUserStatus ]] ].

Lemma serve_noDocumentLost (r : Request) (w : World) :
  noDocumentLost (store w) (store (serve r w)).
Proof.
  destruct r; cbn [serve onStore store].
  - unfold sendMessage. destruct reqUser; [|kept].
    destruct (Conversation_findOne_participant _ _ _); kept.
  - unfold markAsRead. destruct reqUser; [|kept].
    destruct (messages _ !! _); [|kept]. destruct (alreadyRead _ _); kept.
  - unfold deleteMessage. destruct reqUser; [|kept].
    destruct (messages _ !! _); [|kept]. destruct (negb _); [kept|].
    cbn zeta. destruct (conversations _ !! _); [|kept].
    destruct (bool_decide _); kept.
  - unfold markMultipleAsRead. destruct reqUser; [|kept].
    destruct (messageIds body) as [[|i ids]|]; [kept| |kept].
    destruct (negb _); [kept|].
    destruct (Conversation_findOne_participant _ _ _); [|kept].
    destruct (Message_find _ _); [kept|]. cbn zeta.
    destruct (latest _); kept.
  - unfold createConversation. destruct reqUser; [|kept].
    destruct (negb _); [kept|]. destruct (_ && _); [kept|].
    destruct (newParticipants body); [|kept].
    destruct (_ && _); [kept|]. destruct (negb _); kept.
  - unfold updateConversation. destruct reqUser; [|kept].
    destruct (Conversation_findOne_live _ _ _); [|kept].
    destruct (notStaff _); kept.
  - unfold deleteConversation. destruct reqUser; [|kept].
    destruct (Conversation_findOne_live _ _ _); [|kept].
    destruct (notAdminOrOwner _); kept.
  - unfold addParticipants. destruct reqUser; [|kept].
    destruct (Conversation_findOne_live _ _ _); [|kept].
    destruct (bool_decide _); [kept|].
    destruct (notAdminOrOwner _); [kept|]. destruct (negb _); [kept|].
    destruct (bool_decide _); kept.
  - unfold removeParticipants. destruct reqUser; [|kept].
    destruct (Conversation_findOne_live _ _ _); [|kept].
    destruct (bool_decide _); [kept|].
    destruct (notAdminOrOwner _); [kept|]. destruct (find _ _); kept.
  - unfold leaveConversation. destruct reqUser; [|kept].
    destruct (Conversation_findOne_live _ _ _); [|kept].
    destruct (bool_decide _); [kept|]. destruct (bool_decide _); kept.
  - unfold handleConnection. kept.
  - unfold handleDisconnect. kept.
  - unfold handleSendMessage. destruct (formatContentSocket _ _); kept.
  - unfold handleMessageRead. destruct (messages _ !! _); [|kept].
    destruct (alreadyRead _ _); kept.
Qed.

(** X2. No request, and so no sequence of requests, removes a document:
    every message and every conversation stored before is stored after
    (deletion is a flag on the document), and no user is added or
    removed. *)
Theorem requests_never_remove_documents (rs : list Request) (w : World) :
  noDocumentLost (store w) (store (serveAll rs w)).
Proof.
  unfold serveAll. revert w.
  induction rs as [|r rs IH]; intros w; [apply noDocumentLost_refl|].
  cbn [foldl]. eapply noDocumentLost_trans; [|apply IH].
  apply serve_noDocumentLost.
Qed.

Lemma fixture_wellFormed : allWellFormed Fixture.db0.
Proof.
  intros i c Hi. unfold Fixture.db0 in Hi. cbn [conversations] in Hi.
  apply lookup_insert_Some in Hi as [[_ <-]|[_ Hi]];
    [|apply lookup_singleton_Some in Hi as [_ <-]].
  - split; [done|]. split.
    { eexists _, _. split; [done|]. split; [done|].
      by intros q ->%list_elem_of_singleton. }
    split; [by intros a ?%elem_of_nil|done].
  - split; [done|]. split.
    { eexists _, _. split; [done|]. split; [done|].
      by intros q ->%list_elem_of_singleton. }
    split; [|done].
    intros a ->%list_elem_of_singleton. cbn. apply elem_of_cons. by left.
Qed.

Lemma requests_keep_conversations_well_formed_witness :
  allWellFormed (store Fixture.w0)
  ∧ allWellFormed
      (store
         (serveAll
            [RCreateConversation mongooseDefaults 2 "g2" (Some "bob")
               (mkCreateBody "group" (Some ["alice"]) (Some "pair") None None);
             RAddParticipants 3 (Some "alice") "c1" ["mallory"];
             SSendMessage 4 "m2" (mkSocket "s1" "alice")
               (mkSendData "c1" (JStr "hello") "text");
             RRemoveParticipants (Some "alice") "c1" ["bob"];
             RLeaveConversation (Some "mallory") "c1"]
            Fixture.w0)).
Proof.
  split; [exact fixture_wellFormed|].
  apply requests_keep_conversations_well_formed. exact fixture_wellFormed.
Defined.

(** ** Conversations: deletion, update and membership *)

Lemma findParticipant_isParticipant (u : Id) (c : Conversation.t) p :
  findParticipant u c = Some p → isParticipant u c = true ∧ partUser p = u.
Proof.
  unfold findParticipant, isParticipant. intros Hfind.
  apply find_some in Hfind as [Hin Hp].
  apply bool_decide_eq_true in Hp. split; [|done].
  apply bool_decide_eq_true, list_elem_of_fmap. exists p.
  split; [done|by apply list_elem_of_In].
Qed.

Lemma findOne_live_lookup (i u : Id) (db : DB) c :
  conversations db !! i = Some c →
  Conversation_findOne_live i u db
  = if isParticipant u c && negb (Conversation.isDeleted c)
    then Some c else None.
Proof.
  intros Hc. unfold Conversation_findOne_live,
    Conversation_findOne_participant. rewrite Hc.
  destruct (isParticipant u c); [|done].
  by destruct (Conversation.isDeleted c).
Qed.

(** X3. An admin or the owner of a live conversation deletes it: the
    answer is 200 and the document stays stored, flagged deleted with the
    time of the call and otherwise as it was.  From then on every call of
    the conversation controller on it, by anyone and with any arguments
    (get, update, delete again, add, remove, leave), answers 404 and
    leaves the database alone. *)
Theorem deleted_conversation_is_out_of_reach
    (now : nat) (u i : Id) (db : DB) (c : Conversation.t) (p : Participant) :
  conversations db !! i = Some c →
  Conversation.isDeleted c = false →
  findParticipant u c = Some p →
  partRole p ∈ ["admin"; "owner"] →
  let r := deleteConversation now (Some u) i db in
  statusCode r.2 = 200
  ∧ r.1 = Conversation_save i (markDeleted now c) db
  ∧ Conversation.participants (markDeleted now c)
    = Conversation.participants c
  ∧ (∀ v, (getConversation (Some v) i r.1)
          = (mkResponse 404 "Conversation not found", None))
  ∧ (∀ v body, updateConversation (Some v) i body r.1
               = (r.1, mkResponse 404 "Conversation not found"))
  ∧ (∀ now' v, deleteConversation now' (Some v) i r.1
               = (r.1, mkResponse 404 "Conversation not found"))
  ∧ (∀ now' v ids, addParticipants now' (Some v) i ids r.1
                   = (r.1, mkResponse 404 "Conversation not found"))
  ∧ (∀ v ids, removeParticipants (Some v) i ids r.1
              = (r.1, mkResponse 404 "Conversation not found"))
  ∧ (∀ v, leaveConversation (Some v) i r.1
          = (r.1, mkResponse 404 "Conversation not found")).
Proof.
  intros Hc Hlive Hfind Hrole. cbn zeta.
  destruct (findParticipant_isParticipant u c p Hfind) as [Hpart _].
  assert (deleteConversation now (Some u) i db
          = (Conversation_save i (markDeleted now c) db,
             mkResponse 200 "Conversation deleted successfully")) as ->.
  { unfold deleteConversation.
    rewrite (findOne_live_lookup i u db c Hc), Hpart, Hlive.
    cbn [andb negb]. rewrite Hfind. cbn [notAdminOrOwner].
    by rewrite bool_decide_eq_true_2. }
  cbn [fst snd statusCode]. split; [done|]. split; [done|]. split; [done|].
  assert (∀ v, Conversation_findOne_live i v
                 (Conversation_save i (markDeleted now c) db) = None) as Hgone.
  { intros v. rewrite (findOne_live_lookup i v _ (markDeleted now c)).
    - cbn. by rewrite andb_false_r.
    - unfold Conversation_save, with_conversations. cbn.
      apply lookup_insert_eq. }
  repeat split; intros.
  - unfold getConversation. by rewrite Hgone.
  - unfold updateConversation. by rewrite Hgone.
  - unfold deleteConversation. by rewrite Hgone.
  - unfold addParticipants. by rewrite Hgone.
  - unfold removeParticipants. by rewrite Hgone.
  - unfold leaveConversation. by rewrite Hgone.
Qed.

Lemma deleted_conversation_is_out_of_reach_witness :
  conversations Fixture.db0 !! "c1" = Some Fixture.c1
  ∧ findParticipant "alice" Fixture.c1
    = Some (mkParticipant "alice" "owner" 0 None)
  ∧ (let r := deleteConversation 9 (Some "alice") "c1" Fixture.db0 in
     statusCode r.2 = 200
     ∧ (getConversation (Some "bob") "c1" r.1).1
       = mkResponse 404 "Conversation not found").
Proof.
  assert (conversations Fixture.db0 !! "c1" = Some Fixture.c1) as Hc
    by reflexivity.
  assert (findParticipant "alice" Fixture.c1
          = Some (mkParticipant "alice" "owner" 0 None)) as Hp
    by reflexivity.
  split; [exact Hc|]. split; [exact Hp|].
  destruct (deleted_conversation_is_out_of_reach 9 "alice" "c1" Fixture.db0
              Fixture.c1 _ Hc eq_refl Hp) as (Hs & _ & _ & Hget & _).
  - apply elem_of_cons. right. apply elem_of_cons. by left.
  - split; [exact Hs|]. cbn zeta in Hget. by rewrite (Hget "bob").
Defined.

(** X4. The message paths do not look at the deleted flag: a participant
    of a conversation that is flagged deleted still sends into it over
    REST; the call answers 201, stores the message and makes it the
    conversation's [lastMessage]. *)
Theorem deleted_conversation_still_takes_messages
    (dflt : SchemaDefaults) (now : nat) (newId u : Id) (body : SendBody)
    (db : DB) (c : Conversation.t) :
  conversations db !! conversationId body = Some c →
  isParticipant u c = true →
  Conversation.isDeleted c = true →
  let r := sendMessage dflt now newId (Some u) body db in
  statusCode r.2 = 201
  ∧ Message.sender <$> messages r.1 !! newId = Some u
  ∧ conversations r.1 !! conversationId body
    = Some (Conversation.set_lastMessage (Some newId) c)
  ∧ Conversation.isDeleted (Conversation.set_lastMessage (Some newId) c)
    = true.
Proof.
  intros Hc Hpart Hdel. cbn zeta.
  rewrite (sendMessage_ok dflt now newId u body db c).
  - cbn [fst snd statusCode]. split; [done|].
    unfold Conversation_save, with_conversations, with_messages. cbn.
    by rewrite !lookup_insert_eq.
  - unfold Conversation_findOne_participant. by rewrite Hc, Hpart.
Qed.

Lemma deleted_conversation_still_takes_messages_witness :
  let db := (deleteConversation 9 (Some "alice") "c1" Fixture.db0).1 in
  (Conversation.isDeleted <$> conversations db !! "c1") = Some true
  ∧ (let r := sendMessage mongooseDefaults 10 "m2" (Some "bob")
                (mkSendBody "c1" (JStr "still here") None) db in
     statusCode r.2 = 201
     ∧ Message.sender <$> messages r.1 !! "m2" = Some "bob").
Proof.
  cbn zeta. split; [by vm_compute|].
  destruct (deleted_conversation_still_takes_messages mongooseDefaults 10
              "m2" "bob" (mkSendBody "c1" (JStr "still here") None)
              (deleteConversation 9 (Some "alice") "c1" Fixture.db0).1
              (markDeleted 9 Fixture.c1))
    as (Hs & Hm & _); [by vm_compute..|].
  exact (conj Hs Hm).
Defined.

Lemma not_first_is_member (u : Id) (c : Conversation.t) p rest :
  wellFormed c →
  Conversation.participants c = p :: rest →
  u ≠ partUser p →
  notStaff (findParticipant u c) = true
  ∧ notAdminOrOwner (findParticipant u c) = true.
Proof.
  intros (_ & (p' & rest' & Hps & _ & Hrest) & _) Hps' Hu.
  rewrite Hps' in Hps. injection Hps as <- <-.
  unfold findParticipant. rewrite Hps'. cbn.
  rewrite bool_decide_eq_false_2 by done.
  destruct (find _ rest) as [q|] eqn:Hfind; [|done].
  apply find_some in Hfind as [Hin _]. apply list_elem_of_In in Hin.
  cbn. by rewrite (Hrest q Hin).
Qed.

(** X5. In a well-formed conversation only the user of the first
    participant entry, the creator, gets past the role checks: update,
    delete, add-participants and remove-participants called by anybody
    else are refused and leave the database as it was. *)
Theorem only_the_creator_manages
    (i u : Id) (db : DB) (c : Conversation.t) (p : Participant)
    (rest : list Participant) :
  conversations db !! i = Some c →
  wellFormed c →
  Conversation.participants c = p :: rest →
  u ≠ partUser p →
  (∀ body, let r := updateConversation (Some u) i body db in
           r.1 = db ∧ refused r.2)
  ∧ (∀ now, let r := deleteConversation now (Some u) i db in
            r.1 = db ∧ refused r.2)
  ∧ (∀ now ids, let r := addParticipants now (Some u) i ids db in
                r.1 = db ∧ refused r.2)
  ∧ (∀ ids, let r := removeParticipants (Some u) i ids db in
            r.1 = db ∧ refused r.2).
Proof.
  intros Hc Hwf Hps Hu.
  destruct (not_first_is_member u c p rest Hwf Hps Hu) as [Hstaff Hadmin].
  pose proof (findOne_live_lookup i u db c Hc) as Hlive.
  split; [|split; [|split]]; intros;
    repeat match goal with r := _ |- _ => subst r end.
  all: first [progress unfold updateConversation
             | progress unfold deleteConversation
             | progress unfold addParticipants
             | progress unfold removeParticipants].
  all: rewrite Hlive; destruct (_ && _); [|refusal].
  all: try (destruct (bool_decide (Conversation.type c = "direct"));
            [refusal|]).
  all: first [rewrite Hstaff | rewrite Hadmin]; refusal.
Qed.

Lemma only_the_creator_manages_witness :
  conversations Fixture.db0 !! "c1" = Some Fixture.c1
  ∧ (let r := updateConversation (Some "bob") "c1"
                (mkUpdateBody (Some "mine") None None None) Fixture.db0 in
     r.1 = Fixture.db0 ∧ refused r.2)
  ∧ (let r := addParticipants 5 (Some "bob") "c1" ["mallory"] Fixture.db0 in
     r.1 = Fixture.db0 ∧ refused r.2).
Proof.
  assert (conversations Fixture.db0 !! "c1" = Some Fixture.c1) as Hc
    by reflexivity.
  split; [exact Hc|].
  destruct (only_the_creator_manages "c1" "bob" Fixture.db0 Fixture.c1 _ _
              Hc (fixture_wellFormed _ _ Hc) eq_refl)
    as (Hupdate & _ & Hadd & _); [discriminate|].
  split; [apply Hupdate|apply Hadd].
Defined.



Section membership.
Implicit Types (db : DB) (c : Conversation.t) (ids : list Id).

Lemma find_all_false {A} (f : A → bool) (l : list A) :
  (∀ x, x ∈ l → f x = false) → find f l = None.
Proof.
  induction l as [|a l IH]; intros Hall; [done|]. cbn.
  rewrite (Hall a) by (apply elem_of_cons; by left).
  apply IH. intros x Hx. apply Hall, elem_of_cons. by right.
Qed.

Lemma find_app_Some {A} (f : A → bool) (l k : list A) x :
  find f l = Some x → find f (l ++ k) = Some x.
Proof.
  induction l as [|a l IH]; [done|]. cbn. destruct (f a); [done|apply IH].
Qed.

Lemma elem_of_existingUsers ids db (v : Id) :
  v ∈ (existingUsers ids db).*1 ↔ v ∈ ids ∧ is_Some (users db !! v).
Proof.
  unfold existingUsers. rewrite list_elem_of_fmap. split.
  - intros ([k x] & -> & [Hin Hx]%list_elem_of_filter).
    apply elem_of_map_to_list in Hx. cbn in *. eauto.
  - intros [Hin [x Hx]]. exists (v, x). split; [done|].
    apply list_elem_of_filter. split; [done|]. by apply elem_of_map_to_list.
Qed.

Lemma NoDup_existingUsers ids db : NoDup (existingUsers ids db).*1.
Proof.
  unfold existingUsers.
  apply (sublist_NoDup _ (map_to_list (users db)).*1).
  - apply NoDup_fst_map_to_list.
  - apply fmap_sublist, sublist_filter.
Qed.

(** The test [existingUsers.length !== participantIds.length] passes
    exactly for a list of different ids that all are users. *)
Lemma existingUsers_length ids db :
  length (existingUsers ids db) = length ids
  ↔ NoDup ids ∧ ∀ v, v ∈ ids → is_Some (users db !! v).
Proof.
  rewrite <- (length_fmap fst (existingUsers ids db)).
  pose proof (NoDup_existingUsers ids db) as Hnd.
  pose proof (elem_of_existingUsers ids db) as Hin.
  assert ((existingUsers ids db).*1 ⊆+ ids) as Hsub.
  { apply NoDup_submseteq; [done|]. intros v Hv. by apply Hin in Hv as [? _]. }
  split.
  - intros Hlen.
    assert ((existingUsers ids db).*1 ≡ₚ ids) as Hperm
      by (apply submseteq_length_Permutation; [done|lia]).
    split; [by rewrite <- Hperm|].
    intros v Hv. rewrite <- Hperm in Hv. by apply Hin in Hv as [_ ?].
  - intros [Hids Hall].
    assert (ids ⊆+ (existingUsers ids db).*1) as Hsub'.
    { apply NoDup_submseteq; [done|]. intros v Hv. apply Hin. auto. }
    apply submseteq_length in Hsub, Hsub'. lia.
Qed.

Lemma no_existing_participants ids c :
  length (filter (λ p, partUser p ∈ ids) (Conversation.participants c)) = 0
  ↔ ∀ v, v ∈ ids → isParticipant v c = false.
Proof.
  unfold isParticipant. split.
  - intros Hnil%nil_length_inv v Hv. apply bool_decide_eq_false.
    intros (p & -> & Hp)%list_elem_of_fmap.
    assert (p ∈ filter (λ p, partUser p ∈ ids) (Conversation.participants c))
      as Hin by by apply list_elem_of_filter.
    rewrite Hnil in Hin. by apply elem_of_nil in Hin.
  - intros Hall.
    destruct (filter _ _) as [|p l] eqn:Hf; [done|]. exfalso.
    assert (p ∈ filter (λ p, partUser p ∈ ids) (Conversation.participants c))
      as [Hp Hin]%list_elem_of_filter
      by (rewrite Hf; apply elem_of_cons; by left).
    specialize (Hall _ Hp). apply bool_decide_eq_false in Hall.
    apply Hall, list_elem_of_fmap. by exists p.
Qed.

(** [addParticipants] for a caller that gets past the role check. *)
Lemma addParticipants_staff now (u i : Id) ids db c p :
  conversations db !! i = Some c →
  Conversation.isDeleted c = false →
  Conversation.type c ≠ "direct" →
  findParticipant u c = Some p →
  partRole p ∈ ["admin"; "owner"] →
  addParticipants now (Some u) i ids db
  = if negb (bool_decide (length (existingUsers ids db) = length ids))
    then (db, mkResponse 400 "One or more participants do not exist")
    else if bool_decide
              (0 < length (filter (λ p, partUser p ∈ ids)
                             (Conversation.participants c)))
    then (db, mkResponse 400
                "One or more participants already in conversation")
    else (Conversation_save i
            (Conversation.set_memberCount
               (length (Conversation.participants c ++
                        ((λ v, mkParticipant v "member" now None) <$> ids)))
               (Conversation.set_participants
                  (λ l, l ++ ((λ v, mkParticipant v "member" now None)
                                <$> ids)) c)) db,
          mkResponse 200 "").
Proof.
  intros Hc Hlive Hty Hfind Hrole.
  destruct (findParticipant_isParticipant u c p Hfind) as [Hpart _].
  unfold addParticipants.
  rewrite (findOne_live_lookup i u db c Hc), Hpart, Hlive. cbn [andb negb].
  rewrite (bool_decide_eq_false_2 _ Hty), Hfind. cbn [notAdminOrOwner].
  by rewrite (bool_decide_eq_true_2 _ Hrole).
Qed.

End membership.

(** X7. An admin or the owner adds participants to a live conversation
    that is not direct.  The call answers 200 exactly when the ids are
    all different, all are users and none is a participant yet; it then
    appends one member entry per id, in the order given, and sets the
    member count to the old number of entries plus the number of ids, so
    that participants who were all different users still are.  Any other
    answer leaves the database as it was. *)
Theorem addParticipants_appends_new_members
    (now : nat) (u i : Id) (ids : list Id) (db : DB) (c : Conversation.t)
    (p : Participant) :
  conversations db !! i = Some c →
  Conversation.isDeleted c = false →
  Conversation.type c ≠ "direct" →
  findParticipant u c = Some p →
  partRole p ∈ ["admin"; "owner"] →
  let r := addParticipants now (Some u) i ids db in
  (statusCode r.2 = 200
   ↔ NoDup ids
     ∧ (∀ v, v ∈ ids → is_Some (users db !! v))
     ∧ (∀ v, v ∈ ids → isParticipant v c = false))
  ∧ (statusCode r.2 = 200 →
     ∃ c', conversations r.1 !! i = Some c'
       ∧ Conversation.participants c'
         = Conversation.participants c
           ++ ((λ v, mkParticipant v "member" now None) <$> ids)
       ∧ Conversation.memberCount c'
         = length (Conversation.participants c) + length ids
       ∧ (NoDup (partUser <$> Conversation.participants c) →
          NoDup (partUser <$> Conversation.participants c')))
  ∧ (statusCode r.2 ≠ 200 → r.1 = db).
Proof.
  intros Hc Hlive Hty Hfind Hrole. cbn zeta.
  rewrite (addParticipants_staff now u i ids db c p) by done.
  pose proof (existingUsers_length ids db) as Hex.
  pose proof (no_existing_participants ids c) as Hnone.
  destruct (decide (length (existingUsers ids db) = length ids)) as [He|He].
  - rewrite (bool_decide_eq_true_2 _ He). cbn [negb].
    destruct (decide (0 < length (filter (λ p, partUser p ∈ ids)
                                    (Conversation.participants c))))
      as [Hp|Hp].
    + rewrite (bool_decide_eq_true_2 _ Hp). cbn.
      split; [|split; [done|done]]. split; [done|].
      intros (_ & _ & Hfresh). apply Hnone in Hfresh. lia.
    + rewrite (bool_decide_eq_false_2 _ Hp). cbn [fst snd statusCode].
      assert (∀ v, v ∈ ids → isParticipant v c = false) as Hfresh
        by (apply Hnone; lia).
      destruct (proj1 Hex He) as [Hnd Hall].
      split; [done|]. split; [|done]. intros _.
      eexists. split.
      { unfold Conversation_save, with_conversations. cbn.
        apply lookup_insert_eq. }
      cbn. split; [done|].
      split; [by rewrite length_app, length_fmap|].
      intros Hold. rewrite fmap_app. apply NoDup_app.
      split; [done|]. rewrite <- list_fmap_compose.
      assert ((partUser ∘ (λ v, mkParticipant v "member" now None)) <$> ids
              = ids) as -> by (rewrite <- (list_fmap_id ids) at 2; done).
      split; [|done]. intros v Hv Hin.
      specialize (Hfresh v Hin). unfold isParticipant in Hfresh.
      by apply bool_decide_eq_false in Hfresh.
  - rewrite (bool_decide_eq_false_2 _ He). cbn.
    split; [|split; [done|done]]. split; [done|].
    intros (Hnd & Hall & _). destruct He. apply Hex. done.
Qed.

Lemma addParticipants_appends_new_members_witness :
  conversations Fixture.db0 !! "c1" = Some Fixture.c1
  ∧ (let r := addParticipants 5 (Some "alice") "c1" ["mallory"]
                Fixture.db0 in
     statusCode r.2 = 200
     ∧ (λ c, partUser <$> Conversation.participants c)
         <$> conversations r.1 !! "c1"
       = Some ["alice"; "bob"; "mallory"])
  ∧ (addParticipants 5 (Some "alice") "c1" ["mallory"; "mallory"]
       Fixture.db0).1 = Fixture.db0.
Proof.
  assert (conversations Fixture.db0 !! "c1" = Some Fixture.c1) as Hc
    by reflexivity.
  assert ("owner" ∈ ["admin"; "owner"]) as Hrole
    by (apply elem_of_cons; right; apply elem_of_cons; by left).
  split; [exact Hc|]. split.
  - destruct (addParticipants_appends_new_members 5 "alice" "c1" ["mallory"]
                Fixture.db0 Fixture.c1 (mkParticipant "alice" "owner" 0 None)
                Hc eq_refl ltac:(discriminate) eq_refl Hrole)
      as (_ & Hok & _).
    assert (statusCode (addParticipants 5 (Some "alice") "c1" ["mallory"]
                          Fixture.db0).2 = 200) as Hs by by vm_compute.
    split; [exact Hs|].
    destruct (Hok Hs) as (c' & Hc' & Hps & _).
    rewrite Hc'. cbn [fmap option_fmap option_map]. by rewrite Hps.
  - destruct (addParticipants_appends_new_members 5 "alice" "c1"
                ["mallory"; "mallory"] Fixture.db0 Fixture.c1
                (mkParticipant "alice" "owner" 0 None)
                Hc eq_refl ltac:(discriminate) eq_refl Hrole)
      as (_ & _ & Hfail).
    apply Hfail. by vm_compute.
Defined.

Lemma filter_all {A} (P : A → Prop) `{∀ x, Decision (P x)} (l : list A) :
  (∀ x, x ∈ l → P x) → filter P l = l.
Proof.
  induction l as [|a l IH]; intros Hall; [done|].
  rewrite filter_cons_True by (apply Hall, elem_of_cons; by left).
  f_equal. apply IH. intros x Hx. apply Hall, elem_of_cons. by right.
Qed.

Lemma filter_none {A} (P : A → Prop) `{∀ x, Decision (P x)} (l : list A) :
  (∀ x, x ∈ l → ¬ P x) → filter P l = [].
Proof.
  induction l as [|a l IH]; intros Hall; [done|].
  rewrite filter_cons_False by (apply Hall, elem_of_cons; by left).
  apply IH. intros x Hx. apply Hall, elem_of_cons. by right.
Qed.

Lemma save_save_back (i : Id) (c c' : Conversation.t) (db : DB) :
  conversations db !! i = Some c →
  Conversation_save i c (Conversation_save i c' db) = db.
Proof.
  intros Hc. destruct db as [ms cs us].
  unfold Conversation_save, with_conversations. cbn in *. f_equal.
  rewrite insert_insert_eq. by apply insert_id.
Qed.

(** X8. Adding participants and then removing the same ids is a round
    trip: when an admin or the owner of a well-formed live conversation
    has added a list of ids (answer 200), the same caller removing the
    same list gets 200 and the database is exactly what it was before
    the addition. *)
Theorem add_then_remove_restores
    (now : nat) (u i : Id) (ids : list Id) (db : DB) (c : Conversation.t)
    (p : Participant) :
  conversations db !! i = Some c →
  wellFormed c →
  Conversation.isDeleted c = false →
  Conversation.type c ≠ "direct" →
  findParticipant u c = Some p →
  partRole p ∈ ["admin"; "owner"] →
  let r := addParticipants now (Some u) i ids db in
  statusCode r.2 = 200 →
  removeParticipants (Some u) i ids r.1 = (db, mkResponse 200 "").
Proof.
  intros Hc Hwf Hlive Hty Hfind Hrole. cbn zeta.
  rewrite (addParticipants_staff now u i ids db c p) by done.
  destruct (negb _); [cbn; discriminate|].
  destruct (decide (0 < length (filter (λ p, partUser p ∈ ids)
                                  (Conversation.participants c))))
    as [Hp|Hp];
    [rewrite (bool_decide_eq_true_2 _ Hp); cbn; discriminate|].
  rewrite (bool_decide_eq_false_2 _ Hp). intros _. cbn [fst].
  assert (∀ v, v ∈ ids → isParticipant v c = false) as Hfresh
    by (apply (no_existing_participants ids c); lia).
  assert (∀ q, q ∈ Conversation.participants c → partUser q ∉ ids) as Hold.
  { intros q Hq Hin. specialize (Hfresh _ Hin).
    apply bool_decide_eq_false in Hfresh. apply Hfresh.
    apply list_elem_of_fmap. by exists q. }
  set (new := (λ v, mkParticipant v "member" now None) <$> ids).
  set (c2 := Conversation.set_memberCount _ _).
  assert (findParticipant u c2 = Some p) as Hfind2.
  { unfold findParticipant, c2. cbn. by apply find_app_Some. }
  destruct (findParticipant_isParticipant u c2 p Hfind2) as [Hpart2 _].
  unfold removeParticipants.
  rewrite (findOne_live_lookup i u _ c2)
    by (unfold Conversation_save, with_conversations; cbn;
        apply lookup_insert_eq).
  rewrite Hpart2.
  assert (Conversation.isDeleted c2 = false) as -> by done.
  cbn [andb negb].
  assert (Conversation.type c2 = Conversation.type c) as Hty2 by done.
  rewrite (bool_decide_eq_false_2 (Conversation.type c2 = "direct"))
    by by rewrite Hty2.
  rewrite Hfind2. cbn [notAdminOrOwner].
  rewrite (bool_decide_eq_true_2 _ Hrole). cbn [negb].
  rewrite find_all_false; cycle 1.
  { intros q. unfold c2. cbn.
    intros [Hq|(v & -> & _)%list_elem_of_fmap]%elem_of_app.
    - rewrite (bool_decide_eq_false_2 (partUser q ∈ ids)) by by apply Hold.
      apply andb_false_r.
    - done. }
  f_equal. rewrite <- (save_save_back i c c2 db Hc) at 2. f_equal.
  destruct Hwf as (Hcount & _ & Hadm & _).
  destruct c as [ty nm ds av ps ads ai mc lm uc del dat].
  unfold c2, new, Conversation.set_admins, Conversation.set_memberCount,
    Conversation.set_participants. cbn in *.
  assert (filter (λ q, partUser q ∉ ids)
            (ps ++ ((λ v, mkParticipant v "member" now None) <$> ids)) = ps)
    as ->.
  { rewrite filter_app, (filter_all _ ps) by done.
    rewrite filter_none; [by rewrite app_nil_r|].
    intros q (v & -> & Hv)%list_elem_of_fmap Hq. by apply Hq. }
  rewrite (filter_all _ ads); [by rewrite Hcount|].
  intros a Ha. apply Hadm in Ha as (q & Hq & Hin)%list_elem_of_fmap.
  rewrite Hq. by apply Hold.
Qed.

Lemma add_then_remove_restores_witness :
  conversations Fixture.db0 !! "c1" = Some Fixture.c1
  ∧ statusCode (addParticipants 5 (Some "alice") "c1" ["mallory"]
                  Fixture.db0).2 = 200
  ∧ removeParticipants (Some "alice") "c1" ["mallory"]
      (addParticipants 5 (Some "alice") "c1" ["mallory"] Fixture.db0).1
    = (Fixture.db0, mkResponse 200 "").
Proof.
  assert (conversations Fixture.db0 !! "c1" = Some Fixture.c1) as Hc
    by reflexivity.
  assert (statusCode (addParticipants 5 (Some "alice") "c1" ["mallory"]
                        Fixture.db0).2 = 200) as Hs by by vm_compute.
  split; [exact Hc|]. split; [exact Hs|].
  apply (add_then_remove_restores 5 "alice" "c1" ["mallory"] Fixture.db0
           Fixture.c1 (mkParticipant "alice" "owner" 0 None) Hc
           (fixture_wellFormed _ _ Hc) eq_refl ltac:(discriminate) eq_refl);
    [|exact Hs].
  apply elem_of_cons; right; apply elem_of_cons; by left.
Defined.

(** X9. A participant who is not the owner leaves a live conversation
    that is not direct: the answer is 200, the caller is no participant
    and no admin any more, everybody else's membership is as before and
    no message is touched.  After that the caller's second leave and the
    caller's REST send into the conversation both answer 404 and change
    nothing. *)
Theorem leave_removes_the_caller
    (u i : Id) (db : DB) (c : Conversation.t) :
  conversations db !! i = Some c →
  Conversation.isDeleted c = false →
  Conversation.type c ≠ "direct" →
  isParticipant u c = true →
  partRole <$> findParticipant u c ≠ Some "owner" →
  let r := leaveConversation (Some u) i db in
  statusCode r.2 = 200
  ∧ messages r.1 = messages db
  ∧ (∃ c', conversations r.1 !! i = Some c'
       ∧ isParticipant u c' = false
       ∧ (∀ v, v ≠ u → isParticipant v c' = isParticipant v c)
       ∧ (∀ a, a ∈ Conversation.admins c' → adminUser a ≠ u)
       ∧ Conversation.memberCount c' = length (Conversation.participants c'))
  ∧ leaveConversation (Some u) i r.1
    = (r.1, mkResponse 404 "Conversation not found")
  ∧ (∀ dflt now newId content type,
       sendMessage dflt now newId (Some u) (mkSendBody i content type) r.1
       = (r.1, mkResponse 404 "Conversation not found")).
Proof.
  intros Hc Hlive Hty Hpart Hrole. cbn zeta.
  set (c' := Conversation.set_admins (filter (λ a, adminUser a ≠ u))
               (Conversation.set_memberCount
                  (length (filter (λ p, partUser p ≠ u)
                             (Conversation.participants c)))
                  (Conversation.set_participants
                     (filter (λ p, partUser p ≠ u)) c))).
  assert (leaveConversation (Some u) i db
          = (Conversation_save i c' db,
             mkResponse 200 "Successfully left the conversation")) as ->.
  { unfold leaveConversation.
    rewrite (findOne_live_lookup i u db c Hc), Hpart, Hlive. cbn [andb negb].
    by rewrite (bool_decide_eq_false_2 _ Hty), (bool_decide_eq_false_2 _ Hrole). }
  cbn [fst snd statusCode].
  assert (conversations (Conversation_save i c' db) !! i = Some c') as Hc'
    by (unfold Conversation_save, with_conversations; cbn;
        apply lookup_insert_eq).
  assert (isParticipant u c' = false) as Hout.
  { apply bool_decide_eq_false. unfold c'. cbn.
    intros (q & Hq & [Hne _]%list_elem_of_filter)%list_elem_of_fmap. done. }
  split; [done|]. split; [done|]. split; [|split].
  - exists c'. split; [done|]. split; [done|]. split; [|split; [|done]].
    + intros v Hv. unfold isParticipant, c'. cbn. apply bool_decide_ext.
      rewrite !list_elem_of_fmap. split.
      * intros (q & -> & [_ Hq]%list_elem_of_filter). eauto.
      * intros (q & -> & Hq). exists q. split; [done|].
        by apply list_elem_of_filter.
    + intros a. unfold c'. cbn. by intros [? _]%list_elem_of_filter.
  - unfold leaveConversation.
    by rewrite (findOne_live_lookup i u _ c' Hc'), Hout.
  - intros. unfold sendMessage, Conversation_findOne_participant.
    cbn [conversationId]. by rewrite Hc', Hout.
Qed.

Lemma leave_removes_the_caller_witness :
  conversations Fixture.db0 !! "c1" = Some Fixture.c1
  ∧ isParticipant "bob" Fixture.c1 = true
  ∧ (let r := leaveConversation (Some "bob") "c1" Fixture.db0 in
     statusCode r.2 = 200
     ∧ leaveConversation (Some "bob") "c1" r.1
       = (r.1, mkResponse 404 "Conversation not found")).
Proof.
  assert (conversations Fixture.db0 !! "c1" = Some Fixture.c1) as Hc
    by reflexivity.
  split; [exact Hc|]. split; [reflexivity|].
  destruct (leave_removes_the_caller "bob" "c1" Fixture.db0 Fixture.c1 Hc
              eq_refl ltac:(discriminate) eq_refl ltac:(discriminate))
    as (Hs & _ & _ & Hagain & _).
  exact (conj Hs Hagain).
Defined.

(** ** Messages: the paths around the claims *)

(** X10. The socket handler for [message:send] checks neither that the
    conversation exists nor that the sender is one of its participants.
    Whenever the payload can be built, the message is stored with the
    socket's user as sender; a conversation stored under the given id,
    whoever its participants are, gets the message as [lastMessage] and
    the unread counter of every entry but the sender's raised by one;
    when no conversation is stored under that id, none is created and the
    message is stored all the same. *)
Theorem socket_send_checks_nothing
    (now : nat) (newId : Id) (socket : Socket) (data : SendData) (w : World)
    (payload : gmap string JValue) :
  formatContentSocket (sendType data) (sendContent data) = Some payload →
  let w' := (handleSendMessage now newId socket data w).1 in
  messages (store w') !! newId
    = Some (Message.mk (sendConversationId data) (sockUser socket)
              (sendType data) payload (Some "sent")
              [mkReadInfo (sockUser socket) now] false None None now)
  ∧ conversations (store w') !! sendConversationId data
    = bumpConversation newId (sockUser socket)
        <$> conversations (store w) !! sendConversationId data
  ∧ (∀ i, i ≠ sendConversationId data →
          conversations (store w') !! i = conversations (store w) !! i)
  ∧ dom (conversations (store w')) = dom (conversations (store w))
  ∧ connectedUsers w' = connectedUsers w.
Proof.
  intros Hp. cbn zeta. unfold handleSendMessage. rewrite Hp.
  cbn [fst store connectedUsers].
  unfold Conversation_updateOne, with_conversations, Message_updateOne,
    with_messages. cbn [messages conversations].
  split; [by rewrite lookup_alter_eq, lookup_insert_eq|].
  split; [by rewrite lookup_alter_eq|].
  split; [by intros i Hi; rewrite lookup_alter_ne|].
  split; [by rewrite dom_alter_L|done].
Qed.

Lemma socket_send_checks_nothing_witness :
  isParticipant "mallory" Fixture.c1 = false
  ∧ (let w' := (handleSendMessage 5 "m2" (mkSocket "s9" "mallory")
                  (mkSendData "c1" (JStr "spam") "text") Fixture.w0).1 in
     Message.sender <$> messages (store w') !! "m2" = Some "mallory"
     ∧ Conversation.unreadCount <$> conversations (store w') !! "c1"
       = Some [mkUnread "alice" 1; mkUnread "bob" 4])
  ∧ (let w' := (handleSendMessage 5 "m2" (mkSocket "s9" "mallory")
                  (mkSendData "nowhere" (JStr "lost") "text") Fixture.w0).1 in
     Message.sender <$> messages (store w') !! "m2" = Some "mallory"
     ∧ conversations (store w') !! "nowhere" = None).
Proof.
  split; [reflexivity|]. split.
  - destruct (socket_send_checks_nothing 5 "m2" (mkSocket "s9" "mallory")
                (mkSendData "c1" (JStr "spam") "text") Fixture.w0 _ eq_refl)
      as (Hm & Hc & _).
    cbn [sendConversationId sockUser sendType] in Hm, Hc. cbn zeta.
    rewrite Hm, Hc. split; [reflexivity|by vm_compute].
  - destruct (socket_send_checks_nothing 5 "m2" (mkSocket "s9" "mallory")
                (mkSendData "nowhere" (JStr "lost") "text") Fixture.w0 _
                eq_refl) as (Hm & Hc & _).
    cbn [sendConversationId sockUser sendType] in Hm, Hc. cbn zeta.
    rewrite Hm, Hc. split; [reflexivity|by vm_compute].
Defined.

Lemma sendTexts_cons now socket (conversationId : Id) t ts (w : World) :
  sendTexts now socket conversationId (t :: ts) w
  = sendTexts now socket conversationId ts
      (handleSendMessage now t.1 socket
         (mkSendData conversationId t.2 "text") w).1.
Proof. done. Qed.

(** X11. Text messages sent one after the other from one socket into a
    stored conversation: the conversation keeps its participants, every
    unread counter that is not the sender's has gone up by the number of
    messages, the sender's own counters are where they were, and
    [lastMessage] is the message sent last. *)
Theorem unread_counters_count_the_sends
    (now : nat) (socket : Socket) (conversationId : Id)
    (texts : list (Id * JValue)) (w : World) (c : Conversation.t) :
  conversations (store w) !! conversationId = Some c →
  ∃ c',
    conversations (store (sendTexts now socket conversationId texts w))
      !! conversationId = Some c'
    ∧ Conversation.participants c' = Conversation.participants c
    ∧ length (Conversation.unreadCount c')
      = length (Conversation.unreadCount c)
    ∧ (∀ k e, Conversation.unreadCount c !! k = Some e →
              Conversation.unreadCount c' !! k
              = Some (if decide (unreadUser e = sockUser socket) then e
                      else mkUnread (unreadUser e)
                             (count e + length texts)))
    ∧ Conversation.lastMessage c'
      = match last texts with
        | Some t => Some t.1
        | None => Conversation.lastMessage c
        end.
Proof.
  revert w c. induction texts as [|t ts IH]; intros w c Hc.
  - exists c. split; [done|]. split; [done|]. split; [done|].
    split; [|done]. intros k e He. rewrite He.
    case_decide; [done|]. destruct e. cbn. f_equal. f_equal. lia.
  - rewrite sendTexts_cons.
    pose proof (handleSendMessage_conversation now t.1 socket
                  (mkSendData conversationId t.2 "text") w _ c eq_refl Hc)
      as Hstep.
    cbn [sendConversationId] in Hstep.
    destruct (IH _ _ Hstep) as (c' & Hc' & Hps & Hlen & Hcount & Hlast).
    exists c'. split; [done|]. split; [by rewrite Hps|].
    split; [by rewrite Hlen; cbn; unfold incUnreadExcept;
            rewrite length_fmap|].
    split.
    + intros k e He.
      rewrite (Hcount k _ (incUnreadExcept_lookup (sockUser socket) _ k e He)).
      destruct (decide (unreadUser e = sockUser socket)) as [Heq|Hne].
      * by rewrite decide_True.
      * cbn. rewrite decide_False by done. cbn. f_equal. f_equal. lia.
    + rewrite Hlast, last_cons. by destruct (last ts).
Qed.

Lemma unread_counters_count_the_sends_witness :
  conversations (store Fixture.w0) !! "c1" = Some Fixture.c1
  ∧ ∃ c',
      conversations
        (store (sendTexts 5 (mkSocket "s1" "alice") "c1"
                  [("m2", JStr "one"); ("m3", JStr "two")] Fixture.w0))
        !! "c1" = Some c'
      ∧ Conversation.unreadCount c' !! 1 = Some (mkUnread "bob" 5)
      ∧ Conversation.lastMessage c' = Some "m3".
Proof.
  assert (conversations (store Fixture.w0) !! "c1" = Some Fixture.c1) as Hc
    by reflexivity.
  split; [exact Hc|].
  destruct (unread_counters_count_the_sends 5 (mkSocket "s1" "alice") "c1"
              [("m2", JStr "one"); ("m3", JStr "two")] Fixture.w0 Fixture.c1
              Hc) as (c' & Hc' & _ & _ & Hcount & Hlast).
  exists c'. split; [exact Hc'|]. split; [|exact Hlast].
  exact (Hcount 1 (mkUnread "bob" 3) eq_refl).
Defined.

Lemma zeroUnreadOf_lookup (u : Id) (l : list UnreadCount) k e :
  l !! k = Some e →
  zeroUnreadOf u l !! k
  = Some (if decide (unreadUser e = u) then mkUnread u 0 else e).
Proof.
  intros He. unfold zeroUnreadOf. rewrite list_lookup_fmap, He. cbn.
  case_decide; [by subst|done].
Qed.

(** X12. The socket handler for [message:read], for a stored message the
    user has not read yet, resets counters in the conversation named in
    the event, whether or not the message belongs to it: every unread
    counter of the user there becomes 0, whatever it was, every other
    counter stays, and every other conversation, the message's own when
    it is another one, is left as it was. *)
Theorem read_event_zeroes_the_named_conversation
    (now : nat) (socket : Socket) (conversationId messageId : Id)
    (m : Message.t) (w : World) :
  messages (store w) !! messageId = Some m →
  sockUser socket ∉ readUser <$> Message.readBy m →
  let w' := (handleMessageRead now socket
               (mkReadData conversationId messageId) w).1 in
  (∀ c, conversations (store w) !! conversationId = Some c →
     ∃ c', conversations (store w') !! conversationId = Some c'
       ∧ Conversation.participants c' = Conversation.participants c
       ∧ ∀ k e, Conversation.unreadCount c !! k = Some e →
                Conversation.unreadCount c' !! k
                = Some (if decide (unreadUser e = sockUser socket)
                        then mkUnread (sockUser socket) 0 else e))
  ∧ (∀ i, i ≠ conversationId →
          conversations (store w') !! i = conversations (store w) !! i).
Proof.
  intros Hm Hu. cbn zeta.
  rewrite (handleMessageRead_unread now socket _ m w) by done.
  cbn [fst store readDataConversationId readDataMessageId].
  unfold Conversation_updateOne, with_conversations, Message_updateOne,
    with_messages. cbn [conversations]. split.
  - intros c Hc. eexists. rewrite lookup_alter_eq, Hc. split; [done|].
    split; [done|]. intros k e He. cbn. by apply zeroUnreadOf_lookup.
  - intros i Hi. by rewrite lookup_alter_ne.
Qed.

Lemma read_event_zeroes_the_named_conversation_witness :
  messages (store Sample.w) !! "m1" = Some Fixture.m1
  ∧ Message.conversation Fixture.m1 = "c1"
  ∧ (let w' := (handleMessageRead 9 (mkSocket "s2" "bob")
                  (mkReadData "c2" "m1") Sample.w).1 in
     Conversation.unreadCount <$> conversations (store w') !! "c2"
       = Some [mkUnread "alice" 0; mkUnread "bob" 0]
     ∧ conversations (store w') !! "c1" = Some Fixture.c1).
Proof.
  assert (messages (store Sample.w) !! "m1" = Some Fixture.m1) as Hm
    by reflexivity.
  split; [exact Hm|]. split; [reflexivity|].
  destruct (read_event_zeroes_the_named_conversation 9 (mkSocket "s2" "bob")
              "c2" "m1" Fixture.m1 Sample.w Hm ltac:(by_compute))
    as [_ Hother].
  cbn zeta. split; [by vm_compute|].
  rewrite (Hother "c1") by discriminate. reflexivity.
Defined.

Lemma markedRead_reader (u : Id) now (m : Message.t) :
  u ∈ readUser <$> Message.readBy (markedRead u now m).
Proof.
  cbn. rewrite fmap_app. apply elem_of_app. right.
  by apply list_elem_of_singleton.
Qed.

(** After the batch call no message among the ids is left unread by the
    caller in that conversation, and the caller still is a participant
    of it. *)
Lemma markMultipleAsRead_leaves_none now (u conversationId : Id)
    (ids : list Id) (db : DB) (c : Conversation.t) :
  ids ≠ [] →
  conversationId ≠ "" →
  conversations db !! conversationId = Some c →
  isParticipant u c = true →
  let db' := (markMultipleAsRead now (Some u)
                (mkMarkManyBody (Some ids) (Some conversationId)) db).1 in
  Message_find (unreadAmong ids conversationId u) db' = []
  ∧ ∃ c', conversations db' !! conversationId = Some c'
          ∧ isParticipant u c' = true.
Proof.
  intros Hids Hcid Hc Hpart. cbn zeta.
  rewrite (markMultipleAsRead_participant now u conversationId ids db c)
    by done.
  cbn zeta.
  pose proof (elem_of_found (unreadAmong ids conversationId u) db) as Hfound.
  destruct (Message_find (unreadAmong ids conversationId u) db)
    as [|x found'] eqn:Hf; [by eauto|].
  set (found := x :: found') in *.
  set (db1 := Message_bulkWrite _ db).
  assert (∀ i, messages db1 !! i
               = (if decide (i ∈ found.*1) then pushRead u now <$> messages db !! i
                  else messages db !! i)) as Hdb1
    by (intros i; apply bulkWrite_lookup, pushRead_idemp).
  assert (conversations db1 = conversations db) as Hconv1
    by apply bulkWrite_conversations.
  cbn [fst]. split.
  - set (db3 := Conversation_updateOne conversationId
                  (Conversation.set_unreadCount (resetUnread u)) _).
    assert (messages db3 = messages db1) as Hmsgs
      by (unfold db3; by destruct (latest _)).
    destruct (Message_find (unreadAmong ids conversationId u) db3)
      as [|[i m'] rest] eqn:Hagain; [done|].
    exfalso.
    assert ((i, m') ∈ Message_find (unreadAmong ids conversationId u) db3)
      as Hin by (rewrite Hagain; apply elem_of_cons; by left).
    apply elem_of_Message_find in Hin as [Hm' Hq].
    assert (messages db1 !! i = Some m') as Hm1 by by rewrite <- Hmsgs.
    rewrite Hdb1 in Hm1. destruct Hq as (Hi & Hconv & Hunread).
    destruct (decide (i ∈ found.*1)) as [Hin|Hnin].
    + destruct (messages db !! i) as [m|]; [|done].
      cbn in Hm1. injection Hm1 as <-. apply Hunread, pushRead_reader.
    + apply Hnin, Hfound. exists m'. split; [done|]. by repeat split.
  - destruct (latest _) as [lm|].
    + eexists. unfold Conversation_updateOne, with_conversations.
      cbn [conversations]. rewrite !lookup_alter_eq, Hconv1, Hc.
      split; [done|]. unfold isParticipant. cbn.
      by rewrite setLastRead_users.
    + eexists. unfold Conversation_updateOne, with_conversations.
      cbn [conversations]. rewrite !lookup_alter_eq, Hconv1, Hc.
      by split.
Qed.

(** X13. The batch call is idempotent: made a second time with the same
    ids, by the same participant, at any later time, it answers 200 with
    no id updated and leaves the database exactly as the first call left
    it. *)
Theorem batch_read_twice_is_once
    (now1 now2 : nat) (u conversationId : Id) (ids : list Id) (db : DB)
    (c : Conversation.t) :
  ids ≠ [] →
  conversationId ≠ "" →
  conversations db !! conversationId = Some c →
  isParticipant u c = true →
  let body := mkMarkManyBody (Some ids) (Some conversationId) in
  let r1 := markMultipleAsRead now1 (Some u) body db in
  markMultipleAsRead now2 (Some u) body r1.1
  = (r1.1, mkMarkManyResult
             (mkResponse 200 "No new messages to mark as read") (Some [])).
Proof.
  intros Hids Hcid Hc Hpart. cbn zeta.
  destruct (markMultipleAsRead_leaves_none now1 u conversationId ids db c
              Hids Hcid Hc Hpart) as (Hnone & c' & Hc' & Hpart').
  cbn zeta in Hnone, Hc'.
  rewrite (markMultipleAsRead_participant now2 u conversationId ids _ c')
    by done.
  cbn zeta. by rewrite Hnone.
Qed.

Lemma batch_read_twice_is_once_witness :
  conversations Fixture.busy !! "c1"
    = Some (Conversation.set_lastMessage (Some "m4") Fixture.c1)
  ∧ (let body := mkMarkManyBody (Some ["m1"; "m3"]) (Some "c1") in
     let r1 := markMultipleAsRead 9 (Some "bob") body Fixture.busy in
     updatedMessageIds r1.2 = Some ["m3"; "m1"]
     ∧ markMultipleAsRead 10 (Some "bob") body r1.1
       = (r1.1, mkMarkManyResult
                  (mkResponse 200 "No new messages to mark as read")
                  (Some []))).
Proof.
  assert (conversations Fixture.busy !! "c1"
          = Some (Conversation.set_lastMessage (Some "m4") Fixture.c1)) as Hc
    by reflexivity.
  split; [exact Hc|]. cbn zeta. split; [by vm_compute|].
  apply (batch_read_twice_is_once 9 10 "bob" "c1" ["m1"; "m3"] Fixture.busy
           _ ltac:(discriminate) ltac:(discriminate) Hc eq_refl).
Defined.

(** X14. Only the sender deletes a message: anybody else is answered 403
    and nothing changes.  The sender can delete again what is already
    deleted: the second call answers 200 too and stamps the message with
    its own time, the message staying stored and flagged throughout. *)
Theorem deleteMessage_sender_only_and_again
    (now1 now2 : nat) (messageId : Id) (m : Message.t) (db : DB) :
  messages db !! messageId = Some m →
  (∀ now u, u ≠ Message.sender m →
     deleteMessage now (Some u) messageId db
     = (db, mkResponse 403 "Not authorized"))
  ∧ (let r1 := deleteMessage now1 (Some (Message.sender m)) messageId db in
     let r2 := deleteMessage now2 (Some (Message.sender m)) messageId r1.1 in
     statusCode r2.2 = 200
     ∧ messages r2.1 !! messageId
       = Some (Message.softDelete now2 (Message.sender m) m)
     ∧ Message.readBy (Message.softDelete now2 (Message.sender m) m)
       = Message.readBy m
     ∧ Message.content (Message.softDelete now2 (Message.sender m) m)
       = Message.content m).
Proof.
  intros Hm. split.
  - intros now u Hu. unfold deleteMessage. rewrite Hm.
    by rewrite bool_decide_eq_false_2 by done.
  - cbn zeta.
    set (r1 := deleteMessage now1 (Some (Message.sender m)) messageId db).
    assert (messages r1.1 !! messageId
            = Some (Message.softDelete now1 (Message.sender m) m)) as Hm1.
    { unfold r1. rewrite (deleteMessage_by_sender now1 messageId m db Hm).
      cbn zeta. cbn [fst].
      destruct (conversations db !! Message.conversation m) as [c|];
        [destruct (bool_decide _)|];
        unfold Conversation_save, with_conversations, with_messages;
        cbn [messages]; apply lookup_insert_eq. }
    pose proof (deleteMessage_by_sender now2 messageId _ r1.1 Hm1) as Hagain.
    cbn [Message.sender Message.softDelete] in Hagain. rewrite Hagain.
    cbn zeta. split; [done|]. split; [|done]. cbn [fst].
    destruct (conversations r1.1 !! _) as [c|]; [destruct (bool_decide _)|];
      unfold Conversation_save, with_conversations, with_messages;
      cbn [messages]; by rewrite lookup_insert_eq.
Qed.

Lemma deleteMessage_sender_only_and_again_witness :
  messages Fixture.busy !! "m4" = Some Fixture.m4
  ∧ deleteMessage 9 (Some "alice") "m4" Fixture.busy
    = (Fixture.busy, mkResponse 403 "Not authorized")
  ∧ (let r1 := deleteMessage 9 (Some "bob") "m4" Fixture.busy in
     let r2 := deleteMessage 12 (Some "bob") "m4" r1.1 in
     statusCode r2.2 = 200
     ∧ Message.deletedAt <$> messages r2.1 !! "m4" = Some (Some 12)).
Proof.
  assert (messages Fixture.busy !! "m4" = Some Fixture.m4) as Hm
    by reflexivity.
  split; [exact Hm|].
  destruct (deleteMessage_sender_only_and_again 9 12 "m4" Fixture.m4
              Fixture.busy Hm) as (Hother & Hs & Hstored & _).
  split; [by apply Hother|]. cbn zeta. split; [exact Hs|].
  cbn [Message.sender Fixture.m4] in Hstored. by rewrite Hstored.
Defined.

(** ** Messages: edits and reactions *)

Lemma editMessage_by_sender now (messageId : Id) content (fdb : FullDB) m :
  messages (core fdb) !! messageId = Some m →
  editMessage now (Some (Message.sender m)) messageId content fdb
  = (mkFullDB
       (with_messages (insert messageId (set_content content m)) (core fdb))
       (<[messageId :=
            mkExtra (reactions (extraOf messageId fdb))
              (editHistory (extraOf messageId fdb)
               ++ [mkEdit (Message.content m) now (Message.sender m)])
              true]> (extras fdb)),
     mkResponse 200 "").
Proof.
  intros Hm. unfold editMessage. rewrite Hm.
  by rewrite bool_decide_eq_true_2.
Qed.

Lemma editMessage_versions now (messageId : Id) content (fdb : FullDB) m :
  messages (core fdb) !! messageId = Some m →
  versions messageId
    (editMessage now (Some (Message.sender m)) messageId content fdb).1
  = versions messageId fdb ++ [content].
Proof.
  intros Hm. rewrite (editMessage_by_sender now messageId content fdb m Hm).
  unfold versions, extraOf, with_messages. cbn. rewrite Hm.
  rewrite !lookup_insert_eq. cbn. by rewrite fmap_app.
Qed.

(** X15. Only the sender edits a message: anybody else is answered 403
    and nothing changes.  An edit by the sender answers 200, replaces the
    content, flags the message edited and appends the content it
    replaces to the edit history, so that no version is ever lost: the
    versions after any run of edits are the versions before followed by
    the new contents in order.  Readers, sender and the deleted flag stay
    as they were (a deleted message can be edited). *)
Theorem edits_keep_every_version
    (messageId : Id) (m : Message.t) (fdb : FullDB) :
  messages (core fdb) !! messageId = Some m →
  (∀ now u content, u ≠ Message.sender m →
     editMessage now (Some u) messageId content fdb
     = (fdb, mkResponse 403 "Not authorized"))
  ∧ (∀ now content,
       let r := editMessage now (Some (Message.sender m)) messageId content
                  fdb in
       statusCode r.2 = 200
       ∧ messages (core r.1) !! messageId = Some (set_content content m)
       ∧ Message.readBy (set_content content m) = Message.readBy m
       ∧ Message.isDeleted (set_content content m) = Message.isDeleted m
       ∧ isEdited (extraOf messageId r.1) = true
       ∧ reactions (extraOf messageId r.1)
         = reactions (extraOf messageId fdb)
       ∧ conversations (core r.1) = conversations (core fdb))
  ∧ (∀ now contents,
       versions messageId
         (editAll now (Message.sender m) messageId contents fdb)
       = versions messageId fdb ++ contents).
Proof.
  intros Hm. split; [|split].
  - intros now u content Hu. unfold editMessage. rewrite Hm.
    by rewrite bool_decide_eq_false_2 by done.
  - intros now content. cbn zeta.
    rewrite (editMessage_by_sender now messageId content fdb m Hm).
    unfold extraOf, with_messages. cbn. by rewrite !lookup_insert_eq.
  - intros now contents. revert fdb m Hm.
    induction contents as [|content contents IH]; intros fdb m Hm.
    + by rewrite app_nil_r.
    + unfold editAll. cbn [foldl]. fold (editAll now (Message.sender m)
        messageId contents
        (editMessage now (Some (Message.sender m)) messageId content fdb).1).
      assert (messages
                (core (editMessage now (Some (Message.sender m)) messageId
                         content fdb).1) !! messageId
              = Some (set_content content m)) as Hm'.
      { rewrite (editMessage_by_sender now messageId content fdb m Hm).
        unfold with_messages. cbn. apply lookup_insert_eq. }
      pose proof (IH _ _ Hm') as Hrest. cbn [Message.sender set_content] in Hrest.
      rewrite Hrest, (editMessage_versions now messageId content fdb m Hm).
      by rewrite <- app_assoc.
Qed.

Lemma edits_keep_every_version_witness :
  let fdb := mkFullDB Fixture.db0 ∅ in
  messages (core fdb) !! "m1" = Some Fixture.m1
  ∧ editMessage 5 (Some "bob") "m1" (field "text" (JStr "hacked")) fdb
    = (fdb, mkResponse 403 "Not authorized")
  ∧ versions "m1"
      (editAll 5 "alice" "m1"
         [field "text" (JStr "hi!"); field "text" (JStr "hi there")] fdb)
    = [field "text" (JStr "hi"); field "text" (JStr "hi!");
       field "text" (JStr "hi there")].
Proof.
  cbn zeta.
  assert (messages (core (mkFullDB Fixture.db0 ∅)) !! "m1" = Some Fixture.m1)
    as Hm by reflexivity.
  split; [exact Hm|].
  destruct (edits_keep_every_version "m1" Fixture.m1 (mkFullDB Fixture.db0 ∅)
              Hm) as (Hother & _ & Hall).
  split; [by apply Hother|].
  exact (Hall 5 [field "text" (JStr "hi!"); field "text" (JStr "hi there")]).
Defined.

Section reactions.
Implicit Types (rs : list Reaction) (u v : Id).

Lemma find_reaction_None u rs :
  find (λ r, bool_decide (reactUser r = u)) rs = None
  ↔ u ∉ reactUser <$> rs.
Proof.
  split.
  - intros Hnone (r & -> & Hin)%list_elem_of_fmap.
    apply list_elem_of_In in Hin.
    pose proof (find_none _ _ Hnone r Hin) as Hfalse. cbn in Hfalse.
    by apply bool_decide_eq_false in Hfalse.
  - intros Hu. apply find_all_false. intros r Hr.
    apply bool_decide_eq_false. intros <-. apply Hu.
    apply list_elem_of_fmap. by exists r.
Qed.

Lemma react_users now u e rs :
  reactUser <$> react now u e rs
  = if decide (u ∈ reactUser <$> rs) then reactUser <$> rs
    else (reactUser <$> rs) ++ [u].
Proof.
  unfold react.
  destruct (find _ rs) as [r|] eqn:Hfind.
  - rewrite decide_True; cycle 1.
    { apply find_some in Hfind as [Hin Hr].
      apply bool_decide_eq_true in Hr. apply list_elem_of_fmap.
      exists r. split; [done|]. by apply list_elem_of_In. }
    clear Hfind. induction rs as [|a rs IH]; [done|]. cbn.
    destruct (bool_decide (reactUser a = u)); cbn; [done|]. by rewrite IH.
  - apply find_reaction_None in Hfind.
    rewrite decide_False by done. by rewrite fmap_app.
Qed.

Lemma react_find now u e rs :
  emoji <$> find (λ r, bool_decide (reactUser r = u)) (react now u e rs)
  = Some e.
Proof.
  unfold react.
  destruct (find _ rs) as [r|] eqn:Hfind.
  - rewrite updateFirst_find; [by rewrite Hfind|]. by intros [].
  - induction rs as [|a rs IH]; cbn in *.
    + by rewrite bool_decide_eq_true_2.
    + destruct (bool_decide (reactUser a = u)); [done|]. by apply IH.
Qed.

Lemma react_others now u e rs v :
  v ≠ u → reactionsOf v (react now u e rs) = reactionsOf v rs.
Proof.
  intros Hv. unfold react, reactionsOf.
  destruct (find _ rs) as [r|] eqn:Hfind.
  - clear Hfind. induction rs as [|a rs IH]; [done|]. cbn [updateFirst].
    destruct (bool_decide (reactUser a = u)) eqn:Ha.
    + apply bool_decide_eq_true in Ha.
      rewrite !filter_cons_False; [done|by rewrite Ha|cbn; by rewrite Ha].
    + rewrite !filter_cons, IH. done.
  - rewrite filter_app, (filter_none _ [_]); [by rewrite app_nil_r|].
    intros r ->%list_elem_of_singleton. cbn. done.
Qed.

End reactions.

(** X16. A reaction to a stored message always answers 200 and leaves
    the message itself alone.  Afterwards the first reaction of the
    caller carries the new emoji; the reactions of every other user are
    what they were; the number of reactions has grown by one if the
    caller had none and is unchanged otherwise; and users who each had at
    most one reaction still have at most one. *)
Theorem one_reaction_per_user
    (now : nat) (u messageId : Id) (e : string) (fdb : FullDB)
    (m : Message.t) :
  messages (core fdb) !! messageId = Some m →
  let r := addReaction now (Some u) messageId e fdb in
  let before := reactions (extraOf messageId fdb) in
  let after := reactions (extraOf messageId r.1) in
  statusCode r.2 = 200
  ∧ core r.1 = core fdb
  ∧ emoji <$> find (λ x, bool_decide (reactUser x = u)) after = Some e
  ∧ (∀ v, v ≠ u → reactionsOf v after = reactionsOf v before)
  ∧ length after
    = (if decide (u ∈ reactUser <$> before) then length before
       else S (length before))
  ∧ (NoDup (reactUser <$> before) → NoDup (reactUser <$> after)).
Proof.
  intros Hm. cbn zeta. unfold addReaction. rewrite Hm.
  cbn [fst snd statusCode core]. split; [done|]. split; [done|].
  assert (reactions
            (extraOf messageId
               (mkFullDB (core fdb)
                  (<[messageId :=
                       set_reactions (react now u e) (extraOf messageId fdb)]>
                     (extras fdb))))
          = react now u e (reactions (extraOf messageId fdb))) as ->.
  { unfold extraOf at 1. cbn. by rewrite lookup_insert_eq. }
  split; [apply react_find|]. split; [by intros; apply react_others|].
  pose proof (react_users now u e (reactions (extraOf messageId fdb)))
    as Husers.
  split.
  - apply (f_equal length) in Husers. rewrite length_fmap in Husers.
    rewrite Husers. case_decide; rewrite ?length_app, length_fmap; cbn; lia.
  - intros Hnd. rewrite Husers. case_decide as Hin; [done|].
    apply NoDup_app. split; [done|]. split; [|apply NoDup_singleton].
    by intros x Hx ->%list_elem_of_singleton.
Qed.

Lemma one_reaction_per_user_witness :
  let fdb := mkFullDB Fixture.db0 ∅ in
  messages (core fdb) !! "m1" = Some Fixture.m1
  ∧ (let r := addReaction 5 (Some "bob") "m1" "+1" fdb in
     statusCode r.2 = 200
     ∧ emoji <$> find (λ x, bool_decide (reactUser x = "bob"))
                   (reactions (extraOf "m1" r.1)) = Some "+1"
     ∧ length (reactions (extraOf "m1" r.1)) = 1).
Proof.
  cbn zeta.
  assert (messages (core (mkFullDB Fixture.db0 ∅)) !! "m1" = Some Fixture.m1)
    as Hm by reflexivity.
  split; [exact Hm|].
  destruct (one_reaction_per_user 5 "bob" "m1" "+1" (mkFullDB Fixture.db0 ∅)
              Fixture.m1 Hm) as (Hs & _ & He & _ & Hlen & _).
  split; [exact Hs|]. split; [exact He|]. exact Hlen.
Defined.

(** X17. Removing a reaction from a stored message removes every
    reaction of the caller and no reaction of anybody else, whatever
    reaction id the route names; and a reaction added by a user who had
    none, then removed, leaves the reactions of the message exactly as
    they were. *)
Theorem remove_reaction_is_the_callers
    (u messageId : Id) (fdb : FullDB) (m : Message.t) :
  messages (core fdb) !! messageId = Some m →
  let before := reactions (extraOf messageId fdb) in
  (∀ reactionId,
     let r := removeReaction (Some u) messageId reactionId fdb in
     let after := reactions (extraOf messageId r.1) in
     statusCode r.2 = 200
     ∧ core r.1 = core fdb
     ∧ reactionsOf u after = []
     ∧ (∀ v, v ≠ u → reactionsOf v after = reactionsOf v before))
  ∧ (u ∉ reactUser <$> before →
     ∀ now e reactionId,
       reactions
         (extraOf messageId
            (removeReaction (Some u) messageId reactionId
               (addReaction now (Some u) messageId e fdb).1).1)
       = before).
Proof.
  intros Hm. cbn zeta. split.
  - intros reactionId. unfold removeReaction. rewrite Hm.
    cbn [fst snd statusCode core]. split; [done|]. split; [done|].
    unfold extraOf at 1 3. cbn. rewrite !lookup_insert_eq. cbn.
    unfold reactionsOf. split.
    + apply filter_none. by intros r [? _]%list_elem_of_filter.
    + intros v Hv. rewrite list_filter_filter. apply list_filter_iff.
      intros r. split; [by intros [? _]|]. intros Hr. split; [done|].
      by rewrite Hr.
  - intros Hu now e reactionId. unfold removeReaction, addReaction.
    rewrite Hm. cbn [fst core]. rewrite Hm. cbn [fst].
    unfold extraOf at 1 2. cbn. rewrite !lookup_insert_eq. cbn.
    unfold react. rewrite (proj2 (find_reaction_None u _) Hu).
    rewrite filter_app, filter_all, (filter_none _ [_]).
    + by rewrite app_nil_r.
    + intros r ->%list_elem_of_singleton. cbn. by intros H.
    + intros r Hr <-. apply Hu. apply list_elem_of_fmap. by exists r.
Qed.

Lemma remove_reaction_is_the_callers_witness :
  let fdb := (addReaction 5 (Some "alice") "m1" "+1"
                (mkFullDB Fixture.db0 ∅)).1 in
  messages (core fdb) !! "m1" = Some Fixture.m1
  ∧ reactions (extraOf "m1"
                 (removeReaction (Some "bob") "m1" "whatever" fdb).1)
    = [mkReaction "alice" "+1" 5]
  ∧ reactions (extraOf "m1"
                 (removeReaction (Some "bob") "m1" "r1"
                    (addReaction 6 (Some "bob") "m1" "heart" fdb).1).1)
    = reactions (extraOf "m1" fdb).
Proof.
  cbn zeta.
  set (fdb := (addReaction 5 (Some "alice") "m1" "+1"
                 (mkFullDB Fixture.db0 ∅)).1).
  assert (messages (core fdb) !! "m1" = Some Fixture.m1) as Hm
    by reflexivity.
  split; [exact Hm|].
  destruct (remove_reaction_is_the_callers "bob" "m1" fdb Fixture.m1 Hm)
    as [_ Hround].
  split; [reflexivity|]. apply Hround. by_compute.
Defined.

(** ** Messages: pages *)

Section pages.
Implicit Types (db : DB) (l : list (Id * Message.t)).

#[local] Instance newerFirst_total : Total newerFirst.
Proof. intros x y. unfold newerFirst. lia. Qed.

#[local] Instance newerFirst_trans : Transitive newerFirst.
Proof. intros x y z. unfold newerFirst. lia. Qed.

Lemma StronglySorted_sublist {A} (R : relation A) (l k : list A) :
  l `sublist_of` k → StronglySorted R k → StronglySorted R l.
Proof.
  induction 1 as [|x l k Hsub IH|x l k Hsub IH]; intros Hk; [done|..].
  - apply StronglySorted_inv in Hk as [Hk Hall]. constructor; [by apply IH|].
    apply Forall_forall. intros y Hy.
    by apply (proj1 (Forall_forall _ _) Hall), (elem_of_sublist l k).
  - apply StronglySorted_inv in Hk as [Hk _]. by apply IH.
Qed.

Lemma liveMessages_sorted (conversationId : Id) db :
  StronglySorted newerFirst (liveMessages conversationId db).
Proof. apply StronglySorted_merge_sort; apply _. Qed.

Lemma elem_of_liveMessages (conversationId i : Id) m db :
  (i, m) ∈ liveMessages conversationId db
  ↔ messages db !! i = Some m
    ∧ Message.conversation m = conversationId
    ∧ Message.isDeleted m = false.
Proof.
  unfold liveMessages. rewrite merge_sort_Permutation.
  by rewrite elem_of_Message_find.
Qed.

Lemma NoDup_liveMessages (conversationId : Id) db :
  NoDup (liveMessages conversationId db).*1.
Proof.
  unfold liveMessages. rewrite merge_sort_Permutation. apply NoDup_found.
Qed.

(** A list cut into consecutive slices of [n]: the first [p] slices put
    end to end are its first [p * n] elements. *)
Lemma slices_join {A} (l : list A) (n p : nat) :
  mjoin ((λ k, take n (drop (k * n) l)) <$> seq 0 p) = take (p * n) l.
Proof.
  induction p as [|p IH]; [done|].
  rewrite seq_S, fmap_app, join_app, IH. cbn. rewrite app_nil_r.
  rewrite take_take_drop. f_equal. lia.
Qed.

Lemma pages_cover (total limit : nat) :
  0 < limit → total ≤ (total + limit - 1) / limit * limit.
Proof.
  intros Hl.
  pose proof (Nat.div_mod_eq (total + limit - 1) limit) as Hdiv.
  pose proof (Nat.mod_upper_bound (total + limit - 1) limit) as Hmod.
  nia.
Qed.

(** [getMessages] for a page counted from 1 and a positive limit. *)
Lemma getMessages_page (conversationId : Id) (k limit : nat) db :
  0 < limit →
  getMessages conversationId (Some (S k)) (Some limit) db
  = Some (mkMessagePage
            (take limit (drop (k * limit) (liveMessages conversationId db)))
            (length (liveMessages conversationId db)) (S k)
            (Some ((length (liveMessages conversationId db) + limit - 1)
                   / limit))).
Proof.
  intros Hl. unfold getMessages. cbn [default from_option id].
  rewrite bool_decide_eq_false_2 by (intros [? _]; lia).
  rewrite (bool_decide_eq_false_2 (limit = 0)) by lia.
  by rewrite Nat.sub_succ, Nat.sub_0_r.
Qed.

End pages.

(** X18. With a positive limit, the pages of [getMessages] tile the
    conversation: pages 1 to [totalPages] put end to end are the stored
    messages of the conversation that are not deleted, each exactly once
    and newest first; [total] is their number, the same on every page;
    and every page after [totalPages] is empty. *)
Theorem pages_tile_the_conversation
    (conversationId : Id) (limit : nat) (db : DB) :
  0 < limit →
  let total := length (liveMessages conversationId db) in
  let totalPages := (total + limit - 1) / limit in
  let page k :=
    from_option pageMessages []
      (getMessages conversationId (Some (S k)) (Some limit) db) in
  mjoin (page <$> seq 0 totalPages) = liveMessages conversationId db
  ∧ NoDup (liveMessages conversationId db).*1
  ∧ StronglySorted newerFirst (liveMessages conversationId db)
  ∧ (∀ i m, (i, m) ∈ liveMessages conversationId db
            ↔ messages db !! i = Some m
              ∧ Message.conversation m = conversationId
              ∧ Message.isDeleted m = false)
  ∧ (∀ k, ∃ p, getMessages conversationId (Some (S k)) (Some limit) db
               = Some p
               ∧ pageTotal p = total
               ∧ pageTotalPages p = Some totalPages
               ∧ length (pageMessages p) ≤ limit)
  ∧ (∀ k, totalPages ≤ k → page k = []).
Proof.
  intros Hl. cbn zeta.
  set (all := liveMessages conversationId db).
  pose proof (pages_cover (length all) limit Hl) as Hcover.
  split; [|split; [|split; [|split; [|split]]]].
  - rewrite (list_fmap_ext _ (λ k, take limit (drop (k * limit) all)));
      [|intros j k _; by rewrite getMessages_page].
    rewrite slices_join. by apply take_ge.
  - apply NoDup_liveMessages.
  - apply liveMessages_sorted.
  - intros i m. apply elem_of_liveMessages.
  - intros k. eexists. rewrite getMessages_page by done.
    split; [reflexivity|]. split; [reflexivity|]. split; [reflexivity|].
    cbn. rewrite length_take. lia.
  - intros k Hk. rewrite getMessages_page by done. cbn.
    rewrite drop_ge; [apply take_nil|]. fold all. nia.
Qed.

Lemma pages_tile_the_conversation_witness :
  0 < 2
  ∧ mjoin ((λ k, from_option pageMessages []
                   (getMessages "c1" (Some (S k)) (Some 2) Fixture.busy))
             <$> seq 0 ((length (liveMessages "c1" Fixture.busy) + 2 - 1) / 2))
    = liveMessages "c1" Fixture.busy
  ∧ (liveMessages "c1" Fixture.busy).*1 = ["m4"; "m3"; "m1"].
Proof.
  split; [lia|].
  destruct (pages_tile_the_conversation "c1" 2 Fixture.busy ltac:(lia))
    as (Htile & _).
  split; [exact Htile|by vm_compute].
Defined.

(** X19. A page of [getMessages] holds stored messages of the
    conversation that are not deleted, newest first and no more than the
    limit.  At the edges: page 0 with a positive limit asks the store to
    skip a negative number of documents and the call fails; limit 0 is
    no limit, so every page number returns all the messages and the
    number of pages is not a number. *)
Theorem page_contents_and_edges
    (conversationId : Id) (db : DB) :
  (∀ k limit p,
     0 < limit →
     getMessages conversationId (Some (S k)) (Some limit) db = Some p →
     StronglySorted newerFirst (pageMessages p)
     ∧ length (pageMessages p) ≤ limit
     ∧ ∀ i m, (i, m) ∈ pageMessages p →
              messages db !! i = Some m
              ∧ Message.conversation m = conversationId
              ∧ Message.isDeleted m = false)
  ∧ (∀ limit, 0 < limit →
       getMessages conversationId (Some 0) (Some limit) db = None)
  ∧ (∀ page,
       getMessages conversationId page (Some 0) db
       = Some (mkMessagePage (liveMessages conversationId db)
                 (length (liveMessages conversationId db))
                 (default 1 page) None)).
Proof.
  split; [|split].
  - intros k limit p Hl. rewrite getMessages_page by done.
    intros [= <-]. cbn [pageMessages].
    assert (take limit (drop (k * limit) (liveMessages conversationId db))
            `sublist_of` liveMessages conversationId db) as Hsub
      by (etrans; [apply sublist_take|apply sublist_drop]).
    split; [|split].
    + eapply StronglySorted_sublist; [done|apply liveMessages_sorted].
    + rewrite length_take. lia.
    + intros i m Hin. apply elem_of_liveMessages.
      by apply (elem_of_sublist _ _ _ Hin).
  - intros limit Hl. unfold getMessages. cbn [default from_option id].
    rewrite bool_decide_eq_true_2; [done|]. split; [done|lia].
  - intros page. unfold getMessages. cbn [default from_option id].
    rewrite bool_decide_eq_false_2 by (intros [_ ?]; done).
    rewrite (bool_decide_eq_true_2 (0 = 0)) by done.
    by rewrite Nat.mul_0_r.
Qed.

Lemma page_contents_and_edges_witness :
  (∃ p, getMessages "c1" (Some 2) (Some 2) Fixture.busy = Some p
        ∧ (pageMessages p).*1 = ["m1"]
        ∧ length (pageMessages p) ≤ 2)
  ∧ getMessages "c1" (Some 0) (Some 2) Fixture.busy = None.
Proof.
  destruct (page_contents_and_edges "c1" Fixture.busy) as (Hpage & Hzero & _).
  split; [|apply Hzero; lia].
  destruct (getMessages "c1" (Some 2) (Some 2) Fixture.busy) as [p|] eqn:Hp;
    [|by vm_compute in Hp].
  exists p. split; [done|].
  destruct (Hpage 1 2 p ltac:(lia) Hp) as (_ & Hlen & _).
  split; [|exact Hlen].
  vm_compute in Hp. injection Hp as <-. reflexivity.
Defined.

(** ** The handshake *)

Section handshake.
Implicit Types (sep ch : ascii) (s a x piece : string).

Lemma splitOn_nonempty sep s : splitOn sep s ≠ [].
Proof.
  destruct s as [|c s]; cbn; [done|].
  case_decide; [done|]. by destruct (splitOn sep s).
Qed.

Lemma splitOn_no_sep sep s piece :
  piece ∈ splitOn sep s → ¬ hasChar sep piece.
Proof.
  revert piece. induction s as [|c s IH]; intros piece; cbn.
  - intros ->%list_elem_of_singleton. cbn. tauto.
  - case_decide as Hc.
    + intros [->|Hin]%elem_of_cons; [cbn; tauto|by apply IH].
    + destruct (splitOn sep s) as [|h tl] eqn:Hs.
      * intros ->%list_elem_of_singleton. cbn. intros [->|[]]. done.
      * intros [->|Hin]%elem_of_cons.
        -- cbn. intros [->|Hh]; [done|]. apply (IH h); [left|done].
        -- apply IH. by right.
Qed.

Lemma splitOn_chars sep s piece ch :
  piece ∈ splitOn sep s → hasChar ch piece → hasChar ch s.
Proof.
  revert piece. induction s as [|c s IH]; intros piece; cbn.
  - by intros ->%list_elem_of_singleton.
  - case_decide as Hc.
    + intros [->|Hin]%elem_of_cons; [done|]. right. by apply (IH piece).
    + destruct (splitOn sep s) as [|h tl] eqn:Hs.
      * intros ->%list_elem_of_singleton. cbn. intros [->|[]]. by left.
      * intros [->|Hin]%elem_of_cons.
        -- cbn. intros [->|Hh]; [by left|]. right. apply (IH h); [left|done].
        -- intros Hp. right. apply (IH piece); [by right|done].
Qed.

Lemma splitOn_app_l sep a x :
  ¬ hasChar sep a →
  splitOn sep (a +:+ x)
  = match splitOn sep x with
    | h :: tl => (a +:+ h) :: tl
    | [] => [a]
    end.
Proof.
  induction a as [|c a IH]; intros Ha.
  - change ("" +:+ x) with x.
    destruct (splitOn sep x) eqn:Hx; [by destruct (splitOn_nonempty sep x)|done].
  - change (String c a +:+ x) with (String c (a +:+ x)). cbn [splitOn].
    destruct (decide (c = sep)) as [Hc|Hc]; [destruct Ha; by left|].
    rewrite IH; [|cbn in Ha; tauto]. by destruct (splitOn sep x).
Qed.

Lemma splitOn_sep sep x :
  splitOn sep (String sep x) = "" :: splitOn sep x.
Proof. cbn. by case_decide. Qed.

Lemma prefix_refl_cons c p t :
  String.prefix (String c p) (String c t) = String.prefix p t.
Proof. cbn. by destruct (ascii_dec c c). Qed.

Lemma prefix_trimEnd p x :
  (∀ c, hasChar c p → isSpace c = false) →
  String.prefix p (trimEnd (p +:+ x)) = true.
Proof.
  induction p as [|c p IH]; intros Hp; [by destruct (trimEnd _)|].
  assert (isSpace c = false) as Hc by (apply Hp; by left).
  specialize (IH (λ c' H, Hp c' (or_intror H))).
  change (String c p +:+ x) with (String c (p +:+ x)). cbn [trimEnd].
  destruct (trimEnd (p +:+ x)) as [|c' t] eqn:Ht.
  - rewrite Hc, prefix_refl_cons. exact IH.
  - rewrite prefix_refl_cons. exact IH.
Qed.

Lemma app_empty_r s : s +:+ "" = s.
Proof.
  induction s as [|c s IH]; [done|].
  change (String c s +:+ "") with (String c (s +:+ "")). by rewrite IH.
Qed.

(** The first piece of what follows the token, cut again at "=", starts
    with the empty piece when what follows is empty or starts with one of
    the two separators. *)
Lemma rest_first_piece rest h tl :
  rest = "" ∨ (∃ r, rest = String ";" r ∨ rest = String "=" r) →
  splitOn ";" rest = h :: tl →
  ∃ tl', splitOn "=" h = "" :: tl'.
Proof.
  intros [->|[r [->| ->]]].
  - intros [= <- <-]. by exists [].
  - rewrite splitOn_sep. intros [= <- <-]. by exists [].
  - cbn [splitOn]. destruct (decide _) as [|_]; [done|].
    destruct (splitOn ";" r) as [|p ps]; intros [= <- <-];
      rewrite splitOn_sep; eauto.
Qed.

End handshake.

(** X20. A token the handshake takes from the cookie header is not empty,
    holds neither ";" nor "=", and is made of characters of the header. *)
Theorem token_has_no_separator (cookies : option string) (token : string) :
  extractToken cookies = Some token →
  token ≠ "" ∧ ¬ hasChar ";" token ∧ ¬ hasChar "=" token
  ∧ ∃ header, cookies = Some header
              ∧ ∀ ch, hasChar ch token → hasChar ch header.
Proof.
  unfold extractToken. destruct cookies as [header|]; [|done].
  destruct (find _ _) as [c|] eqn:Hfind; [|done].
  apply find_some in Hfind as [Hc%list_elem_of_In _].
  destruct (splitOn "=" c) as [|h [|t tl]] eqn:Hsplit; try done.
  case_bool_decide as Ht; [done|]. intros [= <-].
  assert (t ∈ splitOn "=" c) as Hin by (rewrite Hsplit; set_solver).
  split; [done|]. split; [|split].
  - intros Hs. apply (splitOn_no_sep _ _ _ Hc). by apply (splitOn_chars _ _ _ _ Hin).
  - by apply (splitOn_no_sep _ _ _ Hin).
  - exists header. split; [done|]. intros ch Hch.
    apply (splitOn_chars _ _ _ _ Hc). by apply (splitOn_chars _ _ _ _ Hin).
Qed.

Lemma token_has_no_separator_witness :
  extractToken (Some "lang=en; token=ab=cd; theme=dark") = Some "ab"
  ∧ "ab" ≠ "" ∧ ¬ hasChar ";" "ab" ∧ ¬ hasChar "=" "ab".
Proof.
  assert (extractToken (Some "lang=en; token=ab=cd; theme=dark") = Some "ab")
    as H by reflexivity.
  split; [exact H|].
  destruct (token_has_no_separator _ _ H) as (H1 & H2 & H3 & _).
  exact (conj H1 (conj H2 H3)).
Defined.

(** X21. A header that starts with "token=" gives the value up to the end
    of the header or to the first ";" or "=", whichever comes first: a
    value that holds "=" is cut there. *)
Theorem token_is_cut_at_the_first_separator (token rest : string) :
  token ≠ "" → ¬ hasChar ";" token → ¬ hasChar "=" token →
  rest = "" ∨ (∃ r, rest = String ";" r ∨ rest = String "=" r) →
  extractToken (Some ("token=" +:+ token +:+ rest)) = Some token.
Proof.
  intros Hne Hsemi Heq Hrest. unfold extractToken.
  change ("token=" +:+ token +:+ rest) with (("token=" +:+ token) +:+ rest).
  rewrite splitOn_app_l by (cbn; intros [?|[?|[?|[?|[?|[?|?]]]]]]; done).
  destruct (splitOn ";" rest) as [|h tl] eqn:Hr;
    [by destruct (splitOn_nonempty ";" rest)|].
  destruct (rest_first_piece _ _ _ Hrest Hr) as [tl' Hh].
  cbn [find].
  assert (String.prefix "token=" (trim (("token=" +:+ token) +:+ h)) = true)
    as ->.
  { change (("token=" +:+ token) +:+ h) with ("token=" +:+ (token +:+ h)).
    change (trim ("token=" +:+ (token +:+ h)))
      with (trimEnd ("token=" +:+ (token +:+ h))).
    apply prefix_trimEnd.
    cbn. intros c [->|[->|[->|[->|[->|[->|[]]]]]]]; reflexivity. }
  change (("token=" +:+ token) +:+ h)
    with ("token" +:+ String "=" (token +:+ h)).
  rewrite splitOn_app_l by (cbn; intros [?|[?|[?|[?|[?|?]]]]]; done).
  rewrite splitOn_sep, (splitOn_app_l "=" token h Heq), Hh, app_empty_r.
  by rewrite bool_decide_eq_false_2.
Qed.

Lemma token_is_cut_at_the_first_separator_witness :
  extractToken (Some "token=ab=cd; theme=dark") = Some "ab".
Proof.
  apply (token_is_cut_at_the_first_separator "ab" "=cd; theme=dark").
  - done.
  - cbn. intros [?|[?|[]]]; done.
  - cbn. intros [?|[?|[]]]; done.
  - right. exists "cd; theme=dark". by right.
Defined.

(** ** Delivery and presence *)

Section delivery.
Implicit Types (w : World) (u v messageId conversationId : Id)
  (c : Conversation.t) (e : Emit).

Implicit Types (ps before after : list Participant).

(** What the loop emits for the participants it gets through. *)
Lemma elem_of_deliveries w u messageId conversationId ps e :
  e ∈ mjoin (deliverTo w u messageId conversationId <$> ps)
  ↔ ∃ p cu, p ∈ ps ∧ partUser p ≠ u
            ∧ connectedUsers w !! partUser p = Some cu
            ∧ (e = mkEmit (ToSocket (socketId cu)) "message:new"
                     [messageId; conversationId]
               ∨ e = mkEmit (ToSocket (socketId cu)) "conversation:updated"
                       [conversationId]).
Proof.
  rewrite list_elem_of_join. unfold deliverTo. split.
  - intros (l & He & (p & -> & Hp)%list_elem_of_fmap).
    case_bool_decide as Hu; [|by apply elem_of_nil in He].
    destruct (connectedUsers w !! partUser p) as [cu|] eqn:Hcu;
      [|by apply elem_of_nil in He].
    exists p, cu. repeat split; try done.
    apply elem_of_cons in He as [->|He]; [by left|].
    apply list_elem_of_singleton in He as ->. by right.
  - intros (p & cu & Hp & Hu & Hcu & He).
    eexists. split; [|apply list_elem_of_fmap; by exists p].
    cbn beta. rewrite bool_decide_eq_true_2, Hcu by done.
    destruct He as [-> | ->]; set_solver.
Qed.

Lemma length_deliveries w u messageId conversationId ps :
  length (mjoin (deliverTo w u messageId conversationId <$> ps))
  = 2 * length (filter (λ p, partUser p ≠ u
                             ∧ is_Some (connectedUsers w !! partUser p))
                  ps).
Proof.
  rewrite length_join. unfold deliverTo.
  induction ps as [|p ps IH]; [done|].
  rewrite !fmap_cons. cbn [sum_list sum_list_with]. rewrite IH.
  case_bool_decide as Hu.
  - destruct (connectedUsers w !! partUser p) as [cu|] eqn:Hcu.
    + rewrite filter_cons_True by (split; [done|by rewrite Hcu]). cbn. lia.
    + rewrite filter_cons_False; [done|]. rewrite Hcu. by intros [_ [? ?]].
  - rewrite filter_cons_False; [done|]. by intros [? _].
Qed.

(** The loop gets through the participants that have a user document
    and stops at the first one that has none. *)
Lemma fanOut_through w u messageId conversationId before after :
  (∀ q, q ∈ before → is_Some (users (store w) !! partUser q)) →
  fanOut w u messageId conversationId (before ++ after)
  = let r := fanOut w u messageId conversationId after in
    (mjoin (deliverTo w u messageId conversationId <$> before) ++ r.1, r.2).
Proof.
  induction before as [|q before IH]; intros Hall.
  - cbn. by destruct (fanOut _ _ _ _ after).
  - destruct (Hall q) as [usr Hq]; [apply elem_of_cons; by left|].
    cbn [app fanOut]. rewrite Hq, IH
      by (intros q' Hq'; apply Hall, elem_of_cons; by right).
    cbn zeta. cbn [fst snd]. rewrite fmap_cons.
    change (mjoin (?x :: ?l)) with (x ++ mjoin l). by rewrite app_assoc.
Qed.

Lemma elem_of_getOnlineUsersFromDB (db : DB) v :
  v ∈ getOnlineUsersFromDB db
  ↔ ∃ usr, users db !! v = Some usr ∧ userStatus usr = "online".
Proof.
  unfold getOnlineUsersFromDB. rewrite list_elem_of_fmap. split.
  - intros ([i usr] & -> & [Hs Hin%elem_of_map_to_list]%list_elem_of_filter).
    by exists usr.
  - intros (usr & Hv & Hs). exists (v, usr). split; [done|].
    apply list_elem_of_filter. split; [done|]. by apply elem_of_map_to_list.
Qed.

Lemma NoDup_getOnlineUsersFromDB (db : DB) : NoDup (getOnlineUsersFromDB db).
Proof.
  unfold getOnlineUsersFromDB.
  eapply sublist_NoDup; [apply (NoDup_fst_map_to_list (users db))|].
  apply fmap_sublist, sublist_filter.
Qed.

End delivery.

(** X22. A message sent over the socket into a stored conversation
    whose participants all have a user document is delivered to the
    participants other than the sender that the registry holds, two
    events each to the socket recorded for them, and to nobody else; then
    the same two events go to the sending socket.  When a participant has
    no user document, delivery stops at the first such participant:
    those listed before it have been served as above, nobody after it
    is, and the sending socket gets [error] in place of its two events,
    although the message is stored. *)
Theorem send_reaches_the_connected_participants
    (now : nat) (newId : Id) (socket : Socket) (data : SendData) (w : World)
    (payload : Payload) (c : Conversation.t) :
  formatContentSocket (sendType data) (sendContent data) = Some payload →
  conversations (store w) !! sendConversationId data = Some c →
  let r := handleSendMessage now newId socket data w in
  let served ps e :=
    ∃ p cu, p ∈ ps
            ∧ partUser p ≠ sockUser socket
            ∧ connectedUsers w !! partUser p = Some cu
            ∧ (e = mkEmit (ToSocket (socketId cu)) "message:new"
                     [newId; sendConversationId data]
               ∨ e = mkEmit (ToSocket (socketId cu)) "conversation:updated"
                       [sendConversationId data]) in
  ((∀ p, p ∈ Conversation.participants c →
         is_Some (users (store w) !! partUser p)) →
   ∃ toOthers,
     r.2 = (toOthers
            ++ [mkEmit (ToSocket (sockId socket)) "message:new"
                  [newId; sendConversationId data];
                mkEmit (ToSocket (sockId socket)) "conversation:updated"
                  [sendConversationId data]])%list
     ∧ (∀ e, e ∈ toOthers ↔ served (Conversation.participants c) e)
     ∧ length toOthers
       = 2 * length (filter (λ p, partUser p ≠ sockUser socket
                                  ∧ is_Some (connectedUsers w !! partUser p))
                       (Conversation.participants c)))
  ∧ (∀ before p after,
       Conversation.participants c = (before ++ p :: after)%list →
       (∀ q, q ∈ before → is_Some (users (store w) !! partUser q)) →
       users (store w) !! partUser p = None →
       ∃ toEarlier,
         r.2 = (toEarlier
                ++ [mkEmit (ToSocket (sockId socket)) "error" []])%list
         ∧ (∀ e, e ∈ toEarlier ↔ served before e)
         ∧ is_Some (messages (store r.1) !! newId)).
Proof.
  intros Hpayload Hc r served. subst r. unfold handleSendMessage.
  rewrite Hpayload. cbn [fst snd store messages].
  unfold Conversation_updateOne, Message_updateOne,
    with_conversations, with_messages. cbn [conversations messages].
  rewrite lookup_alter_eq, Hc. cbn [fmap option_fmap option_map].
  cbn [bumpConversation Conversation.participants
       Conversation.set_unreadCount Conversation.set_lastMessage].
  split.
  - intros Hall.
    pose proof (fanOut_through w (sockUser socket) newId
                  (sendConversationId data) _ [] Hall) as Hthrough.
    rewrite app_nil_r in Hthrough. cbn [fanOut fst snd] in Hthrough.
    rewrite app_nil_r in Hthrough. rewrite Hthrough. cbn [fst snd].
    eexists. split; [reflexivity|]. split.
    + intros e. apply elem_of_deliveries.
    + apply length_deliveries.
  - intros before p after Hps Hall Hp. rewrite Hps.
    rewrite fanOut_through by done. cbn [fanOut]. rewrite Hp.
    cbn [fst snd]. rewrite app_nil_r.
    eexists. split; [reflexivity|]. split.
    + intros e. apply elem_of_deliveries.
    + rewrite lookup_alter_eq, lookup_insert_eq. by eexists.
Qed.

Lemma send_reaches_the_connected_participants_witness :
  let w := (handleConnection 8 (mkSocket "s2" "bob") Fixture.w0).1 in
  let ghosted :=
    mkWorld (connectedUsers w) (with_users (delete "bob") (store w)) in
  (∃ toOthers,
     (handleSendMessage 9 "m9" (mkSocket "s1" "alice")
        (mkSendData "c1" (JStr "hi") "text") w).2
     = (toOthers
        ++ [mkEmit (ToSocket "s1") "message:new" ["m9"; "c1"];
            mkEmit (ToSocket "s1") "conversation:updated" ["c1"]])%list
     ∧ mkEmit (ToSocket "s2") "message:new" ["m9"; "c1"] ∈ toOthers
     ∧ length toOthers = 2)
  ∧ (handleSendMessage 9 "m9" (mkSocket "s1" "alice")
       (mkSendData "c1" (JStr "hi") "text") ghosted).2
    = [mkEmit (ToSocket "s1") "error" []].
Proof.
  intros w ghosted. split.
  - destruct (send_reaches_the_connected_participants 9 "m9"
                (mkSocket "s1" "alice") (mkSendData "c1" (JStr "hi") "text")
                w (field "text" (JStr "hi")) Fixture.c1)
      as [Hall _]; [reflexivity|reflexivity|].
    destruct Hall as (toOthers & Hout & Hin & Hlen).
    { intros p [->|[->|[]%elem_of_nil]%elem_of_cons]%elem_of_cons;
        vm_compute; by eexists. }
    exists toOthers. split; [exact Hout|]. split.
    + apply Hin. exists (mkParticipant "bob" "member" 0 None),
        (mkConnected "bob" "s2").
      split; [by apply list_elem_of_further, list_elem_of_here|].
      split; [done|]. split; [reflexivity|by left].
    + rewrite Hlen. reflexivity.
  - destruct (send_reaches_the_connected_participants 9 "m9"
                (mkSocket "s1" "alice") (mkSendData "c1" (JStr "hi") "text")
                ghosted (field "text" (JStr "hi")) Fixture.c1)
      as [_ Hstop]; [reflexivity|reflexivity|].
    destruct (Hstop [mkParticipant "alice" "owner" 0 None]
                (mkParticipant "bob" "member" 0 None) [])
      as (toEarlier & Hout & Hin & _); [reflexivity| |reflexivity|].
    { intros q ->%list_elem_of_singleton. vm_compute. by eexists. }
    rewrite Hout. destruct toEarlier as [|e rest]; [reflexivity|].
    exfalso.
    destruct (proj1 (Hin e) ltac:(apply elem_of_cons; by left))
      as (q & cu & ->%list_elem_of_singleton & Hne & _).
    by apply Hne.
Defined.

(** X23. Presence in the user collection follows the connection: a
    connection sets the stored user online and a disconnection sets it
    offline, each with the time of the event; no user document is made for
    an identity that has none; the documents of all other users, the
    messages and the conversations stay as they were.  The list sent to
    the connecting socket names each stored user once: the connecting
    user, and those whose stored status was already online. *)
Theorem presence_follows_the_connection
    (now : nat) (socket : Socket) (w : World) :
  let u := sockUser socket in
  let up := handleConnection now socket w in
  let down := handleDisconnect now socket w in
  users (store up.1) !! u
    = (λ _, mkUser "online" now) <$> users (store w) !! u
  ∧ users (store down.1) !! u
    = (λ _, mkUser "offline" now) <$> users (store w) !! u
  ∧ (∀ v, v ≠ u →
       users (store up.1) !! v = users (store w) !! v
       ∧ users (store down.1) !! v = users (store w) !! v)
  ∧ messages (store up.1) = messages (store w)
  ∧ conversations (store up.1) = conversations (store w)
  ∧ messages (store down.1) = messages (store w)
  ∧ conversations (store down.1) = conversations (store w)
  ∧ down.2 = [mkEmit ToAll "user:status" [u]]
  ∧ ∃ online,
      up.2 = [mkEmit (ToSocket (sockId socket)) "users:online" online;
              mkEmit (ToOthers (sockId socket)) "user:status" [u]]
      ∧ NoDup online
      ∧ ∀ v, v ∈ online
             ↔ (v = u ∧ is_Some (users (store w) !! u))
               ∨ (v ≠ u ∧ ∃ usr, users (store w) !! v = Some usr
                                 ∧ userStatus usr = "online").
Proof.
  intros u up down. subst up down.
  unfold handleConnection, handleDisconnect, setUserStatus, with_users.
  cbn [fst snd store users messages conversations]. fold u.
  split; [apply lookup_alter_eq|]. split; [apply lookup_alter_eq|].
  split; [intros v Hv; by rewrite !lookup_alter_ne|].
  do 5 (split; [reflexivity|]).
  eexists. split; [reflexivity|].
  split; [apply NoDup_getOnlineUsersFromDB|].
  intros v. rewrite elem_of_getOnlineUsersFromDB. cbn [users].
  destruct (decide (v = u)) as [->|Hv].
  - rewrite lookup_alter_eq. split.
    + intros (usr & Hu & _). left. split; [done|].
      destruct (users (store w) !! u); [by eexists|done].
    + intros [[_ [usr Hu]]|[? _]]; [|done].
      rewrite Hu. by eexists.
  - rewrite lookup_alter_ne by done. split.
    + intros Hon. by right.
    + by intros [[? _]|[_ Hon]].
Qed.

(** ** The list of a user's conversations *)

Section listing.
Implicit Types (u v i j : Id) (c : Conversation.t) (db : DB)
  (ty : option string).

(** Saving a document over a stored one moves the total by what the two
    documents weigh in the query. *)
Lemma count_save v ty i c c' db :
  conversations db !! i = Some c →
  Conversation_countDocuments v ty (Conversation_save i c' db)
  + (if listQuery v ty c then 1 else 0)
  = Conversation_countDocuments v ty db
    + (if listQuery v ty c' then 1 else 0).
Proof.
  intros Hc. unfold Conversation_countDocuments, Conversation_find,
    Conversation_save, with_conversations. cbn [conversations].
  set (P := λ ic : Id * Conversation.t, listQuery v ty ic.2 = true).
  set (m0 := delete i (conversations db)).
  assert (filter P m0 !! i = None) as Hnone.
  { apply map_lookup_filter_None_2. left. apply lookup_delete_eq. }
  assert (∀ x, size (filter P (<[i:=x]> m0))
               = size (filter P m0) + (if listQuery v ty x then 1 else 0))
    as Hsize.
  { intros x. destruct (listQuery v ty x) eqn:Hx.
    - rewrite map_filter_insert_True by done.
      rewrite map_size_insert_None by done. lia.
    - rewrite map_filter_insert_False by (unfold P; cbn; congruence).
      rewrite delete_id by apply lookup_delete_eq. lia. }
  rewrite <- (insert_delete_id (conversations db) i c Hc) at 2.
  rewrite <- (insert_delete_eq (conversations db)). fold m0.
  rewrite !Hsize. lia.
Qed.

Lemma find_save_ne v ty i j c' db :
  j ≠ i →
  Conversation_find v ty (Conversation_save i c' db) !! j
  = Conversation_find v ty db !! j.
Proof.
  intros Hj. unfold Conversation_find, Conversation_save, with_conversations.
  cbn [conversations]. by rewrite !map_lookup_filter, lookup_insert_ne.
Qed.

Lemma find_save_out v ty i c' db :
  listQuery v ty c' = false →
  Conversation_find v ty (Conversation_save i c' db) !! i = None.
Proof.
  intros Hq. unfold Conversation_find, Conversation_save, with_conversations.
  cbn [conversations]. apply map_lookup_filter_None_2. right.
  intros x. rewrite lookup_insert_eq. intros [= <-]. cbn. congruence.
Qed.

Lemma findOne_live_inv i u db c :
  Conversation_findOne_live i u db = Some c →
  conversations db !! i = Some c
  ∧ isParticipant u c = true ∧ Conversation.isDeleted c = false.
Proof.
  unfold Conversation_findOne_live, Conversation_findOne_participant.
  destruct (conversations db !! i) as [c'|]; [|done].
  destruct (isParticipant u c') eqn:Hp; [|done].
  destruct (Conversation.isDeleted c') eqn:Hd; [done|]. by intros [= <-].
Qed.

Lemma listQuery_participant v ty c :
  listQuery v ty c = true → isParticipant v c = true.
Proof. unfold listQuery. by intros [[? _]%andb_prop _]%andb_prop. Qed.

Lemma listQuery_live v ty c :
  listQuery v ty c = true → Conversation.isDeleted c = false.
Proof.
  unfold listQuery. intros [[_ ?%negb_true_iff]%andb_prop _]%andb_prop. done.
Qed.

End listing.

(** X24. After a participant has left a conversation (answer 200) it is
    in no list of theirs, whatever the type asked for, and their total
    without a type is one less; the totals of everybody else and the
    listing of every other conversation are as before. *)
Theorem leaving_shortens_the_callers_list
    (u i : Id) (db db' : DB) (r : Response) :
  leaveConversation (Some u) i db = (db', r) →
  statusCode r = 200 →
  (∀ ty, Conversation_find u ty db' !! i = None)
  ∧ Conversation_countDocuments u None db' + 1
    = Conversation_countDocuments u None db
  ∧ (∀ v ty, v ≠ u →
       Conversation_countDocuments v ty db'
       = Conversation_countDocuments v ty db)
  ∧ (∀ v ty j, j ≠ i →
       Conversation_find v ty db' !! j = Conversation_find v ty db !! j).
Proof.
  unfold leaveConversation.
  destruct (Conversation_findOne_live i u db) as [c|] eqn:Hlive;
    [|by intros [= <- <-]].
  apply findOne_live_inv in Hlive as (Hc & Hpart & Hdel).
  destruct (bool_decide (Conversation.type c = "direct"));
    [by intros [= <- <-]|].
  destruct (bool_decide (_ = Some "owner")); [by intros [= <- <-]|].
  set (c' := Conversation.set_admins _ _). intros [= <- <-] _.
  assert (isParticipant u c' = false) as Hout.
  { apply bool_decide_eq_false. unfold c'. cbn.
    intros (q & Hq & [Hne _]%list_elem_of_filter)%list_elem_of_fmap. done. }
  assert (∀ v, v ≠ u → isParticipant v c' = isParticipant v c) as Hothers.
  { intros v Hv. unfold isParticipant, c'. cbn. apply bool_decide_ext.
    rewrite !list_elem_of_fmap. split.
    - intros (q & -> & [_ Hq]%list_elem_of_filter). eauto.
    - intros (q & -> & Hq). exists q. split; [done|].
      by apply list_elem_of_filter. }
  assert (∀ ty, listQuery u ty c' = false) as Hq
    by (intros ty; unfold listQuery; by rewrite Hout).
  split; [intros ty; by apply find_save_out|]. split; [|split].
  - pose proof (count_save u None i c c' db Hc) as Hcount.
    rewrite Hq in Hcount. unfold listQuery in Hcount.
    rewrite Hpart, Hdel in Hcount. cbn in Hcount. lia.
  - intros v ty Hv. pose proof (count_save v ty i c c' db Hc) as Hcount.
    assert (listQuery v ty c' = listQuery v ty c) as Heq
      by (unfold listQuery; by rewrite (Hothers v Hv)).
    rewrite Heq in Hcount. lia.
  - intros v ty j Hj. by apply find_save_ne.
Qed.

Lemma leaving_shortens_the_callers_list_witness :
  let r := leaveConversation (Some "bob") "c1" Sample.db in
  statusCode r.2 = 200
  ∧ Conversation_countDocuments "bob" None r.1 + 1
    = Conversation_countDocuments "bob" None Sample.db
  ∧ Conversation_countDocuments "alice" None r.1
    = Conversation_countDocuments "alice" None Sample.db.
Proof.
  intros r.
  assert (statusCode r.2 = 200) as H200 by reflexivity.
  destruct (leaving_shortens_the_callers_list "bob" "c1" Sample.db r.1 r.2)
    as (_ & Hown & Hothers & _); [apply surjective_pairing|exact H200|].
  exact (conj H200 (conj Hown (Hothers "alice" None ltac:(done)))).
Defined.

(** X25. After a conversation has been deleted (answer 200) it is in
    nobody's list, whatever the type asked for; the total of each list
    it was in is one less, every other total and the listing of every
    other conversation are as before. *)
Theorem deleting_shortens_every_list
    (now : nat) (u i : Id) (db db' : DB) (r : Response) :
  deleteConversation now (Some u) i db = (db', r) →
  statusCode r = 200 →
  (∀ v ty, Conversation_find v ty db' !! i = None)
  ∧ is_Some (Conversation_find u None db !! i)
  ∧ (∀ v ty, is_Some (Conversation_find v ty db !! i) →
       Conversation_countDocuments v ty db' + 1
       = Conversation_countDocuments v ty db)
  ∧ (∀ v ty, Conversation_find v ty db !! i = None →
       Conversation_countDocuments v ty db'
       = Conversation_countDocuments v ty db)
  ∧ (∀ v ty j, j ≠ i →
       Conversation_find v ty db' !! j = Conversation_find v ty db !! j).
Proof.
  unfold deleteConversation.
  destruct (Conversation_findOne_live i u db) as [c|] eqn:Hlive;
    [|by intros [= <- <-]].
  apply findOne_live_inv in Hlive as (Hc & Hpart & Hdel).
  destruct (notAdminOrOwner _); [by intros [= <- <-]|].
  intros [= <- <-] _.
  assert (∀ v ty, listQuery v ty (markDeleted now c) = false) as Hq.
  { intros v ty. unfold listQuery. cbn. by rewrite andb_false_r. }
  assert (∀ v ty, Conversation_find v ty db !! i
                  = if listQuery v ty c then Some c else None) as Hfind.
  { intros v ty. unfold Conversation_find. rewrite map_lookup_filter, Hc.
    cbn. destruct (listQuery v ty c); [by rewrite option_guard_True|].
    by rewrite option_guard_False. }
  split; [intros v ty; by apply find_save_out|]. split; [|split; [|split]].
  - rewrite Hfind. unfold listQuery. rewrite Hpart, Hdel. by cbn.
  - intros v ty Hin. rewrite Hfind in Hin.
    pose proof (count_save v ty i c (markDeleted now c) db Hc) as Hcount.
    rewrite Hq in Hcount. destruct (listQuery v ty c); [lia|].
    by destruct Hin.
  - intros v ty Hout. rewrite Hfind in Hout.
    pose proof (count_save v ty i c (markDeleted now c) db Hc) as Hcount.
    rewrite Hq in Hcount. destruct (listQuery v ty c); [done|lia].
  - intros v ty j Hj. by apply find_save_ne.
Qed.

Lemma deleting_shortens_every_list_witness :
  let r := deleteConversation 9 (Some "alice") "c1" Sample.db in
  statusCode r.2 = 200
  ∧ Conversation_find "bob" (Some "group") r.1 !! "c1" = None
  ∧ Conversation_countDocuments "bob" (Some "group") r.1 + 1
    = Conversation_countDocuments "bob" (Some "group") Sample.db.
Proof.
  intros r.
  assert (statusCode r.2 = 200) as H200 by reflexivity.
  destruct (deleting_shortens_every_list 9 "alice" "c1" Sample.db r.1 r.2)
    as (Hgone & _ & Hin & _); [apply surjective_pairing|exact H200|].
  refine (conj H200 (conj (Hgone _ _) (Hin _ _ _))).
  vm_compute. eexists. reflexivity.
Defined.
